(** * wardrobe-front: image compression and job polling

    A shallow embedding of the logic of the front end:

    - [ImageCompression]: [compressImage] and [compressImages]
      (lib/utils/imageCompression);
    - [MatchingSetApi]: [generateMatchingSet] and [checkJobStatus]
      (lib/api/matchingSet);
    - [StatusDisplay] and [StatusBadge]: the colour and the icon of the
      status badge;
    - [Polling]: [startPolling] of the page component, run over an explicit
      event loop (interval ticks and request completions);
    - [Page]: [handleSubmit] and [handleReset] of the page component;
    - [ImageUpload] and [Wizard]: the upload field and the clothing slots.

    JavaScript numbers.  The numbers the code computes with, the pixel
    dimensions and the quality, are binary64 floating-point numbers
    ([float]): products, quotients and differences are rounded as IEEE 754
    rounds them, a division by zero gives an infinity, and a comparison with
    [NaN] is false.  The numbers the code only compares, the byte sizes and
    the size budget, are rationals [Q]: a size is an integer, and the
    products by 1024 of the budget are exact in binary floating point. *)

From Stdlib Require Import ZArith QArith List String Ascii Bool Lia.
From Stdlib Require Import DecimalString PrimFloat.
Import ListNotations.

Set Warnings "-inexact-float".

Local Open Scope string_scope.
Local Open Scope Q_scope.
Local Open Scope list_scope.

(** ** Promises *)

(** The outcome of a promise: [resolve v] or [reject (new Error msg)]. *)
Inductive settled (A : Type) : Type :=
| Resolved (v : A)
| Rejected (msg : string).
Arguments Resolved {A} v.
Arguments Rejected {A} msg.

(** JavaScript's [s || d] on strings: the empty string is falsy. *)
Definition or_default (s d : string) : string :=
  match s with
  | EmptyString => d
  | _ => s
  end.

(** [x > y] on sizes. *)
Definition Qgtb (x y : Q) : bool := negb (Qle_bool x y).

(** [Math.min(a, b)] and [Math.max(a, b)]: [NaN] as soon as an argument is
    [NaN], and [-0] counts as smaller than [+0]. *)
Definition Math_min (a b : float) : float :=
  if is_nan a || is_nan b then nan
  else if (a <? b)%float then a
  else if (b <? a)%float then b
  else if is_zero a && get_sign a then a else b.

Definition Math_max (a b : float) : float :=
  if is_nan a || is_nan b then nan
  else if (a <? b)%float then b
  else if (b <? a)%float then a
  else if is_zero a && get_sign a then b else a.

(** ** lib/utils/imageCompression *)
Module ImageCompression.

Record Blob : Type := mkBlob {
  blob_data : list Byte.byte;
  blob_type : string
}.

Record File : Type := mkFile {
  file_data : list Byte.byte;
  name : string;
  type : string;
  lastModified : Z
}.

(** [blob.size] and [file.size]: the byte length of the payload. *)
Definition blob_size (b : Blob) : Z := Z.of_nat (List.length (blob_data b)).
Definition size (f : File) : Z := Z.of_nat (List.length (file_data f)).

(** [new File([blob], name, { type, lastModified })]. *)
Definition new_File (b : Blob) (nm ty : string) (lm : Z) : File :=
  {| file_data := blob_data b; name := nm; type := ty; lastModified := lm |}.

(** A decoded [Image]: [img.width] and [img.height], as numbers, and the
    bitmap it shows. *)
Record Image : Type := mkImage {
  img_width : float;
  img_height : float;
  img_src : string
}.

(** The canvas after [canvas.width = width; canvas.height = height;
    ctx.drawImage(img, 0, 0, width, height)]: the numbers assigned and the
    image drawn. *)
Record Canvas : Type := mkCanvas {
  canvas_width : float;
  canvas_height : float;
  canvas_image : Image
}.

(** The browser objects the function drives.  [None] stands for the
    failure callback ([reader.onerror], [img.onerror]) or for a [null]
    result ([getContext], the blob handed to the [toBlob] callback). *)
Record Browser : Type := mkBrowser {
  readAsDataURL : File -> option string;
  loadImage : string -> option Image;
  getContext2d : Canvas -> bool;
  toBlob : Canvas -> string -> float -> option Blob;
  Date_now : Z
}.

(** What the function asks of the browser, in order. *)
Inductive event : Type :=
| EvRead (f : File)
| EvDecode (src : string)
| EvDraw (w h : float)
| EvEncode (ty : string) (quality : float).

(** Computations that log their browser calls and may reject. *)
Definition M (A : Type) : Type := list event -> settled A * list event.

Definition ret {A} (v : A) : M A := fun tr => (Resolved v, tr).
Definition reject {A} (msg : string) : M A := fun tr => (Rejected msg, tr).
Definition emit (e : event) : M unit := fun tr => (Resolved tt, tr ++ [e]).
Definition bind {A B} (c : M A) (k : A -> M B) : M B :=
  fun tr =>
    match c tr with
    | (Resolved v, tr') => k v tr'
    | (Rejected msg, tr') => (Rejected msg, tr')
    end.

Notation "x <- c ;; k" := (bind c (fun x => k))
  (at level 61, c at next level, right associativity).
Notation "c ;;; k" := (bind c (fun _ => k))
  (at level 61, right associativity).

(** A browser call whose failure rejects the promise with [msg]. *)
Definition or_reject {A} (o : option A) (msg : string) : M A :=
  match o with
  | Some v => ret v
  | None => reject msg
  end.

Section CompressImage.

Variable B : Browser.

(** Lines 29-36: the target dimensions. *)
Definition resize (img : Image) (maxWidth maxHeight : float) : float * float :=
  let width := img_width img in
  let height := img_height img in
  if (maxWidth <? width)%float || (maxHeight <? height)%float then
    let ratio := Math_min (maxWidth / width) (maxHeight / height) in
    ((width * ratio)%float, (height * ratio)%float)
  else (width, height).

(** [maxSizeMB * 1024 * 1024]. *)
Definition budget (maxSizeMB : Q) : Q := maxSizeMB * 1024 * 1024.

Definition compressImage (file : File)
    (maxWidth maxHeight quality : float) (maxSizeMB : Q) : M File :=
  (* If file is already small enough, return as-is *)
  if Qle_bool (inject_Z (size file)) (budget maxSizeMB) then ret file
  else
    emit (EvRead file) ;;;
    src <- or_reject (readAsDataURL B file) "Failed to read file" ;;
    emit (EvDecode src) ;;;
    img <- or_reject (loadImage B src) "Failed to load image" ;;
    (* Calculate new dimensions *)
    let (width, height) := resize img maxWidth maxHeight in
    (* Create canvas and draw resized image *)
    let canvas :=
      {| canvas_width := width; canvas_height := height;
         canvas_image := img |} in
    if negb (getContext2d B canvas) then reject "Failed to get canvas context"
    else
      emit (EvDraw width height) ;;;
      (* Convert to blob with compression *)
      emit (EvEncode (or_default (type file) "image/jpeg") quality) ;;;
      blob <- or_reject
                (toBlob B canvas (or_default (type file) "image/jpeg") quality)
                "Failed to compress image" ;;
      (* If still too large, reduce quality further *)
      if Qgtb (inject_Z (blob_size blob)) (budget maxSizeMB)
         && (0.3 <? quality)%float then
        emit (EvEncode (or_default (type file) "image/jpeg")
                       (Math_max 0.3 (quality - 0.2))) ;;;
        match toBlob B canvas (or_default (type file) "image/jpeg")
                     (Math_max 0.3 (quality - 0.2)) with
        | None =>
            (* Fallback to original blob *)
            ret (new_File blob (name file)
                          (or_default (type file) "image/jpeg") (Date_now B))
        | Some smallerBlob =>
            ret (new_File smallerBlob (name file)
                          (or_default (type file) "image/jpeg") (Date_now B))
        end
      else
        ret (new_File blob (name file)
                      (or_default (type file) "image/jpeg") (Date_now B)).

(** The promise returned by a call, and the browser calls it made. *)
Definition run {A} (c : M A) : settled A * list event := c [].

End CompressImage.

(** Names for the parts of a run of [compressImage]: the canvas it builds
    for a decoded image, the MIME type it encodes to, the file it builds
    from the blob it keeps, and its browser calls up to and including the
    first encode. *)
Section Parts.

Variable B : Browser.
Variables (file : File) (maxWidth maxHeight quality : float).

Definition canvas_of (img : Image) : Canvas :=
  {| canvas_width := fst (resize img maxWidth maxHeight);
     canvas_height := snd (resize img maxWidth maxHeight);
     canvas_image := img |}.

Definition mime : string := or_default (type file) "image/jpeg".

Definition wrap (b : Blob) : File := new_File b (name file) mime (Date_now B).

Definition first_pass (src : string) (img : Image) : list event :=
  [EvRead file; EvDecode src;
   EvDraw (fst (resize img maxWidth maxHeight))
          (snd (resize img maxWidth maxHeight));
   EvEncode mime quality].

End Parts.

(** The dimensions of each [drawImage] of a trace, in order. *)
Fixpoint drawn (tr : list event) : list (float * float) :=
  match tr with
  | [] => []
  | EvDraw w h :: rest => (w, h) :: drawn rest
  | _ :: rest => drawn rest
  end.

(** What a run shows of the dimensions it chose for a decoded image: the
    canvas of [w] x [h] is the one asked for its context and then encoded,
    and the image is drawn once, at [w] x [h], when there is a context. *)
Definition sized (B : Browser) (file : File) (quality : float) (img : Image)
    (w h : float) (r : settled File * list event) : Prop :=
  let canvas :=
    {| canvas_width := w; canvas_height := h; canvas_image := img |} in
  if getContext2d B canvas then
    drawn (snd r) = [(w, h)]
    /\ match toBlob B canvas (mime file) quality with
       | Some _ => exists f, fst r = Resolved f
       | None => fst r = Rejected "Failed to compress image"
       end
  else drawn (snd r) = [] /\ fst r = Rejected "Failed to get canvas context".

(** The quality of each encode attempt ([canvas.toBlob]) of a trace, in
    order. *)
Fixpoint encode_qualities (tr : list event) : list float :=
  match tr with
  | [] => []
  | EvEncode _ q :: rest => q :: encode_qualities rest
  | _ :: rest => encode_qualities rest
  end.


(** Whether a trace holds a decode, a draw or an encode. *)
Definition touches_pixels (e : event) : bool :=
  match e with
  | EvRead _ => false
  | _ => true
  end.

(** *** [Promise.all] *)

Section PromiseAll.

Context {A : Type}.

(** Each promise comes with the instant at which it settles.  The earliest
    rejection, if any (on equal instants the one met first). *)
Fixpoint first_rejection (ps : list (nat * settled A)) : option (nat * string) :=
  match ps with
  | [] => None
  | (_, Resolved _) :: rest => first_rejection rest
  | (t, Rejected msg) :: rest =>
      match first_rejection rest with
      | Some (t', msg') => if (t' <? t)%nat then Some (t', msg') else Some (t, msg)
      | None => Some (t, msg)
      end
  end.

(** The values of the fulfilled promises, in the order of the array. *)
Fixpoint fulfilled_values (ps : list (nat * settled A)) : list A :=
  match ps with
  | [] => []
  | (_, Resolved v) :: rest => v :: fulfilled_values rest
  | (_, Rejected _) :: rest => fulfilled_values rest
  end.

(** [Promise.all] rejects with the first rejection; with none it fulfils
    with all the values in the order of its argument. *)
Definition Promise_all (ps : list (nat * settled A)) : settled (list A) :=
  match first_rejection ps with
  | Some (_, msg) => Rejected msg
  | None => Resolved (fulfilled_values ps)
  end.

End PromiseAll.

(** The [options] object of [compressImages]: absent fields are [None]. *)
Record Options : Type := mkOptions {
  opt_maxWidth : option float;
  opt_maxHeight : option float;
  opt_quality : option float;
  opt_maxSizeMB : option Q
}.

(** [options || {}]. *)
Definition empty_options : Options :=
  {| opt_maxWidth := None; opt_maxHeight := None;
     opt_quality := None; opt_maxSizeMB := None |}.

(** A destructuring default: [{ field = d }]. *)
Definition with_default {A : Type} (d : A) (o : option A) : A :=
  match o with
  | Some v => v
  | None => d
  end.

Section CompressImages.

Variable B : Browser.

(** [settle i] is the instant at which the promise of the [i]-th file
    settles; the scheduler decides it. *)
Variable settle : nat -> nat.

(** [files.map((file) => compressImage(file, ...))], from index [i]. *)
Fixpoint dispatch (i : nat) (files : list File)
    (maxWidth maxHeight quality : float) (maxSizeMB : Q)
    : list (nat * settled File) :=
  match files with
  | [] => []
  | file :: rest =>
      (settle i,
       fst (run (compressImage B file maxWidth maxHeight quality maxSizeMB)))
      :: dispatch (S i) rest maxWidth maxHeight quality maxSizeMB
  end.

Definition compressImages (files : list File) (options : option Options)
    : settled (list File) :=
  let o := match options with Some o => o | None => empty_options end in
  let maxWidth := with_default 1920%float (opt_maxWidth o) in
  let maxHeight := with_default 1920%float (opt_maxHeight o) in
  let quality := with_default 0.8%float (opt_quality o) in
  let maxSizeMB := with_default 1 (opt_maxSizeMB o) in
  Promise_all (dispatch 0 files maxWidth maxHeight quality maxSizeMB).

(** The promise [compressImages] creates for one file, with the defaults of
    [options] filled in. *)
Definition item_promise (file : File) (options : option Options)
    : settled File :=
  let o := match options with Some o => o | None => empty_options end in
  fst (run (compressImage B file
              (with_default 1920%float (opt_maxWidth o))
              (with_default 1920%float (opt_maxHeight o))
              (with_default 0.8%float (opt_quality o))
              (with_default 1 (opt_maxSizeMB o)))).

End CompressImages.

End ImageCompression.

(** ** lib/api/matchingSet *)
Module MatchingSetApi.

(** A value produced by [response.json()]. *)
#[warnings="-register-all"] Inductive json : Type :=
| JNull
| JBool (b : bool)
| JNum (q : Q)
| JStr (s : string)
| JArr (items : list json)
| JObj (fields : list (string * json)).

(** What a call can throw.  [Error v] is [new Error(v)]: its message is
    the string conversion of [v], that is [s] itself for [JStr s]. *)
Inductive exn : Type :=
| Error (message : json)
| TypeError (message : string)
| SyntaxError (message : string).

(** The own property [k] of an object; [None] is [undefined]. *)
Fixpoint get_field (k : string) (fields : list (string * json)) : option json :=
  match fields with
  | [] => None
  | (k', v) :: rest => if String.eqb k k' then Some v else get_field k rest
  end.

(** [v.message]: reading a property of [null] throws; numbers, booleans,
    strings and arrays have no such property. *)
Definition get_message (v : json) : exn + option json :=
  match v with
  | JNull => inl (TypeError "Cannot read properties of null (reading 'message')")
  | JObj fields => inr (get_field "message" fields)
  | _ => inr None
  end.

(** Truthiness. *)
Definition truthy (v : json) : bool :=
  match v with
  | JNull => false
  | JBool b => b
  | JNum q => negb (Qeq_bool q 0)
  | JStr s => negb (String.eqb s "")
  | JArr _ => true
  | JObj _ => true
  end.

(** [a || b], where [a] may be [undefined]. *)
Definition js_or (a : option json) (b : json) : json :=
  match a with
  | Some v => if truthy v then v else b
  | None => b
  end.

(** The decimal digits of a status code, as a template literal prints it. *)
Definition status_to_string (status : N) : string :=
  NilZero.string_of_uint (N.to_uint status).

Record Response : Type := mkResponse {
  status : N;
  (** [response.json()]: [None] when it rejects, the body being absent or
      not JSON, with the message of the syntax error left out. *)
  json_body : option json
}.

(** [response.ok]. *)
Definition ok (response : Response) : bool :=
  ((200 <=? status response) && (status response <=? 299))%N.

Inductive form_value : Type :=
| FormFile (f : ImageCompression.File)
| FormString (s : string).

Inductive body : Type :=
| FormData (entries : list (string * form_value))
| JsonBody (v : json).

Record Request : Type := mkRequest {
  req_url : string;
  req_method : string;
  req_headers : list (string * string);
  req_body : body
}.

Record ClothingImages : Type := mkClothingImages {
  top_image : option ImageCompression.File;
  bottom_image : option ImageCompression.File;
  outer_image : option ImageCompression.File;
  dress_image : option ImageCompression.File
}.

(** [if (images.k) formData.append(k, images.k)]. *)
Definition append_if (k : string) (f : option ImageCompression.File)
    (entries : list (string * form_value)) : list (string * form_value) :=
  match f with
  | Some file => entries ++ [(k, FormFile file)]
  | None => entries
  end.

Section Api.

Variable SUPABASE_FUNCTION_URL : string.

(** [fetch]: rejects ([inl]) when no response is obtained. *)
Variable fetch : Request -> exn + Response.

(** The two statements both functions run on a response that is not ok:
    [[
    const errorData = await response.json().catch(() => ({ message: 'Unknown error' }));
    throw new Error(errorData.message || `HTTP error! status: ${response.status}`);
    ]] *)
Definition http_error (response : Response) : exn :=
  let errorData :=
    match json_body response with
    | Some v => v
    | None => JObj [("message", JStr "Unknown error")]
    end in
  match get_message errorData with
  | inl e => e
  | inr m =>
      Error (js_or m
        (JStr ("HTTP error! status: " ++ status_to_string (status response))%string))
  end.

(** After the check of [response.ok]: throw, or return [response.json()]. *)
Definition finish (response : Response) : exn + json :=
  if negb (ok response) then inl (http_error response)
  else
    match json_body response with
    | Some v => inr v
    | None => inl (SyntaxError "Unexpected end of JSON input")
    end.

(** The form sent to [/remix-images].  [numOutputs] is modelled on the
    integers, the values the form can send. *)
Definition remix_form (modelImage : ImageCompression.File)
    (clothingImages : ClothingImages) (numOutputs : Z)
    : list (string * form_value) :=
  (* Use model_image (backend also accepts base_image as fallback) *)
  let formData := [("model_image", FormFile modelImage)] in
  (* Add clothing type images *)
  let formData := append_if "top_image" (top_image clothingImages) formData in
  let formData := append_if "bottom_image" (bottom_image clothingImages) formData in
  let formData := append_if "outer_image" (outer_image clothingImages) formData in
  let formData := append_if "dress_image" (dress_image clothingImages) formData in
  (* Add num_outputs (1-4) *)
  if ((1 <=? numOutputs) && (numOutputs <=? 4))%Z then
    formData ++ [("num_outputs",
                  FormString (NilZero.string_of_int (Z.to_int numOutputs)))]
  else formData.

Definition remix_request (modelImage : ImageCompression.File)
    (clothingImages : ClothingImages) (numOutputs : Z) : Request :=
  {| req_url := (SUPABASE_FUNCTION_URL ++ "/remix-images")%string;
     req_method := "POST";
     req_headers := [];
     req_body := FormData (remix_form modelImage clothingImages numOutputs) |}.

Definition status_request (predictionId : string) : Request :=
  {| req_url := (SUPABASE_FUNCTION_URL ++ "/status")%string;
     req_method := "POST";
     req_headers := [("Content-Type", "application/json")];
     req_body := JsonBody (JObj [("prediction_id", JStr predictionId)]) |}.

Definition generateMatchingSet (modelImage : ImageCompression.File)
    (clothingImages : ClothingImages) (numOutputs : Z) : exn + json :=
  if String.eqb SUPABASE_FUNCTION_URL "" then
    inl (Error (JStr "Supabase function URL is not configured"))
  else
    match fetch (remix_request modelImage clothingImages numOutputs) with
    | inl e => inl e
    | inr response => finish response
    end.

Definition checkJobStatus (predictionId : string) : exn + json :=
  if String.eqb SUPABASE_FUNCTION_URL "" then
    inl (Error (JStr "Supabase function URL is not configured"))
  else
    match fetch (status_request predictionId) with
    | inl e => inl e
    | inr response => finish response
    end.

End Api.

(** The message of the error for a response that is not ok, in the words of
    the specification: the [message] field of the JSON body when there is
    one, and a generic text with the status code when the body is absent
    or unparseable. *)
Definition spec_message (response : Response) : json :=
  match json_body response with
  | Some (JObj fields) =>
      match get_field "message" fields with
      | Some m => m
      | None =>
          JStr ("HTTP error! status: " ++ status_to_string (status response))%string
      end
  | _ => JStr ("HTTP error! status: " ++ status_to_string (status response))%string
  end.

End MatchingSetApi.

(** ** components/StatusDisplay *)
Module StatusDisplay.

(** [toLowerCase] on the letters A-Z; the status tags are ASCII. *)
Definition lower_ascii (c : ascii) : ascii :=
  let n := nat_of_ascii c in
  if ((65 <=? n) && (n <=? 90))%nat then ascii_of_nat (n + 32) else c.

Fixpoint toLowerCase (s : string) : string :=
  match s with
  | EmptyString => EmptyString
  | String c rest => String (lower_ascii c) (toLowerCase rest)
  end.

(** [cases.includes(s)] for an array of strings. *)
Definition includes (cases : list string) (s : string) : bool :=
  existsb (String.eqb s) cases.

(** The [switch (status.toLowerCase())] of [getStatusColor]. *)
Definition getStatusColor (status : string) : string :=
  let s := toLowerCase status in
  if includes ["starting"; "processing"] s then "bg-blue-500 text-blue-50"
  else if includes ["succeeded"; "completed"] s then "bg-green-500 text-green-50"
  else if includes ["failed"; "canceled"] s then "bg-red-500 text-red-50"
  else "bg-gray-500 text-gray-50".

End StatusDisplay.

(** ** app/page: [startPolling] *)
Module Polling.

(** [data.output]: one URL or a list of URLs. *)
Inductive Output : Type :=
| OutString (url : string)
| OutArray (urls : list string).

(** The fields of [StatusResponse] that [poll] reads; [None] is [null]. *)
Record StatusResponse : Type := mkStatusResponse {
  message : string;
  data_status : string;
  data_output : option Output;
  data_error : option string
}.

(** How [await checkJobStatus(id)] ends: with a response, with a thrown
    [Error] (and its message), or with a thrown value that is no [Error]. *)
Inductive outcome : Type :=
| Fulfilled (response : StatusResponse)
| ThrownError (msg : string)
| ThrownOther.

(** Truthiness of [data.output] and of [data.error]. *)
Definition truthy_output (o : option Output) : bool :=
  match o with
  | None => false
  | Some (OutString url) => negb (String.eqb url "")
  | Some (OutArray _) => true
  end.

Definition truthy_error (e : option string) : bool :=
  match e with
  | None => false
  | Some msg => negb (String.eqb msg "")
  end.

(** The calls [poll] and [startPolling] make, in order. *)
Inductive effect : Type :=
| CheckJobStatus (id : string)
| SetStatus (s : string)
| SetStatusMessage (s : string)
| SetGeneratedImages (o : option Output)
| SetError (e : option string)
| SetIsGenerating (b : bool)
| ClearInterval (t : positive)
| SetInterval (t : positive) (id : string)
| ConsoleError.

(** The state of the component and of the event loop around it.  Interval
    handles are positive integers.  [timers] are the intervals that are
    set, each with the job id its [poll] closure captured; [pending] counts
    the status requests awaiting their response. *)
Record World : Type := mkWorld {
  status : string;
  statusMessage : string;
  generatedImages : option Output;
  error : option string;
  isGenerating : bool;
  pollingIntervalRef : option positive;
  timers : list (positive * string);
  next_timer : positive;
  pending : nat;
  log : list effect
}.

Definition initial : World :=
  {| status := ""; statusMessage := ""; generatedImages := None;
     error := None; isGenerating := false; pollingIntervalRef := None;
     timers := []; next_timer := 1%positive; pending := 0%nat; log := [] |}.

Definition record (e : effect) (w : World) : World :=
  {| status := status w; statusMessage := statusMessage w;
     generatedImages := generatedImages w; error := error w;
     isGenerating := isGenerating w;
     pollingIntervalRef := pollingIntervalRef w; timers := timers w;
     next_timer := next_timer w; pending := pending w;
     log := log w ++ [e] |}.

Definition setStatus (s : string) (w : World) : World :=
  record (SetStatus s)
  {| status := s; statusMessage := statusMessage w;
     generatedImages := generatedImages w; error := error w;
     isGenerating := isGenerating w;
     pollingIntervalRef := pollingIntervalRef w; timers := timers w;
     next_timer := next_timer w; pending := pending w; log := log w |}.

Definition setStatusMessage (s : string) (w : World) : World :=
  record (SetStatusMessage s)
  {| status := status w; statusMessage := s;
     generatedImages := generatedImages w; error := error w;
     isGenerating := isGenerating w;
     pollingIntervalRef := pollingIntervalRef w; timers := timers w;
     next_timer := next_timer w; pending := pending w; log := log w |}.

Definition setGeneratedImages (o : option Output) (w : World) : World :=
  record (SetGeneratedImages o)
  {| status := status w; statusMessage := statusMessage w;
     generatedImages := o; error := error w;
     isGenerating := isGenerating w;
     pollingIntervalRef := pollingIntervalRef w; timers := timers w;
     next_timer := next_timer w; pending := pending w; log := log w |}.

Definition setError (e : option string) (w : World) : World :=
  record (SetError e)
  {| status := status w; statusMessage := statusMessage w;
     generatedImages := generatedImages w; error := e;
     isGenerating := isGenerating w;
     pollingIntervalRef := pollingIntervalRef w; timers := timers w;
     next_timer := next_timer w; pending := pending w; log := log w |}.

Definition setIsGenerating (b : bool) (w : World) : World :=
  record (SetIsGenerating b)
  {| status := status w; statusMessage := statusMessage w;
     generatedImages := generatedImages w; error := error w;
     isGenerating := b;
     pollingIntervalRef := pollingIntervalRef w; timers := timers w;
     next_timer := next_timer w; pending := pending w; log := log w |}.

(** [pollingIntervalRef.current = r]. *)
Definition set_ref (r : option positive) (w : World) : World :=
  {| status := status w; statusMessage := statusMessage w;
     generatedImages := generatedImages w; error := error w;
     isGenerating := isGenerating w;
     pollingIntervalRef := r; timers := timers w;
     next_timer := next_timer w; pending := pending w; log := log w |}.

Definition set_pending (n : nat) (w : World) : World :=
  {| status := status w; statusMessage := statusMessage w;
     generatedImages := generatedImages w; error := error w;
     isGenerating := isGenerating w;
     pollingIntervalRef := pollingIntervalRef w; timers := timers w;
     next_timer := next_timer w; pending := n; log := log w |}.

(** [clearInterval(t)]: the interval [t] no longer fires. *)
Definition clearInterval (t : positive) (w : World) : World :=
  record (ClearInterval t)
  {| status := status w; statusMessage := statusMessage w;
     generatedImages := generatedImages w; error := error w;
     isGenerating := isGenerating w;
     pollingIntervalRef := pollingIntervalRef w;
     timers := filter (fun e => negb (Pos.eqb (fst e) t)) (timers w);
     next_timer := next_timer w; pending := pending w; log := log w |}.

(** [setInterval(poll, 3000)] with [poll] closed over [id]: a fresh handle. *)
Definition setInterval (id : string) (w : World) : positive * World :=
  let t := next_timer w in
  (t, record (SetInterval t id)
  {| status := status w; statusMessage := statusMessage w;
     generatedImages := generatedImages w; error := error w;
     isGenerating := isGenerating w;
     pollingIntervalRef := pollingIntervalRef w;
     timers := timers w ++ [(t, id)];
     next_timer := Pos.succ t; pending := pending w; log := log w |}).

(** The block that occurs four times in [startPolling]:
    [[
    if (pollingIntervalRef.current) {
      clearInterval(pollingIntervalRef.current);
      pollingIntervalRef.current = null;
    }
    ]] *)
Definition clear_polling (w : World) : World :=
  match pollingIntervalRef w with
  | Some t => set_ref None (clearInterval t w)
  | None => w
  end.

(** [poll] up to its [await]: the status request is sent. *)
Definition poll_request (id : string) (w : World) : World :=
  set_pending (S (pending w)) (record (CheckJobStatus id) w).

(** [poll] after its [await], on the outcome of the request. *)
Definition poll_resume (o : outcome) (w : World) : World :=
  match o with
  | Fulfilled response =>
      let currentStatus := data_status response in
      let w := setStatus currentStatus w in
      let w := setStatusMessage (or_default (message response) "") w in
      let w :=
        if truthy_output (data_output response)
        then setGeneratedImages (data_output response) w
        else w in
      if truthy_error (data_error response) then
        let w := setError (data_error response) w in
        let w := setIsGenerating false w in
        clear_polling w
      else
        (* Stop polling if job is complete *)
        if StatusDisplay.includes ["succeeded"; "failed"; "canceled"] currentStatus
        then
          let w := setIsGenerating false w in
          clear_polling w
        else w
  | ThrownError msg =>
      let w := record ConsoleError w in
      let w := setError (Some msg) w in
      let w := setIsGenerating false w in
      clear_polling w
  | ThrownOther =>
      let w := record ConsoleError w in
      let w := setError (Some "Failed to check job status") w in
      let w := setIsGenerating false w in
      clear_polling w
  end.

Definition startPolling (id : string) (w : World) : World :=
  (* Clear any existing polling *)
  let w := clear_polling w in
  (* Poll immediately, then every 3 seconds *)
  let w := poll_request id w in
  let (t, w) := setInterval id w in
  set_ref (Some t) w.

(** What the event loop runs next: a call of [startPolling], the callback
    of interval [t], or the continuation of a [poll] whose request ended. *)
Inductive event : Type :=
| StartPolling (id : string)
| Tick (t : positive)
| Settle (o : outcome).

(** The job id captured by the callback of interval [t], if [t] is set. *)
Fixpoint timer_callback (t : positive) (ts : list (positive * string))
    : option string :=
  match ts with
  | [] => None
  | (t', id) :: rest => if Pos.eqb t' t then Some id else timer_callback t rest
  end.

Definition step (w : World) (e : event) : World :=
  match e with
  | StartPolling id => startPolling id w
  | Tick t =>
      match timer_callback t (timers w) with
      | Some id => poll_request id w
      | None => w
      end
  | Settle o =>
      match pending w with
      | O => w
      | S n => poll_resume o (set_pending n w)
      end
  end.

Definition run (w : World) (es : list event) : World := fold_left step es w.

(** The number of status requests sent and of [setStatus] calls so far. *)
Definition is_request (e : effect) : bool :=
  match e with CheckJobStatus _ => true | _ => false end.
Definition is_update (e : effect) : bool :=
  match e with SetStatus _ => true | _ => false end.
Definition requests (w : World) : nat := List.length (filter is_request (log w)).
Definition updates (w : World) : nat := List.length (filter is_update (log w)).

(** A snapshot that ends the session: a non-empty error or a terminal tag. *)
Definition stops (r : StatusResponse) : bool :=
  truthy_error (data_error r)
  || StatusDisplay.includes ["succeeded"; "failed"; "canceled"] (data_status r).

(** A scripted session: each response arrives before the interval fires
    again. *)
Definition script (t : positive) (rs : list StatusResponse) : list event :=
  flat_map (fun r => [Settle (Fulfilled r); Tick t]) rs.

Definition is_start (e : event) : bool :=
  match e with StartPolling _ => true | _ => false end.

(** Every interval that is set is the one [pollingIntervalRef] holds. *)
Definition held (w : World) : Prop :=
  forall t id, In (t, id) (timers w) -> pollingIntervalRef w = Some t.

(** A session in its steady state: interval [t] is set for job [id] and one
    request is awaiting its response. *)
Definition polling_state (t : positive) (id : string) (w : World) : Prop :=
  pollingIntervalRef w = Some t /\ timers w = [(t, id)] /\ pending w = 1%nat.

End Polling.

(** ** Sample inputs *)
Module Samples.

Import ImageCompression.

(** An encoder whose output shrinks with the quality: eight bytes at 0.8
    and above, six from 0.5 on, three below. *)
Definition sample_encode (c : Canvas) (ty : string) (q : float) : option Blob :=
  Some {| blob_data :=
            repeat Byte.x00
              (if (0.8 <=? q)%float then 8
               else if (0.5 <=? q)%float then 6 else 3)%nat;
          blob_type := ty |}.

Definition sample_image (src : string) : Image :=
  {| img_width := 4000; img_height := 2000; img_src := src |}.

Definition sample_browser : Browser :=
  {| readAsDataURL := fun _ => Some "data:image/png;base64,iVBORw0KGgo=";
     loadImage := fun src => Some (sample_image src);
     getContext2d := fun _ => true;
     toBlob := sample_encode;
     Date_now := 1700000000000 |}.

(** The same browser with an encoder that yields no blob on a retry. *)
Definition flaky_browser : Browser :=
  {| readAsDataURL := readAsDataURL sample_browser;
     loadImage := loadImage sample_browser;
     getContext2d := getContext2d sample_browser;
     toBlob := fun c ty q =>
       if (0.8 <=? q)%float then sample_encode c ty q else None;
     Date_now := Date_now sample_browser |}.

(** A browser that cannot decode files named [broken.png]. *)
Definition picky_browser : Browser :=
  {| readAsDataURL := fun f =>
       if String.eqb (name f) "broken.png" then Some "data:," 
       else readAsDataURL sample_browser f;
     loadImage := fun src =>
       if String.eqb src "data:," then None else loadImage sample_browser src;
     getContext2d := getContext2d sample_browser;
     toBlob := toBlob sample_browser;
     Date_now := Date_now sample_browser |}.

(** A file of twelve bytes and one of two bytes. *)
Definition big_file : File :=
  {| file_data := repeat Byte.xff 12; name := "photo.png";
     type := "image/png"; lastModified := 1600000000000 |}.

Definition small_file : File :=
  {| file_data := [Byte.x89; Byte.x50]; name := "icon.png";
     type := "image/png"; lastModified := 1600000000000 |}.

Definition broken_file : File :=
  {| file_data := repeat Byte.x00 12; name := "broken.png";
     type := "image/png"; lastModified := 1600000000000 |}.

(** A size budget of five bytes, as [maxSizeMB]. *)
Definition five_bytes : Q := 5 # 1048576.

(** The remote service, answering every request with the same response. *)
Definition sample_url : string :=
  "https://project.supabase.co/functions/v1/generate-matching-set".

Definition always (response : MatchingSetApi.Response)
    : MatchingSetApi.Request -> MatchingSetApi.exn + MatchingSetApi.Response :=
  fun _ => inr response.

(** A 500 whose body is not JSON, and a 404 with a JSON body. *)
Definition server_error : MatchingSetApi.Response :=
  {| MatchingSetApi.status := 500; MatchingSetApi.json_body := None |}.

Definition not_found : MatchingSetApi.Response :=
  {| MatchingSetApi.status := 404;
     MatchingSetApi.json_body :=
       Some (MatchingSetApi.JObj
               [("status", MatchingSetApi.JStr "error");
                ("message", MatchingSetApi.JStr "Prediction not found")]) |}.

Definition only_top : MatchingSetApi.ClothingImages :=
  {| MatchingSetApi.top_image := Some small_file;
     MatchingSetApi.bottom_image := None;
     MatchingSetApi.outer_image := None;
     MatchingSetApi.dress_image := None |}.

(** Snapshots of a job. *)
Definition snapshot (tag : string) : Polling.StatusResponse :=
  {| Polling.message := "Status retrieved";
     Polling.data_status := tag;
     Polling.data_output := None;
     Polling.data_error := None |}.

Definition finished (tag : string) : Polling.StatusResponse :=
  {| Polling.message := "Status retrieved";
     Polling.data_status := tag;
     Polling.data_output :=
       Some (Polling.OutArray ["https://cdn.example/out-0.png"]);
     Polling.data_error := None |}.

(** A snapshot with an output and an error, its status not terminal. *)
Definition errored (o : Polling.Output) : Polling.StatusResponse :=
  {| Polling.message := "Status retrieved";
     Polling.data_status := "processing";
     Polling.data_output := Some o;
     Polling.data_error := Some "CUDA out of memory" |}.

End Samples.

(** ** components/StatusDisplay: the icon *)
Module StatusBadge.

(** What [getStatusIcon] returns: one of three drawings, or [null]. *)
Inductive icon : Type :=
| Spinner
| CheckMark
| Cross.

(** The [switch (status.toLowerCase())] of [getStatusIcon]; [None] is
    [null]. *)
Definition getStatusIcon (status : string) : option icon :=
  let s := StatusDisplay.toLowerCase status in
  if StatusDisplay.includes ["starting"; "processing"] s then Some Spinner
  else if StatusDisplay.includes ["succeeded"; "completed"] s then Some CheckMark
  else if StatusDisplay.includes ["failed"; "canceled"] s then Some Cross
  else None.

End StatusBadge.

(** ** components/ImageUpload *)
Module ImageUpload.

Import ImageCompression.

(** [validateFile]: the error text, or [None] for [null]. *)
Definition validateFile (file : File) : option string :=
  if negb (String.prefix "image/" (type file)) then
    Some (name file ++ " is not an image file")%string
  else
    (* No size validation - images will be compressed before sending *)
    None.

(** [fileArray.forEach((file) => { const error = validateFile(file);
    if (error) errors.push(error); })]. *)
Fixpoint collect_errors (fileArray : list File) : list string :=
  match fileArray with
  | [] => []
  | file :: rest =>
      match validateFile file with
      | Some error => error :: collect_errors rest
      | None => collect_errors rest
      end
  end.

(** What a call of [handleFiles] leaves behind: the [error] state of the
    component and the argument of [onFilesChange], if it was called. *)
Record handled : Type := mkHandled {
  error : option string;
  filesChange : option (list File)
}.

(** [handleFiles(files)]; [None] is a [null] file list, [error0] the
    [error] state before the call. *)
Definition handleFiles (acceptMultiple : bool) (selectedFiles : list File)
    (error0 : option string) (files : option (list File)) : handled :=
  match files with
  | None => {| error := error0; filesChange := None |}
  | Some [] => {| error := error0; filesChange := None |}
  | Some fileArray =>
      let errors := collect_errors fileArray in
      if (0 <? List.length errors)%nat then
        {| error := Some (String.concat ", " errors); filesChange := None |}
      else if acceptMultiple then
        {| error := None; filesChange := Some (selectedFiles ++ fileArray) |}
      else
        {| error := None; filesChange := Some fileArray |}
  end.

(** [selectedFiles.filter((_, i) => i !== index)], from position [i]. *)
Fixpoint filter_index (i index : nat) (selectedFiles : list File) : list File :=
  match selectedFiles with
  | [] => []
  | file :: rest =>
      if negb (Nat.eqb i index) then file :: filter_index (S i) index rest
      else filter_index (S i) index rest
  end.

(** [removeFile(index)]: the list handed to [onFilesChange]. *)
Definition removeFile (index : nat) (selectedFiles : list File) : list File :=
  filter_index 0 index selectedFiles.

End ImageUpload.

(** ** app/page: [handleSubmit] and [handleReset] *)
Module Page.

Import ImageCompression.

(** The fields of [GenerateMatchingSetResponse] that [handleSubmit] reads. *)
Record GenerateMatchingSetResponse : Type := mkSubmitted {
  response_status : string;
  response_message : string;
  data_prediction_id : string;
  data_status : string
}.

(** How [await generateMatchingSet(...)] ends, as for [checkJobStatus]. *)
Inductive submission : Type :=
| Returned (response : GenerateMatchingSetResponse)
| ThrownError (msg : string)
| ThrownOther.

(** The calls of [handleSubmit] into the two libraries, in order. *)
Inductive call : Type :=
| CompressImage (file : File)
| GenerateMatchingSet (modelImage : File)
    (clothingImages : MatchingSetApi.ClothingImages) (numOutputs : Z).

(** The state of the component: the part [startPolling] works on
    ([status], [statusMessage], [generatedImages], [error], [isGenerating],
    [pollingIntervalRef] and the event loop) and the rest. *)
Record Home : Type := mkHome {
  world : Polling.World;
  modelImage : list File;
  topImage : list File;
  bottomImage : list File;
  outerImage : list File;
  dressImage : list File;
  numOutputs : Z;
  isCompressing : bool;
  predictionId : option string;
  calls : list call
}.

(** A state update of the polling part. *)
Definition on_world (f : Polling.World -> Polling.World) (h : Home) : Home :=
  {| world := f (world h); modelImage := modelImage h; topImage := topImage h;
     bottomImage := bottomImage h; outerImage := outerImage h;
     dressImage := dressImage h; numOutputs := numOutputs h;
     isCompressing := isCompressing h; predictionId := predictionId h;
     calls := calls h |}.

Definition setIsCompressing (b : bool) (h : Home) : Home :=
  {| world := world h; modelImage := modelImage h; topImage := topImage h;
     bottomImage := bottomImage h; outerImage := outerImage h;
     dressImage := dressImage h; numOutputs := numOutputs h;
     isCompressing := b; predictionId := predictionId h; calls := calls h |}.

Definition setPredictionId (id : option string) (h : Home) : Home :=
  {| world := world h; modelImage := modelImage h; topImage := topImage h;
     bottomImage := bottomImage h; outerImage := outerImage h;
     dressImage := dressImage h; numOutputs := numOutputs h;
     isCompressing := isCompressing h; predictionId := id; calls := calls h |}.

Definition called (cs : list call) (h : Home) : Home :=
  {| world := world h; modelImage := modelImage h; topImage := topImage h;
     bottomImage := bottomImage h; outerImage := outerImage h;
     dressImage := dressImage h; numOutputs := numOutputs h;
     isCompressing := isCompressing h; predictionId := predictionId h;
     calls := calls h ++ cs |}.

(** [files.length > 0 ? [files[0]] : []]: what a slot adds to the images
    to compress. *)
Definition first_of (files : list File) : list File :=
  match files with
  | [] => []
  | file :: _ => [file]
  end.

(** [files.length > 0]. *)
Definition selected (files : list File) : bool :=
  match files with
  | [] => false
  | _ :: _ => true
  end.

(** [if (slot.length > 0) { clothingImages.k = compressedImages[compressedIndex++]; }]:
    the value of the field, [None] when it is not set or set to
    [undefined], and the index afterwards. *)
Definition take_slot (slot : list File) (compressedImages : list File)
    (compressedIndex : nat) : option File * nat :=
  if selected slot then (nth_error compressedImages compressedIndex, S compressedIndex)
  else (None, compressedIndex).

Section Handlers.

Variable B : Browser.

(** The instant at which the [i]-th compression of a submission settles. *)
Variable settle : nat -> nat.

(** [generateMatchingSet], by what it is called with. *)
Variable generateMatchingSet :
  File -> MatchingSetApi.ClothingImages -> Z -> submission.

(** The [catch] block of [handleSubmit]. *)
Definition submit_failed (msg : string) (h : Home) : Home :=
  let h := on_world (Polling.record Polling.ConsoleError) h in
  let h := on_world (Polling.setError (Some msg)) h in
  let h := on_world (Polling.setIsGenerating false) h in
  setIsCompressing false h.

(** [handleSubmit], run to its end: the event loop handles nothing else
    between its two [await]s. *)
Definition handleSubmit (h : Home) : Home :=
  let h := on_world (Polling.setError None) h in
  let h := on_world (Polling.setGeneratedImages None) h in
  let h := on_world (Polling.setStatus "") h in
  let h := on_world (Polling.setStatusMessage "") h in
  match modelImage h with
  | [] => on_world (Polling.setError (Some "Please select a model image")) h
  | model :: _ =>
      (* Check if at least one clothing image is selected *)
      let hasClothingImage :=
        selected (topImage h) || selected (bottomImage h)
        || selected (outerImage h) || selected (dressImage h) in
      if negb hasClothingImage then
        on_world
          (Polling.setError
             (Some "Please select at least one clothing image (top, bottom, outer, or dress)"))
          h
      else
        let h := on_world (Polling.setIsGenerating true) h in
        let h := setIsCompressing true h in
        (* Compress all images before sending *)
        let files :=
          model :: first_of (topImage h) ++ first_of (bottomImage h)
                ++ first_of (outerImage h) ++ first_of (dressImage h) in
        let h := called (map CompressImage files) h in
        match Promise_all (dispatch B settle 0 files 1920 1920 0.8 1) with
        | Rejected msg => submit_failed msg h
        | Resolved compressedImages =>
            let h := setIsCompressing false h in
            (* Build clothing images object *)
            let compressedIndex := 1%nat in (* Start after model image *)
            let (top, compressedIndex) :=
              take_slot (topImage h) compressedImages compressedIndex in
            let (bottom, compressedIndex) :=
              take_slot (bottomImage h) compressedImages compressedIndex in
            let (outer, compressedIndex) :=
              take_slot (outerImage h) compressedImages compressedIndex in
            let (dress, compressedIndex) :=
              take_slot (dressImage h) compressedImages compressedIndex in
            let clothingImages :=
              {| MatchingSetApi.top_image := top;
                 MatchingSetApi.bottom_image := bottom;
                 MatchingSetApi.outer_image := outer;
                 MatchingSetApi.dress_image := dress |} in
            (* compressedImages[0]: [Promise.all] resolves with one value per
               promise, so the list is not empty; [model] stands for the
               [undefined] of an empty one *)
            let modelFile := hd model compressedImages in
            let h := called [GenerateMatchingSet modelFile clothingImages
                               (numOutputs h)] h in
            match generateMatchingSet modelFile clothingImages (numOutputs h) with
            | Returned response =>
                if String.eqb (response_status response) "success"
                   && negb (String.eqb (data_prediction_id response) "")
                then
                  let h := setPredictionId (Some (data_prediction_id response)) h in
                  let h := on_world (Polling.setStatus (data_status response)) h in
                  on_world (Polling.startPolling (data_prediction_id response)) h
                else
                  submit_failed
                    (or_default (response_message response)
                                "Failed to start generation") h
            | ThrownError msg => submit_failed msg h
            | ThrownOther => submit_failed "Failed to start generation" h
            end
        end
  end.

(** [handleSubmit] with the event loop at work during its two [await]s:
    [during_compression] are the events of the polling loop handled while
    [Promise.all] is awaited, [during_submission] those handled while
    [generateMatchingSet] is.  The images and [numOutputs] are those of the
    closure.  [handleSubmit] above is the case where both lists are
    empty. *)
Definition handleSubmit_awaiting
    (during_compression during_submission : list Polling.event) (h : Home)
    : Home :=
  let h := on_world (Polling.setError None) h in
  let h := on_world (Polling.setGeneratedImages None) h in
  let h := on_world (Polling.setStatus "") h in
  let h := on_world (Polling.setStatusMessage "") h in
  match modelImage h with
  | [] => on_world (Polling.setError (Some "Please select a model image")) h
  | model :: _ =>
      (* Check if at least one clothing image is selected *)
      let hasClothingImage :=
        selected (topImage h) || selected (bottomImage h)
        || selected (outerImage h) || selected (dressImage h) in
      if negb hasClothingImage then
        on_world
          (Polling.setError
             (Some "Please select at least one clothing image (top, bottom, outer, or dress)"))
          h
      else
        let h := on_world (Polling.setIsGenerating true) h in
        let h := setIsCompressing true h in
        (* Compress all images before sending *)
        let files :=
          model :: first_of (topImage h) ++ first_of (bottomImage h)
                ++ first_of (outerImage h) ++ first_of (dressImage h) in
        let h := called (map CompressImage files) h in
        (* await Promise.all(compressionPromises) *)
        let h := on_world (fun w => Polling.run w during_compression) h in
        match Promise_all (dispatch B settle 0 files 1920 1920 0.8 1) with
        | Rejected msg => submit_failed msg h
        | Resolved compressedImages =>
            let h := setIsCompressing false h in
            (* Build clothing images object *)
            let compressedIndex := 1%nat in (* Start after model image *)
            let (top, compressedIndex) :=
              take_slot (topImage h) compressedImages compressedIndex in
            let (bottom, compressedIndex) :=
              take_slot (bottomImage h) compressedImages compressedIndex in
            let (outer, compressedIndex) :=
              take_slot (outerImage h) compressedImages compressedIndex in
            let (dress, compressedIndex) :=
              take_slot (dressImage h) compressedImages compressedIndex in
            let clothingImages :=
              {| MatchingSetApi.top_image := top;
                 MatchingSetApi.bottom_image := bottom;
                 MatchingSetApi.outer_image := outer;
                 MatchingSetApi.dress_image := dress |} in
            let modelFile := hd model compressedImages in
            let h := called [GenerateMatchingSet modelFile clothingImages
                               (numOutputs h)] h in
            (* await generateMatchingSet(...) *)
            let h := on_world (fun w => Polling.run w during_submission) h in
            match generateMatchingSet modelFile clothingImages (numOutputs h) with
            | Returned response =>
                if String.eqb (response_status response) "success"
                   && negb (String.eqb (data_prediction_id response) "")
                then
                  let h := setPredictionId (Some (data_prediction_id response)) h in
                  let h := on_world (Polling.setStatus (data_status response)) h in
                  on_world (Polling.startPolling (data_prediction_id response)) h
                else
                  submit_failed
                    (or_default (response_message response)
                                "Failed to start generation") h
            | ThrownError msg => submit_failed msg h
            | ThrownOther => submit_failed "Failed to start generation" h
            end
        end
  end.

Definition handleReset (h : Home) : Home :=
  let h :=
    {| world := world h; modelImage := []; topImage := []; bottomImage := [];
       outerImage := []; dressImage := []; numOutputs := 1;
       isCompressing := isCompressing h; predictionId := None;
       calls := calls h |} in
  let h := on_world (Polling.setStatus "") h in
  let h := on_world (Polling.setStatusMessage "") h in
  let h := on_world (Polling.setGeneratedImages None) h in
  let h := on_world (Polling.setError None) h in
  let h := on_world (Polling.setIsGenerating false) h in
  on_world Polling.clear_polling h.

(** What happens to the component: a submission, a reset, or an event of
    the polling loop. *)
Inductive action : Type :=
| Submit
| Reset
| Loop (e : Polling.event).

Definition act (h : Home) (a : action) : Home :=
  match a with
  | Submit => handleSubmit h
  | Reset => handleReset h
  | Loop e => on_world (fun w => Polling.step w e) h
  end.

Definition run (h : Home) (acts : list action) : Home := fold_left act acts h.

End Handlers.

(** The component as it is mounted. *)
Definition mounted : Home :=
  {| world := Polling.initial; modelImage := []; topImage := [];
     bottomImage := []; outerImage := []; dressImage := []; numOutputs := 1;
     isCompressing := false; predictionId := None; calls := [] |}.

(** The selection handlers of the upload fields: [setModelImage] and the
    four clothing setters. *)
Definition setImages (model top bottom outer dress : list File) (h : Home)
    : Home :=
  {| world := world h; modelImage := model; topImage := top;
     bottomImage := bottom; outerImage := outer; dressImage := dress;
     numOutputs := numOutputs h; isCompressing := isCompressing h;
     predictionId := predictionId h; calls := calls h |}.

End Page.

(** ** app/page, one item at a time: the clothing slots *)
Module Wizard.

Import ImageCompression.

Inductive ClothingType : Type :=
| Top
| Bottom
| Outer
| Dress.

(** The four clothing states of the component. *)
Record Slots : Type := mkSlots {
  topImage : list File;
  bottomImage : list File;
  outerImage : list File;
  dressImage : list File
}.

Definition setTopImage (files : list File) (s : Slots) : Slots :=
  {| topImage := files; bottomImage := bottomImage s;
     outerImage := outerImage s; dressImage := dressImage s |}.
Definition setBottomImage (files : list File) (s : Slots) : Slots :=
  {| topImage := topImage s; bottomImage := files;
     outerImage := outerImage s; dressImage := dressImage s |}.
Definition setOuterImage (files : list File) (s : Slots) : Slots :=
  {| topImage := topImage s; bottomImage := bottomImage s;
     outerImage := files; dressImage := dressImage s |}.
Definition setDressImage (files : list File) (s : Slots) : Slots :=
  {| topImage := topImage s; bottomImage := bottomImage s;
     outerImage := outerImage s; dressImage := files |}.

(** [type !== other]. *)
Definition differs (type other : ClothingType) : bool :=
  match type, other with
  | Top, Top | Bottom, Bottom | Outer, Outer | Dress, Dress => false
  | _, _ => true
  end.

(** Check if any clothing is uploaded *)
Definition hasClothingUploaded (s : Slots) : bool :=
  Page.selected (topImage s) || Page.selected (bottomImage s)
  || Page.selected (outerImage s) || Page.selected (dressImage s).

(** Handle clothing upload - clear other uploaders when one is uploaded *)
Definition handleClothingUpload (type : ClothingType) (files : list File)
    (s : Slots) : Slots :=
  (* Clear all other clothing uploaders when one is uploaded *)
  let s := if differs type Top then setTopImage [] s else s in
  let s := if differs type Bottom then setBottomImage [] s else s in
  let s := if differs type Outer then setOuterImage [] s else s in
  let s := if differs type Dress then setDressImage [] s else s in
  (* Set the selected one *)
  match type with
  | Top => setTopImage files s
  | Bottom => setBottomImage files s
  | Outer => setOuterImage files s
  | Dress => setDressImage files s
  end.

(** In [handleSubmit]: check which clothing image is selected.  [None]
    when [selectedClothingFile] and [selectedClothingType] stay [null]. *)
Definition selectedClothing (s : Slots) : option (ClothingType * File) :=
  match topImage s with
  | file :: _ => Some (Top, file)
  | [] =>
      match bottomImage s with
      | file :: _ => Some (Bottom, file)
      | [] =>
          match outerImage s with
          | file :: _ => Some (Outer, file)
          | [] =>
              match dressImage s with
              | file :: _ => Some (Dress, file)
              | [] => None
              end
          end
      end
  end.

(** In [handleSubmit]: build clothing images object with only the selected
    clothing. *)
Definition clothingImages_of (selectedClothingType : ClothingType)
    (compressedClothing : File) : MatchingSetApi.ClothingImages :=
  match selectedClothingType with
  | Top =>
      {| MatchingSetApi.top_image := Some compressedClothing;
         MatchingSetApi.bottom_image := None;
         MatchingSetApi.outer_image := None;
         MatchingSetApi.dress_image := None |}
  | Bottom =>
      {| MatchingSetApi.top_image := None;
         MatchingSetApi.bottom_image := Some compressedClothing;
         MatchingSetApi.outer_image := None;
         MatchingSetApi.dress_image := None |}
  | Outer =>
      {| MatchingSetApi.top_image := None;
         MatchingSetApi.bottom_image := None;
         MatchingSetApi.outer_image := Some compressedClothing;
         MatchingSetApi.dress_image := None |}
  | Dress =>
      {| MatchingSetApi.top_image := None;
         MatchingSetApi.bottom_image := None;
         MatchingSetApi.outer_image := None;
         MatchingSetApi.dress_image := Some compressedClothing |}
  end.

(** The field of the upload form a clothing type is sent under. *)
Definition field_of (type : ClothingType) : string :=
  match type with
  | Top => "top_image"
  | Bottom => "bottom_image"
  | Outer => "outer_image"
  | Dress => "dress_image"
  end.

End Wizard.

(** ** Reading a form and a log *)
Module Views.

(** The first entry of a form under the key [k]. *)
Fixpoint form_get (k : string)
    (entries : list (string * MatchingSetApi.form_value))
    : option MatchingSetApi.form_value :=
  match entries with
  | [] => None
  | (k', v) :: rest => if String.eqb k k' then Some v else form_get k rest
  end.

(** The job ids of the status requests of a log, in order. *)
Fixpoint requested_ids (l : list Polling.effect) : list string :=
  match l with
  | [] => []
  | Polling.CheckJobStatus id :: rest => id :: requested_ids rest
  | _ :: rest => requested_ids rest
  end.

(** No interval is set, or exactly one, which the ref holds. *)
Definition one_timer (w : Polling.World) : Prop :=
  (Polling.pollingIntervalRef w = None /\ Polling.timers w = [])
  \/ exists t id,
       Polling.pollingIntervalRef w = Some t /\ Polling.timers w = [(t, id)].

(** The images a submission compresses: the first of each selection, the
    model photo first. *)
Definition submitted_files (h : Page.Home) : list ImageCompression.File :=
  Page.first_of (Page.modelImage h) ++ Page.first_of (Page.topImage h)
  ++ Page.first_of (Page.bottomImage h) ++ Page.first_of (Page.outerImage h)
  ++ Page.first_of (Page.dressImage h).

(** [compressImage(file, 1920, 1920, 0.8, 1)], as [handleSubmit] calls it. *)
Definition compressed (B : ImageCompression.Browser)
    (file : ImageCompression.File) : settled ImageCompression.File :=
  fst (ImageCompression.run
         (ImageCompression.compressImage B file 1920 1920 0.8 1)).

(** A clothing field of the submission agrees with a selection: absent for
    an empty selection, the compressed first file otherwise. *)
Definition slot_sent (B : ImageCompression.Browser)
    (slot : list ImageCompression.File)
    (sent : option ImageCompression.File) : Prop :=
  match slot with
  | [] => sent = None
  | file :: _ => exists g, sent = Some g /\ compressed B file = Resolved g
  end.

(** Whether a call is a submission to the remote service. *)
Definition is_generate (c : Page.call) : bool :=
  match c with
  | Page.GenerateMatchingSet _ _ _ => true
  | Page.CompressImage _ => false
  end.

(** Two states of the polling part with the same event loop: the same
    intervals, ref and awaited responses, and the same requests sent. *)
Definition same_loop (w w' : Polling.World) : Prop :=
  Polling.timers w' = Polling.timers w
  /\ Polling.pollingIntervalRef w' = Polling.pollingIntervalRef w
  /\ Polling.pending w' = Polling.pending w
  /\ Polling.next_timer w' = Polling.next_timer w
  /\ requested_ids (Polling.log w') = requested_ids (Polling.log w).

(** The polling part after the four resets that open [handleSubmit], after
    [setIsGenerating(true)], and after the [catch] block. *)
Definition wiped (w : Polling.World) : Polling.World :=
  Polling.setStatusMessage ""
    (Polling.setStatus ""
       (Polling.setGeneratedImages None (Polling.setError None w))).

Definition generating (w : Polling.World) : Polling.World :=
  Polling.setIsGenerating true (wiped w).

Definition failed (msg : string) (w : Polling.World) : Polling.World :=
  Polling.setIsGenerating false
    (Polling.setError (Some msg)
       (Polling.record Polling.ConsoleError (generating w))).

(** [response.status === 'success' && response.data.prediction_id]. *)
Definition accepted (response : Page.GenerateMatchingSetResponse) : bool :=
  String.eqb (Page.response_status response) "success"
  && negb (String.eqb (Page.data_prediction_id response) "").

(** What the [catch] block of [handleSubmit] shows for an outcome of the
    submission that is not an accepted job. *)
Definition refusal_message (o : Page.submission) : string :=
  match o with
  | Page.Returned response =>
      or_default (Page.response_message response) "Failed to start generation"
  | Page.ThrownError msg => msg
  | Page.ThrownOther => "Failed to start generation"
  end.

(** Whether the type of a file starts with [image/], the test of
    [validateFile]. *)
Definition is_image (file : ImageCompression.File) : bool :=
  String.prefix "image/" (ImageCompression.type file).

(** Whether an event of the polling loop is the handling of a response. *)
Definition is_settle (e : Polling.event) : bool :=
  match e with
  | Polling.Settle _ => true
  | _ => false
  end.

(** The number of [action]s of a list that are submissions. *)
Definition is_submit (a : Page.action) : bool :=
  match a with
  | Page.Submit => true
  | Page.Loop (Polling.StartPolling _) => true
  | _ => false
  end.

End Views.

(** ** More sample inputs *)
Module Fixtures.

Import ImageCompression.

Definition text_file : File :=
  {| file_data := [Byte.x68; Byte.x69]; name := "notes.txt";
     type := "text/plain"; lastModified := 1600000000000 |}.

Definition shirt : File :=
  {| file_data := [Byte.x01; Byte.x02; Byte.x03]; name := "shirt.png";
     type := "image/png"; lastModified := 1600000000001 |}.

Definition coat : File :=
  {| file_data := [Byte.x04]; name := "coat.jpg";
     type := "image/jpeg"; lastModified := 1600000000002 |}.

(** A file with no MIME type, of twelve bytes. *)
Definition untyped_file : File :=
  {| file_data := repeat Byte.xaa 12; name := "scan";
     type := ""; lastModified := 1600000000003 |}.

(** A service that accepts every submission as job [pred-7]. *)
Definition accepting (modelImage : File)
    (clothingImages : MatchingSetApi.ClothingImages) (numOutputs : Z)
    : Page.submission :=
  Page.Returned
    {| Page.response_status := "success";
       Page.response_message := "Generation started";
       Page.data_prediction_id := "pred-7";
       Page.data_status := "starting" |}.

(** A service that answers without a job id. *)
Definition refusing (modelImage : File)
    (clothingImages : MatchingSetApi.ClothingImages) (numOutputs : Z)
    : Page.submission :=
  Page.Returned
    {| Page.response_status := "error";
       Page.response_message := "Quota exceeded";
       Page.data_prediction_id := "";
       Page.data_status := "" |}.

(** A photo just over one mebibyte, and a browser that cannot read files. *)
Definition huge_file : File :=
  {| file_data := repeat Byte.x00 (Z.to_nat 1048577); name := "huge.png";
     type := "image/png"; lastModified := 1600000000004 |}.

Definition unreadable : Browser :=
  {| readAsDataURL := fun _ => None;
     loadImage := loadImage Samples.sample_browser;
     getContext2d := getContext2d Samples.sample_browser;
     toBlob := toBlob Samples.sample_browser;
     Date_now := Date_now Samples.sample_browser |}.

(** A page with a model photo, a top and a coat selected. *)
Definition ready : Page.Home :=
  Page.setImages [Samples.small_file] [shirt] [] [coat] [] Page.mounted.

End Fixtures.

(** * Properties *)

(** ** Comparisons on numbers *)

Lemma Qgtb_true (x y : Q) : Qgtb x y = true <-> y < x.
Proof.
  unfold Qgtb. rewrite negb_true_iff. split; intro H.
  - apply Qnot_le_lt. intro Hle. apply Qle_bool_iff in Hle. congruence.
  - destruct (Qle_bool x y) eqn:E; [|reflexivity].
    apply Qle_bool_iff in E. exfalso. exact (Qlt_not_le _ _ H E).
Qed.

Lemma Qgtb_false (x y : Q) : Qgtb x y = false <-> x <= y.
Proof.
  unfold Qgtb. rewrite negb_false_iff. apply Qle_bool_iff.
Qed.

Lemma Qle_bool_false (x y : Q) : Qle_bool x y = false <-> y < x.
Proof.
  rewrite <- Qgtb_true. unfold Qgtb. now rewrite negb_true_iff.
Qed.

(** ** Image compression *)
Section CompressionProps.

Import ImageCompression.

Variable B : Browser.
Variables (file : File) (maxWidth maxHeight quality : float) (maxSizeMB : Q).

Local Abbreviation canvas_of := (canvas_of maxWidth maxHeight).
Local Abbreviation mime := (mime file).
Local Abbreviation wrap := (wrap B file).
Local Abbreviation first_pass := (first_pass file maxWidth maxHeight quality).

Ltac unfold_monad :=
  cbv beta delta [run bind emit ret reject or_reject] iota; cbn [app].

(** The slow path, once the image is read, decoded, drawn and encoded once:
    a second encode exactly on an over-budget blob with [quality > 0.3]. *)
Lemma compressImage_slow_path (src : string) (img : Image) (blob : Blob) :
  budget maxSizeMB < inject_Z (size file) ->
  readAsDataURL B file = Some src ->
  loadImage B src = Some img ->
  getContext2d B (canvas_of img) = true ->
  toBlob B (canvas_of img) mime quality = Some blob ->
  run (compressImage B file maxWidth maxHeight quality maxSizeMB) =
  if Qgtb (inject_Z (blob_size blob)) (budget maxSizeMB) && (0.3 <? quality)%float
  then
    (Resolved
       (wrap match toBlob B (canvas_of img) mime (Math_max 0.3 (quality - 0.2)) with
             | Some smallerBlob => smallerBlob
             | None => blob
             end),
     first_pass src img ++ [EvEncode mime (Math_max 0.3 (quality - 0.2))])
  else (Resolved (wrap blob), first_pass src img).
Proof.
  intros Hbig Hread Hload Hctx Hblob.
  unfold compressImage, ImageCompression.canvas_of, ImageCompression.mime,
    ImageCompression.first_pass, ImageCompression.wrap in *.
  apply Qle_bool_false in Hbig. rewrite Hbig.
  unfold_monad. rewrite Hread. unfold_monad. rewrite Hload.
  destruct (resize img maxWidth maxHeight) as [width height]; cbn [fst snd] in *.
  rewrite Hctx. cbn [negb]. unfold_monad. rewrite Hblob.
  destruct (Qgtb (inject_Z (blob_size blob)) (budget maxSizeMB)
            && (0.3 <? quality)%float); [|reflexivity].
  unfold_monad.
  destruct (toBlob B _ _ (Math_max 0.3 (quality - 0.2))); reflexivity.
Qed.

(** A call that resolves took the fast path or went through both the
    decode and a first encode. *)
Lemma compressImage_resolved (f : File) :
  fst (run (compressImage B file maxWidth maxHeight quality maxSizeMB))
    = Resolved f ->
  (inject_Z (size file) <= budget maxSizeMB /\ f = file)
  \/ (budget maxSizeMB < inject_Z (size file) /\
      exists src img blob,
        readAsDataURL B file = Some src /\
        loadImage B src = Some img /\
        getContext2d B (canvas_of img) = true /\
        toBlob B (canvas_of img) mime quality = Some blob).
Proof.
  unfold compressImage, ImageCompression.canvas_of, ImageCompression.mime.
  destruct (Qle_bool (inject_Z (size file)) (budget maxSizeMB)) eqn:Hfast.
  - cbn. intro H. left. split; [now apply Qle_bool_iff|congruence].
  - intro H. right. split; [now apply Qle_bool_false|].
    revert H. unfold_monad.
    destruct (readAsDataURL B file) as [src|] eqn:Hread; [|discriminate].
    unfold_monad.
    destruct (loadImage B src) as [img|] eqn:Hload; [|discriminate].
    destruct (resize img maxWidth maxHeight) as [width height] eqn:Hdim.
    destruct (getContext2d B _) eqn:Hctx; cbn [negb]; [|discriminate].
    unfold_monad.
    destruct (toBlob B _ _ quality) as [blob|] eqn:Hblob; [|discriminate].
    intros _. exists src, img, blob. rewrite Hdim. cbn [fst snd].
    repeat split; assumption.
Qed.

(** A call that rejects made at most the first encode attempt. *)
Lemma compressImage_rejected (msg : string) :
  fst (run (compressImage B file maxWidth maxHeight quality maxSizeMB))
    = Rejected msg ->
  (List.length
     (encode_qualities
        (snd (run (compressImage B file maxWidth maxHeight quality maxSizeMB))))
   <= 1)%nat.
Proof.
  unfold compressImage.
  destruct (Qle_bool (inject_Z (size file)) (budget maxSizeMB)).
  - cbn. auto.
  - unfold_monad.
    destruct (readAsDataURL B file) as [src|]; [|cbn; auto].
    unfold_monad.
    destruct (loadImage B src) as [img|]; [|cbn; auto].
    destruct (resize img maxWidth maxHeight) as [width height].
    destruct (getContext2d B _); cbn [negb]; [|cbn; auto].
    unfold_monad.
    destruct (toBlob B _ _ quality) as [blob|]; [|cbn; auto].
    destruct (_ && _).
    + unfold_monad. destruct (toBlob B _ _ _); discriminate.
    + discriminate.
Qed.

End CompressionProps.

Import ImageCompression.

(** C3. An asset whose byte length is at or below [maxSizeMB * 1024 * 1024]
    is returned as it is, the same [File], and the browser is asked for
    nothing: no read, no decode, no draw, no encode. *)
Theorem fast_path_identity (B : Browser) (file : File)
    (maxWidth maxHeight quality : float) (maxSizeMB : Q) :
  inject_Z (size file) <= budget maxSizeMB ->
  run (compressImage B file maxWidth maxHeight quality maxSizeMB)
  = (Resolved file, []).
Proof.
  intro H. apply Qle_bool_iff in H.
  unfold compressImage. rewrite H. reflexivity.
Qed.

Lemma fast_path_identity_witness :
  inject_Z (size Samples.small_file) <= budget 1 /\
  run (compressImage Samples.sample_browser Samples.small_file 1920 1920 0.8 1)
  = (Resolved Samples.small_file, []).
Proof.
  assert (H : inject_Z (size Samples.small_file) <= budget 1)
    by (vm_compute; discriminate).
  split; [exact H|].
  exact (fast_path_identity Samples.sample_browser Samples.small_file
           1920 1920 0.8 1 H).
Defined.

(** C9. The fast path is decided before any decode.  An asset within the
    size budget is returned unchanged, with no decode, draw or encode, even
    when the image it holds is wider than [maxWidth] or taller than
    [maxHeight]; and a run that decodes, draws or encodes is a run on an
    asset over the budget. *)
Theorem fast_path_ignores_dimensions (B : Browser) (file : File)
    (maxWidth maxHeight quality : float) (maxSizeMB : Q) :
  (forall src img,
     inject_Z (size file) <= budget maxSizeMB ->
     readAsDataURL B file = Some src ->
     loadImage B src = Some img ->
     (maxWidth <? img_width img)%float = true
       \/ (maxHeight <? img_height img)%float = true ->
     fst (run (compressImage B file maxWidth maxHeight quality maxSizeMB))
       = Resolved file
     /\ existsb touches_pixels
          (snd (run (compressImage B file maxWidth maxHeight quality maxSizeMB)))
        = false)
  /\ (existsb touches_pixels
        (snd (run (compressImage B file maxWidth maxHeight quality maxSizeMB)))
      = true ->
      budget maxSizeMB < inject_Z (size file)).
Proof.
  split.
  - intros src img Hsmall _ _ _. apply Qle_bool_iff in Hsmall.
    unfold compressImage. rewrite Hsmall. split; reflexivity.
  - unfold compressImage.
    destruct (Qle_bool (inject_Z (size file)) (budget maxSizeMB)) eqn:Hfast.
    + cbn. discriminate.
    + intros _. now apply Qle_bool_false.
Qed.

Lemma fast_path_ignores_dimensions_witness :
  let r := run (compressImage Samples.sample_browser Samples.small_file
                  1920 1920 0.8 1) in
  ((1920 <? img_width (Samples.sample_image "data:image/png;base64,iVBORw0KGgo="))%float
    = true
   /\ fst r = Resolved Samples.small_file
   /\ existsb touches_pixels (snd r) = false)
  /\ budget Samples.five_bytes < inject_Z (size Samples.big_file).
Proof.
  split.
  - split; [reflexivity|].
    apply (proj1 (fast_path_ignores_dimensions Samples.sample_browser
                    Samples.small_file 1920 1920 0.8 1)
             "data:image/png;base64,iVBORw0KGgo="
             (Samples.sample_image "data:image/png;base64,iVBORw0KGgo=")).
    + vm_compute; discriminate.
    + reflexivity.
    + reflexivity.
    + left. reflexivity.
  - apply (proj2 (fast_path_ignores_dimensions Samples.sample_browser
                    Samples.big_file 1920 1920 0.8 Samples.five_bytes)).
    reflexivity.
Defined.

(** The trace of the fast path is empty. *)
Lemma fast_path_trace_empty (B : Browser) (file : File)
    (maxWidth maxHeight quality : float) (maxSizeMB : Q) :
  inject_Z (size file) <= budget maxSizeMB ->
  snd (run (compressImage B file maxWidth maxHeight quality maxSizeMB)) = [].
Proof.
  intro H. apply Qle_bool_iff in H.
  unfold compressImage. rewrite H. reflexivity.
Qed.


(** C2. On an over-budget input that is read, decoded, drawn and encoded
    once, a second encode is made exactly when the first blob exceeds the
    size budget and [quality > 0.3]; it uses quality
    [max(0.3, quality - 0.2)]; its blob is kept whatever its size, and when
    it yields no blob the first blob is kept and the promise still resolves.
    No run makes more than two encode attempts, and none makes a second one
    for [quality = 0.3]. *)
Theorem second_encode_rule (B : Browser) (file : File)
    (maxWidth maxHeight quality : float) (maxSizeMB : Q) :
  let r := run (compressImage B file maxWidth maxHeight quality maxSizeMB) in
  let retry := Math_max 0.3 (quality - 0.2) in
  (forall src img blob,
     budget maxSizeMB < inject_Z (size file) ->
     readAsDataURL B file = Some src ->
     loadImage B src = Some img ->
     getContext2d B (canvas_of maxWidth maxHeight img) = true ->
     toBlob B (canvas_of maxWidth maxHeight img) (mime file) quality
       = Some blob ->
     (budget maxSizeMB < inject_Z (blob_size blob)
      /\ (0.3 <? quality)%float = true ->
      encode_qualities (snd r) = [quality; retry]
      /\ fst r =
         Resolved
           (wrap B file
              match toBlob B (canvas_of maxWidth maxHeight img) (mime file)
                      retry with
              | Some smallerBlob => smallerBlob
              | None => blob
              end))
     /\ (~ (budget maxSizeMB < inject_Z (blob_size blob)
            /\ (0.3 <? quality)%float = true) ->
         encode_qualities (snd r) = [quality]
         /\ fst r = Resolved (wrap B file blob)))
  /\ (List.length (encode_qualities (snd r)) <= 2)%nat
  /\ (quality = 0.3%float ->
      (List.length (encode_qualities (snd r)) <= 1)%nat).
Proof.
  intros r retry.
  assert (Hslow : forall src img blob,
     budget maxSizeMB < inject_Z (size file) ->
     readAsDataURL B file = Some src ->
     loadImage B src = Some img ->
     getContext2d B (canvas_of maxWidth maxHeight img) = true ->
     toBlob B (canvas_of maxWidth maxHeight img) (mime file) quality
       = Some blob ->
     (budget maxSizeMB < inject_Z (blob_size blob)
      /\ (0.3 <? quality)%float = true ->
      encode_qualities (snd r) = [quality; retry]
      /\ fst r =
         Resolved
           (wrap B file
              match toBlob B (canvas_of maxWidth maxHeight img) (mime file)
                      retry with
              | Some smallerBlob => smallerBlob
              | None => blob
              end))
     /\ (~ (budget maxSizeMB < inject_Z (blob_size blob)
            /\ (0.3 <? quality)%float = true) ->
         encode_qualities (snd r) = [quality]
         /\ fst r = Resolved (wrap B file blob))).
  { intros src img blob Hbig Hread Hload Hctx Hblob.
    subst r.
    rewrite (compressImage_slow_path B file maxWidth maxHeight quality
               maxSizeMB src img blob Hbig Hread Hload Hctx Hblob).
    destruct (Qgtb (inject_Z (blob_size blob)) (budget maxSizeMB)) eqn:Hover;
      destruct (0.3 <? quality)%float eqn:Hq; cbn [andb fst snd];
      (split; [intros [H1 H2] | intro Hn]).
    - split; reflexivity.
    - exfalso. apply Hn. split; [now apply Qgtb_true | reflexivity].
    - discriminate H2.
    - split; reflexivity.
    - apply Qgtb_false in Hover. exfalso. exact (Qlt_not_le _ _ H1 Hover).
    - split; reflexivity.
    - discriminate H2.
    - split; reflexivity. }
  split; [exact Hslow|].
  destruct (fst r) as [f|msg] eqn:Hr.
  - destruct (compressImage_resolved B file maxWidth maxHeight quality
                maxSizeMB f Hr)
      as [[Hsmall _] | [Hbig (src & img & blob & Hread & Hload & Hctx & Hblob)]].
    + subst r. rewrite fast_path_trace_empty by exact Hsmall.
      cbn. split; [lia | intros _; lia].
    + destruct (Hslow src img blob Hbig Hread Hload Hctx Hblob) as [Hyes Hno].
      destruct (Qlt_le_dec (budget maxSizeMB) (inject_Z (blob_size blob)))
        as [Hover|Hfit];
        [destruct (0.3 <? quality)%float eqn:Hq|].
      * destruct (Hyes (conj Hover eq_refl)) as [-> _]. cbn. split; [lia|].
        intro Heq. rewrite Heq in Hq. discriminate Hq.
      * destruct Hno as [-> _].
        { intros [_ H2]. discriminate H2. }
        cbn. split; [lia | intros _; lia].
      * destruct Hno as [-> _].
        { intros [H1 _]. exact (Qlt_not_le _ _ H1 Hfit). }
        cbn. split; [lia | intros _; lia].
  - pose proof (compressImage_rejected B file maxWidth maxHeight quality
                  maxSizeMB msg Hr) as Hle.
    fold r in Hle. split; [lia | intros _; exact Hle].
Qed.

Lemma second_encode_rule_witness :
  let r := run (compressImage Samples.sample_browser Samples.big_file
                  1920 1920 0.8 Samples.five_bytes) in
  (encode_qualities (snd r) = [0.8; Math_max 0.3 (0.8 - 0.2)]%float
   /\ fst r =
      Resolved
        (wrap Samples.sample_browser Samples.big_file
           {| blob_data := repeat Byte.x00 6; blob_type := "image/png" |}))
  /\ (List.length (encode_qualities (snd r)) <= 2)%nat.
Proof.
  destruct (second_encode_rule Samples.sample_browser Samples.big_file
              1920 1920 0.8 Samples.five_bytes) as [Hslow [Hcount _]].
  split; [|exact Hcount].
  refine (proj1 (Hslow "data:image/png;base64,iVBORw0KGgo="
                   (Samples.sample_image "data:image/png;base64,iVBORw0KGgo=")
                   {| blob_data := repeat Byte.x00 8; blob_type := "image/png" |}
                   _ _ _ _ _) _).
  - reflexivity.
  - reflexivity.
  - reflexivity.
  - reflexivity.
  - reflexivity.
  - split; reflexivity.
Defined.




(** What a run does with a decoded image, in terms of the dimensions
    [resize] computes for it. *)
Lemma compressImage_sized (B : Browser) (file : File)
    (maxWidth maxHeight quality : float) (maxSizeMB : Q)
    (src : string) (img : Image) :
  budget maxSizeMB < inject_Z (size file) ->
  readAsDataURL B file = Some src ->
  loadImage B src = Some img ->
  sized B file quality img
    (fst (resize img maxWidth maxHeight)) (snd (resize img maxWidth maxHeight))
    (run (compressImage B file maxWidth maxHeight quality maxSizeMB)).
Proof.
  intros Hbig Hread Hload. unfold sized, compressImage, mime.
  apply Qle_bool_false in Hbig. rewrite Hbig.
  cbv beta delta [run bind emit ret reject or_reject] iota; cbn [app].
  rewrite Hread.
  cbv beta delta [run bind emit ret reject or_reject] iota; cbn [app].
  rewrite Hload.
  destruct (resize img maxWidth maxHeight) as [width height]. cbn [fst snd].
  destruct (getContext2d B _); cbn [negb]; [|split; reflexivity].
  cbv beta delta [run bind emit ret reject or_reject] iota; cbn [app].
  destruct (toBlob B _ _ quality) as [blob|]; [|split; reflexivity].
  destruct (_ && _).
  - cbv beta delta [run bind emit ret reject or_reject] iota; cbn [app].
    destruct (toBlob B _ _ _); (split; [reflexivity | eexists; reflexivity]).
  - split; [reflexivity | eexists; reflexivity].
Qed.

(** C4. On an over-budget file that is read and decoded, [compressImage]
    gives the canvas, and draws the image at, dimensions chosen as follows.
    When the bitmap is wider than [maxWidth] or taller than [maxHeight],
    both dimensions are multiplied by the one factor
    [min(maxWidth / width, maxHeight / height)].  When neither dimension
    exceeds its bound they are left as they are.  A 4000 x 2000 bitmap with
    bounds 1920 x 1920 is drawn at 1920 x 960.  The products and quotients
    are those of binary64 arithmetic. *)
Theorem resize_uniform_scale (B : Browser) (file : File)
    (maxWidth maxHeight quality : float) (maxSizeMB : Q)
    (src : string) (img : Image) :
  budget maxSizeMB < inject_Z (size file) ->
  readAsDataURL B file = Some src ->
  loadImage B src = Some img ->
  let r := run (compressImage B file maxWidth maxHeight quality maxSizeMB) in
  let width := img_width img in
  let height := img_height img in
  let ratio := Math_min (maxWidth / width) (maxHeight / height) in
  ((maxWidth <? width)%float = true \/ (maxHeight <? height)%float = true ->
   sized B file quality img (width * ratio) (height * ratio) r)
  /\ ((maxWidth <? width)%float = false /\ (maxHeight <? height)%float = false ->
      sized B file quality img width height r)
  /\ (width = 4000%float -> height = 2000%float ->
      maxWidth = 1920%float -> maxHeight = 1920%float ->
      sized B file quality img 1920 960 r).
Proof.
  intros Hbig Hread Hload r width height ratio.
  pose proof (compressImage_sized B file maxWidth maxHeight quality maxSizeMB
                src img Hbig Hread Hload) as Hs.
  fold r in Hs. subst width height ratio.
  split; [|split].
  - intro Hout.
    assert (Heq : resize img maxWidth maxHeight
                  = ((img_width img
                      * Math_min (maxWidth / img_width img)
                          (maxHeight / img_height img))%float,
                     (img_height img
                      * Math_min (maxWidth / img_width img)
                          (maxHeight / img_height img))%float)).
    { unfold resize.
      destruct Hout as [H|H]; rewrite H; [|rewrite orb_true_r]; reflexivity. }
    rewrite Heq in Hs. exact Hs.
  - intros [H1 H2].
    assert (Heq : resize img maxWidth maxHeight
                  = (img_width img, img_height img)).
    { unfold resize. now rewrite H1, H2. }
    rewrite Heq in Hs. exact Hs.
  - intros Ew Eh Emw Emh. subst maxWidth maxHeight.
    assert (Heq : resize img 1920 1920 = (1920, 960)%float).
    { unfold resize. rewrite Ew, Eh. reflexivity. }
    rewrite Heq in Hs. exact Hs.
Qed.

Lemma resize_uniform_scale_witness :
  let img := Samples.sample_image "data:image/png;base64,iVBORw0KGgo=" in
  let r := run (compressImage Samples.sample_browser Samples.big_file
                  1920 1920 0.8 Samples.five_bytes) in
  sized Samples.sample_browser Samples.big_file 0.8 img
    (4000 * Math_min (1920 / 4000) (1920 / 2000))
    (2000 * Math_min (1920 / 4000) (1920 / 2000)) r
  /\ sized Samples.sample_browser Samples.big_file 0.8 img 1920 960 r.
Proof.
  intros img r.
  destruct (resize_uniform_scale Samples.sample_browser Samples.big_file
              1920 1920 0.8 Samples.five_bytes
              "data:image/png;base64,iVBORw0KGgo=" img
              eq_refl eq_refl eq_refl) as (Hscaled & _ & Hexample).
  split.
  - apply Hscaled. left. reflexivity.
  - apply Hexample; reflexivity.
Defined.

(** The products are rounded: a scaled dimension can come out just above
    its bound, as the width of a 2094 x 1000 bitmap scaled to 1920 x 1920
    does.  A width of zero makes its quotient infinite, which leaves the
    factor to the height. *)
Lemma resize_rounding :
  let wide := {| img_width := 2094; img_height := 1000; img_src := "" |} in
  let flat := {| img_width := 0; img_height := 3000; img_src := "" |} in
  (1920 <? fst (resize wide 1920 1920))%float = true
  /\ resize flat 1920 1920 = (0, 1920)%float.
Proof. split; reflexivity. Qed.

(** ** [Promise.all] and the batch *)
Section PromiseAllProps.

Context {A : Type}.

Lemma first_rejection_none (ps : list (nat * settled A)) :
  first_rejection ps = None <->
  Forall (fun p => exists v, snd p = Resolved v) ps.
Proof.
  induction ps as [|[t [v|msg]] ps IH]; cbn -[Nat.ltb].
  - split; auto.
  - rewrite IH. split; intro H.
    + constructor; [now exists v | exact H].
    + now inversion H.
  - split; intro H.
    + destruct (first_rejection ps) as [[t' msg']|];
        [destruct (t' <? t)%nat|]; discriminate H.
    + inversion H as [|? ? Hex _]. destruct Hex as [v Hv].
      cbn in Hv. discriminate.
Qed.

(** The rejection that is picked is one of the list and no rejection of
    the list settles before it. *)
Lemma first_rejection_some (ps : list (nat * settled A)) (t : nat) (msg : string) :
  first_rejection ps = Some (t, msg) ->
  In (t, Rejected msg) ps
  /\ forall t' msg', In (t', Rejected msg') ps -> (t <= t')%nat.
Proof.
  revert t msg.
  induction ps as [|[t0 [v|msg0]] ps IH]; cbn -[Nat.ltb]; intros t msg H.
  - discriminate.
  - destruct (IH _ _ H) as [Hin Hmin]. split; [now right|].
    intros t' msg' [Heq|Hin']; [discriminate | eauto].
  - destruct (first_rejection ps) as [[t1 msg1]|] eqn:Hrest.
    + destruct (IH _ _ eq_refl) as [Hin Hmin].
      destruct (t1 <? t0)%nat eqn:Hlt; injection H as <- <-.
      * apply Nat.ltb_lt in Hlt. split; [now right|].
        intros t' msg' [Heq|Hin'];
          [injection Heq as <- <-; lia | eauto].
      * apply Nat.ltb_ge in Hlt. split; [now left|].
        intros t' msg' [Heq|Hin'];
          [injection Heq as <- <-; lia|].
        specialize (Hmin _ _ Hin'). lia.
    + injection H as <- <-. split; [now left|].
      intros t' msg' [Heq|Hin']; [injection Heq as <- <-; lia|].
      exfalso. apply first_rejection_none in Hrest.
      rewrite Forall_forall in Hrest.
      destruct (Hrest _ Hin') as [v Hv]. discriminate.
Qed.

(** With no rejection, the values are those of the promises, in order. *)
Lemma fulfilled_values_all (ps : list (nat * settled A)) :
  Forall (fun p => exists v, snd p = Resolved v) ps ->
  Forall2 (fun p v => snd p = Resolved v) ps (fulfilled_values ps).
Proof.
  induction 1 as [|[t r] ps [v Hv] _ IH]; cbn in *.
  - constructor.
  - subst r. constructor; [reflexivity | exact IH].
Qed.

End PromiseAllProps.

Section BatchProps.

Variable B : Browser.
Variable settle : nat -> nat.
Variables (maxWidth maxHeight quality : float) (maxSizeMB : Q).

Local Abbreviation one := (fun file =>
  fst (run (compressImage B file maxWidth maxHeight quality maxSizeMB))).
Local Abbreviation dispatched := (fun i files =>
  dispatch B settle i files maxWidth maxHeight quality maxSizeMB).

Lemma In_dispatch (files : list File) (i : nat) (t : nat) (r : settled File) :
  In (t, r) (dispatched i files) <->
  exists j file,
    nth_error files j = Some file /\ t = settle (i + j) /\ r = one file.
Proof.
  revert i. induction files as [|file files IH]; intro i; cbn.
  - split; [tauto|]. intros (j & f & H & _). now destruct j.
  - rewrite IH. split.
    + intros [Heq | (j & f & Hj & -> & ->)].
      * injection Heq as <- <-. exists 0%nat, file.
        rewrite Nat.add_0_r. auto.
      * exists (S j), f. rewrite Nat.add_succ_r. auto.
    + intros ([|j] & f & Hj & -> & ->); cbn in Hj.
      * injection Hj as ->. left. now rewrite Nat.add_0_r.
      * right. exists j, f. rewrite Nat.add_succ_r. auto.
Qed.

Lemma Forall2_dispatch (files : list File) (i : nat) (P : settled File -> File -> Prop)
    (outs : list File) :
  Forall2 (fun p v => P (snd p) v) (dispatched i files) outs ->
  Forall2 (fun file v => P (one file) v) files outs.
Proof.
  revert i outs. induction files as [|file files IH]; intros i outs H; cbn in H.
  - inversion H. constructor.
  - inversion H; subst. constructor; [assumption | eauto].
Qed.

End BatchProps.

(** C8. [compressImages] runs [compressImage] on each file with the same
    policy.  When every item resolves, it resolves with the results in the
    order of the input.  When some item rejects, the batch rejects, with
    the error of a rejecting item, the one that settles first, and no list
    is returned; when exactly one item rejects, it is that item's error. *)
Theorem batch_all_or_nothing (B : Browser) (settle : nat -> nat)
    (files : list File) (options : option Options) :
  ((forall file, In file files ->
      exists out, item_promise B file options = Resolved out) ->
   exists outs,
     compressImages B settle files options = Resolved outs
     /\ Forall2 (fun file out => item_promise B file options = Resolved out)
          files outs)
  /\ (forall i file msg,
        nth_error files i = Some file ->
        item_promise B file options = Rejected msg ->
        exists j file' msg',
          nth_error files j = Some file'
          /\ item_promise B file' options = Rejected msg'
          /\ compressImages B settle files options = Rejected msg'
          /\ forall k file'' msg'',
               nth_error files k = Some file'' ->
               item_promise B file'' options = Rejected msg'' ->
               (settle j <= settle k)%nat)
  /\ (forall i file msg,
        nth_error files i = Some file ->
        item_promise B file options = Rejected msg ->
        (forall k file', k <> i -> nth_error files k = Some file' ->
           exists out, item_promise B file' options = Resolved out) ->
        compressImages B settle files options = Rejected msg).
Proof.
  unfold compressImages, item_promise, Promise_all.
  set (o := match options with Some o => o | None => empty_options end).
  set (maxWidth := with_default 1920%float (opt_maxWidth o)).
  set (maxHeight := with_default 1920%float (opt_maxHeight o)).
  set (quality := with_default 0.8%float (opt_quality o)).
  set (maxSizeMB := with_default 1 (opt_maxSizeMB o)).
  set (ps := dispatch B settle 0 files maxWidth maxHeight quality maxSizeMB).
  assert (Hany : forall i file msg,
        nth_error files i = Some file ->
        fst (run (compressImage B file maxWidth maxHeight quality maxSizeMB))
          = Rejected msg ->
        exists j file' msg',
          nth_error files j = Some file'
          /\ fst (run (compressImage B file' maxWidth maxHeight quality maxSizeMB))
             = Rejected msg'
          /\ match first_rejection ps with
             | Some (_, m) => Rejected m
             | None => Resolved (fulfilled_values ps)
             end = Rejected msg'
          /\ forall k file'' msg'',
               nth_error files k = Some file'' ->
               fst (run (compressImage B file'' maxWidth maxHeight quality maxSizeMB))
                 = Rejected msg'' ->
               (settle j <= settle k)%nat).
  { intros i file msg Hi Hrej.
    assert (Hin : In (settle i, Rejected msg) ps).
    { apply In_dispatch. exists i, file. rewrite Hrej. auto. }
    destruct (first_rejection ps) as [[t m]|] eqn:Hfirst.
    - destruct (first_rejection_some _ _ _ Hfirst) as [Hpicked Hmin].
      apply In_dispatch in Hpicked.
      destruct Hpicked as (j & file' & Hj & -> & Hm).
      exists j, file', m. cbn [Nat.add] in *.
      repeat split; auto.
      intros k file'' msg'' Hk Hrej''.
      apply (Hmin (settle k) msg'').
      apply In_dispatch. exists k, file''. rewrite Hrej''. auto.
    - exfalso. apply first_rejection_none in Hfirst.
      rewrite Forall_forall in Hfirst.
      destruct (Hfirst _ Hin) as [v Hv]. discriminate. }
  split; [|split].
  - intro Hall.
    assert (Hres : Forall (fun p => exists v, snd p = Resolved v) ps).
    { apply Forall_forall. intros [t r] Hin.
      apply In_dispatch in Hin. destruct Hin as (j & file & Hj & _ & ->).
      apply Hall. eapply nth_error_In. exact Hj. }
    rewrite (proj2 (first_rejection_none ps) Hres).
    exists (fulfilled_values ps). split; [reflexivity|].
    apply Forall2_dispatch with (settle := settle) (i := 0%nat)
      (P := fun r v => r = Resolved v).
    apply fulfilled_values_all. exact Hres.
  - exact Hany.
  - intros i file msg Hi Hrej Hothers.
    destruct (Hany i file msg Hi Hrej) as (j & file' & msg' & Hj & Hrej' & -> & _).
    destruct (Nat.eq_dec j i) as [->|Hne].
    + rewrite Hi in Hj. injection Hj as <-. congruence.
    + destruct (Hothers j file' Hne Hj) as [out Hout]. congruence.
Qed.

Lemma batch_all_or_nothing_witness :
  let options :=
    Some {| opt_maxWidth := None; opt_maxHeight := None;
            opt_quality := None; opt_maxSizeMB := Some Samples.five_bytes |} in
  compressImages Samples.picky_browser (fun i => i)
    [Samples.big_file; Samples.broken_file] options
  = Rejected "Failed to load image"
  /\ exists outs,
       compressImages Samples.sample_browser (fun i => i)
         [Samples.big_file; Samples.small_file] options
       = Resolved outs.
Proof.
  intro options. split.
  - apply (proj2 (proj2 (batch_all_or_nothing Samples.picky_browser
                           (fun i => i)
                           [Samples.big_file; Samples.broken_file] options))
             1%nat Samples.broken_file).
    + reflexivity.
    + reflexivity.
    + intros [|[|k]] file' Hk Hnth.
      * injection Hnth as <-. eexists. reflexivity.
      * congruence.
      * destruct k; discriminate.
  - destruct (proj1 (batch_all_or_nothing Samples.sample_browser (fun i => i)
                       [Samples.big_file; Samples.small_file] options))
      as [outs [Houts _]].
    + intros file [<-|[<-|[]]]; eexists; reflexivity.
    + exists outs. exact Houts.
Defined.

(** ** Errors of the remote service *)

Import MatchingSetApi.

(** C7, as the specification states it, fails: a 500 whose body is not JSON
    raises the error 'Unknown error' on both endpoints, a message without
    the status code. *)
Lemma http_error_counterexample :
  ok Samples.server_error = false
  /\ generateMatchingSet Samples.sample_url (Samples.always Samples.server_error)
       Samples.small_file Samples.only_top 1
     = inl (Error (JStr "Unknown error"))
  /\ checkJobStatus Samples.sample_url (Samples.always Samples.server_error)
       "pred-1"
     = inl (Error (JStr "Unknown error"))
  /\ spec_message Samples.server_error = JStr "HTTP error! status: 500"
  /\ http_error Samples.server_error <> Error (spec_message Samples.server_error)
  /\ index 0 (status_to_string (status Samples.server_error)) "Unknown error"
     = None.
Proof.
  repeat split; try reflexivity. discriminate.
Qed.

(** C7, amended.  On a response that is not ok, both endpoints raise the
    same error.  Its message is the [message] field of the JSON body when
    that field is a non-empty string; it is the fixed text 'Unknown error'
    when the body is absent or unparseable; and it is the generic text
    'HTTP error! status: ' followed by the status code when the body is a
    JSON object without a [message] field or with an empty one. *)
Theorem http_error_message (url : string)
    (fetch : Request -> exn + Response) (response : Response)
    (modelImage : ImageCompression.File) (clothingImages : ClothingImages)
    (numOutputs : Z) (predictionId : string) :
  url <> "" ->
  ok response = false ->
  (fetch (remix_request url modelImage clothingImages numOutputs)
     = inr response ->
   generateMatchingSet url fetch modelImage clothingImages numOutputs
     = inl (http_error response))
  /\ (fetch (status_request url predictionId) = inr response ->
      checkJobStatus url fetch predictionId = inl (http_error response))
  /\ (json_body response = None ->
      http_error response = Error (JStr "Unknown error"))
  /\ (forall fields m,
        json_body response = Some (JObj fields) ->
        get_field "message" fields = Some (JStr m) -> m <> "" ->
        http_error response = Error (JStr m))
  /\ (forall fields,
        json_body response = Some (JObj fields) ->
        get_field "message" fields = None
          \/ get_field "message" fields = Some (JStr "") ->
        http_error response
        = Error (JStr ("HTTP error! status: "
                       ++ status_to_string (status response))%string)).
Proof.
  intros Hurl Hok.
  apply String.eqb_neq in Hurl.
  repeat split.
  - intro Hfetch. unfold generateMatchingSet. rewrite Hurl, Hfetch.
    unfold finish. now rewrite Hok.
  - intro Hfetch. unfold checkJobStatus. rewrite Hurl, Hfetch.
    unfold finish. now rewrite Hok.
  - intro Hbody. unfold http_error. now rewrite Hbody.
  - intros fields m Hbody Hfield Hm. unfold http_error.
    rewrite Hbody. cbn. rewrite Hfield. cbn.
    apply String.eqb_neq in Hm. now rewrite Hm.
  - intros fields Hbody [Hfield|Hfield]; unfold http_error;
      rewrite Hbody; cbn; rewrite Hfield; reflexivity.
Qed.

Lemma http_error_message_witness :
  generateMatchingSet Samples.sample_url (Samples.always Samples.not_found)
    Samples.small_file Samples.only_top 1
  = inl (Error (JStr "Prediction not found"))
  /\ checkJobStatus Samples.sample_url (Samples.always Samples.not_found)
       "pred-1"
     = inl (Error (JStr "Prediction not found")).
Proof.
  destruct (http_error_message Samples.sample_url
              (Samples.always Samples.not_found) Samples.not_found
              Samples.small_file Samples.only_top 1 "pred-1")
    as (Hsubmit & Hstatus & _ & Hmessage & _).
  - discriminate.
  - reflexivity.
  - rewrite (Hsubmit eq_refl), (Hstatus eq_refl).
    rewrite (Hmessage _ "Prediction not found" eq_refl eq_refl)
      by discriminate.
    split; reflexivity.
Defined.

(** ** Polling *)
Section PollingProps.

Import Polling.

Ltac unfold_setters :=
  cbn [status statusMessage generatedImages error isGenerating
       pollingIntervalRef timers next_timer pending log
       setStatus setStatusMessage setGeneratedImages setError
       setIsGenerating set_ref set_pending clearInterval record].

Lemma requests_record (e : effect) (w : World) :
  requests (record e w) = (requests w + if is_request e then 1 else 0)%nat.
Proof.
  unfold requests, record. cbn [log]. rewrite filter_app, length_app. cbn.
  destruct (is_request e); reflexivity.
Qed.

Lemma updates_record (e : effect) (w : World) :
  updates (record e w) = (updates w + if is_update e then 1 else 0)%nat.
Proof.
  unfold updates, record. cbn [log]. rewrite filter_app, length_app. cbn.
  destruct (is_update e); reflexivity.
Qed.

(** Under the invariant, clearing the interval of the ref clears them
    all, and an empty ref means that none is set. *)
Lemma held_filter (w : World) (t : positive) :
  held w -> pollingIntervalRef w = Some t ->
  filter (fun e => negb (Pos.eqb (fst e) t)) (timers w) = [].
Proof.
  intros Hheld Href.
  assert (Hall : forall e, In e (timers w) -> fst e = t).
  { intros [t' id] Hin. specialize (Hheld _ _ Hin). cbn. congruence. }
  induction (timers w) as [|e ts IH]; [reflexivity|]. cbn.
  rewrite (Hall e (or_introl eq_refl)), Pos.eqb_refl. cbn.
  apply IH. intros e' Hin. apply Hall. now right.
Qed.

Lemma held_none (w : World) :
  held w -> pollingIntervalRef w = None -> timers w = [].
Proof.
  intros Hheld Href.
  destruct (timers w) as [|[t id] ts] eqn:Hts; [reflexivity|].
  specialize (Hheld t id). rewrite Hts in Hheld.
  specialize (Hheld (or_introl eq_refl)). congruence.
Qed.

Ltac count_effects :=
  unfold requests, updates; unfold_setters;
  repeat rewrite filter_app; repeat rewrite length_app; cbn; try lia.

(** What [poll] does to the event loop once its request is answered: it
    sends no request, and either leaves the interval alone or clears it. *)
Lemma poll_resume_frame (o : outcome) (w : World) :
  pending (poll_resume o w) = pending w
  /\ requests (poll_resume o w) = requests w
  /\ ((pollingIntervalRef (poll_resume o w) = pollingIntervalRef w
       /\ timers (poll_resume o w) = timers w)
      \/ (pollingIntervalRef (poll_resume o w) = None
          /\ (held w -> timers (poll_resume o w) = []))).
Proof.
  unfold poll_resume.
  destruct o as [r| |];
    [destruct (truthy_output (data_output r));
     destruct (truthy_error (data_error r));
     [| destruct (StatusDisplay.includes _ (data_status r)) | |
      destruct (StatusDisplay.includes _ (data_status r))] | |];
    unfold clear_polling; unfold_setters;
    destruct (pollingIntervalRef w) as [t|] eqn:Href; unfold_setters;
    rewrite ?Href;
    (split; [reflexivity|]); (split; [count_effects|]);
    try (left; split; reflexivity);
    right; (split; [reflexivity|]); intro Hheld;
    solve [now apply held_filter | now apply held_none].
Qed.

(** A snapshot that is answered: one [setStatus]; the interval is cleared
    exactly when the snapshot stops the session. *)
Lemma poll_resume_fulfilled (r : StatusResponse) (w : World) :
  updates (poll_resume (Fulfilled r) w) = S (updates w)
  /\ if stops r
     then pollingIntervalRef (poll_resume (Fulfilled r) w) = None
          /\ (held w -> timers (poll_resume (Fulfilled r) w) = [])
     else pollingIntervalRef (poll_resume (Fulfilled r) w) = pollingIntervalRef w
          /\ timers (poll_resume (Fulfilled r) w) = timers w.
Proof.
  unfold poll_resume, stops.
  destruct (truthy_output (data_output r));
    destruct (truthy_error (data_error r));
    destruct (StatusDisplay.includes _ (data_status r)); cbn [orb];
    unfold clear_polling; unfold_setters;
    destruct (pollingIntervalRef w) as [t|] eqn:Href; unfold_setters;
    rewrite ?Href;
    (split; [count_effects|]);
    try (split; reflexivity);
    (split; [reflexivity|]); intro Hheld;
    solve [now apply held_filter | now apply held_none].
Qed.

(** [clear_polling] leaves no interval set when the invariant holds. *)
Lemma clear_polling_timers (w : World) :
  held w -> timers (clear_polling w) = [].
Proof.
  intro Hheld. unfold clear_polling.
  destruct (pollingIntervalRef w) as [t|] eqn:Href.
  - unfold_setters. now apply held_filter.
  - now apply held_none.
Qed.

Lemma requests_set_pending (n : nat) (w : World) :
  requests (set_pending n w) = requests w.
Proof. reflexivity. Qed.

Lemma updates_set_pending (n : nat) (w : World) :
  updates (set_pending n w) = updates w.
Proof. reflexivity. Qed.

Lemma held_initial : held initial.
Proof. intros t id []. Qed.

Lemma held_set_pending (n : nat) (w : World) : held w -> held (set_pending n w).
Proof. intro H. exact H. Qed.

Lemma held_poll_request (id : string) (w : World) :
  held w -> held (poll_request id w).
Proof. intro H. exact H. Qed.

Lemma held_startPolling (id : string) (w : World) :
  held w -> held (startPolling id w).
Proof.
  intro Hheld. unfold startPolling, setInterval, poll_request.
  unfold_setters. unfold held. cbn [timers pollingIntervalRef].
  rewrite (clear_polling_timers w Hheld). cbn.
  intros t id' [Heq|[]]. now injection Heq as <- _.
Qed.

Lemma held_step (w : World) (e : event) : held w -> held (step w e).
Proof.
  intro Hheld. destruct e as [id|t|o]; cbn.
  - now apply held_startPolling.
  - destruct (timer_callback t (timers w)); [now apply held_poll_request|assumption].
  - destruct (pending w) as [|n]; [assumption|].
    destruct (poll_resume_frame o (set_pending n w))
      as (_ & _ & [[Href Hts] | [Href Hts]]).
    + unfold held. rewrite Href, Hts. exact Hheld.
    + unfold held. rewrite Hts by exact Hheld. intros t id [].
Qed.

Lemma held_run (es : list event) (w : World) : held w -> held (run w es).
Proof.
  revert w. induction es as [|e es IH]; intros w Hheld; cbn; [assumption|].
  apply IH. now apply held_step.
Qed.

(** With no interval set and no new call of [startPolling], no request is
    sent any more. *)
Lemma no_timer_no_request (es : list event) (w : World) :
  held w -> timers w = [] -> existsb is_start es = false ->
  requests (run w es) = requests w /\ timers (run w es) = [].
Proof.
  revert w. induction es as [|e es IH]; intros w Hheld Hts Hes.
  - auto.
  - change (run w (e :: es)) with (run (step w e) es).
    cbn in Hes. apply orb_false_iff in Hes. destruct Hes as [He Hes].
    assert (Hstep : requests (step w e) = requests w /\ timers (step w e) = []).
    { destruct e as [id|t|o]; cbn; [discriminate| |].
      - rewrite Hts. cbn. auto.
      - destruct (pending w) as [|n]; [auto|].
        destruct (poll_resume_frame o (set_pending n w))
          as (_ & Hreq & [[_ Hts'] | [_ Hts']]).
        + rewrite Hreq, Hts'. auto.
        + rewrite Hreq, Hts' by exact Hheld. auto. }
    destruct Hstep as [Hreq Hts'].
    destruct (IH (step w e) (held_step w e Hheld) Hts' Hes) as [IH1 IH2].
    split; [congruence | exact IH2].
Qed.

(** With no interval set and no request awaiting its response, nothing
    happens until [startPolling] is called again. *)
Lemma quiescent (es : list event) (w : World) :
  timers w = [] -> pending w = 0%nat -> existsb is_start es = false ->
  run w es = w.
Proof.
  induction es as [|e es IH]; intros Hts Hp Hes; cbn; [reflexivity|].
  cbn in Hes. apply orb_false_iff in Hes. destruct Hes as [He Hes].
  assert (Hstep : step w e = w).
  { destruct e as [id|t|o]; cbn; [discriminate| |].
    - now rewrite Hts.
    - now rewrite Hp. }
  rewrite Hstep. now apply IH.
Qed.

Lemma polling_state_held (t : positive) (id : string) (w : World) :
  polling_state t id w -> held w.
Proof.
  intros (Href & Hts & _) t' id' Hin. rewrite Hts in Hin.
  destruct Hin as [Heq|[]]. injection Heq as <- _. exact Href.
Qed.

(** One round of a scripted session on a snapshot that does not stop it:
    one more update, one more request, and the session goes on. *)
Lemma script_round (t : positive) (id : string) (r : StatusResponse) (w : World) :
  polling_state t id w -> stops r = false ->
  let w' := run w [Settle (Fulfilled r); Tick t] in
  polling_state t id w'
  /\ requests w' = S (requests w) /\ updates w' = S (updates w).
Proof.
  intros (Href & Hts & Hp) Hgo.
  unfold run. cbn [fold_left step]. rewrite Hp.
  pose proof (poll_resume_fulfilled r (set_pending 0 w)) as [Hup Hstop].
  destruct (poll_resume_frame (Fulfilled r) (set_pending 0 w))
    as (Hp' & Hreq & _).
  rewrite Hgo in Hstop. destruct Hstop as [Href' Hts'].
  set (w1 := poll_resume (Fulfilled r) (set_pending 0 w)) in *.
  change (timers (set_pending 0 w)) with (timers w) in Hts'.
  change (pollingIntervalRef (set_pending 0 w)) with (pollingIntervalRef w) in Href'.
  change (pending (set_pending 0 w)) with 0%nat in Hp'.
  change (requests (set_pending 0 w)) with (requests w) in Hreq.
  change (updates (set_pending 0 w)) with (updates w) in Hup.
  rewrite Hts', Hts. cbn [timer_callback]. rewrite Pos.eqb_refl.
  unfold poll_request, polling_state.
  rewrite requests_set_pending, updates_set_pending,
    requests_record, updates_record.
  cbn [set_pending record timers pollingIntervalRef pending is_request is_update].
  rewrite Href', Hts', Hp', Href, Hts, Hreq, Hup.
  repeat split; lia.
Qed.

(** The round on a snapshot that stops the session: one more update, no
    request, no interval left, nothing awaited. *)
Lemma script_last (t : positive) (id : string) (r : StatusResponse) (w : World) :
  polling_state t id w -> stops r = true ->
  let w' := run w [Settle (Fulfilled r); Tick t] in
  pollingIntervalRef w' = None /\ timers w' = [] /\ pending w' = 0%nat
  /\ requests w' = requests w /\ updates w' = S (updates w).
Proof.
  intros Hstate Hend.
  pose proof (polling_state_held t id w Hstate) as Hheld.
  destruct Hstate as (Href & Hts & Hp).
  unfold run. cbn [fold_left step]. rewrite Hp.
  pose proof (poll_resume_fulfilled r (set_pending 0 w)) as [Hup Hstop].
  destruct (poll_resume_frame (Fulfilled r) (set_pending 0 w))
    as (Hp' & Hreq & _).
  rewrite Hend in Hstop. destruct Hstop as [Href' Hts'].
  specialize (Hts' (held_set_pending 0 w Hheld)).
  rewrite Hts'. cbn [timer_callback].
  repeat split; assumption.
Qed.

Lemma run_app (w : World) (es es' : list event) :
  run w (es ++ es') = run (run w es) es'.
Proof. apply fold_left_app. Qed.

(** A scripted session: snapshots that do not stop it, then one that
    does.  One request and one update per snapshot, and none after. *)
Lemma scripted_session (t : positive) (id : string)
    (rs : list StatusResponse) (r : StatusResponse) (w : World) :
  polling_state t id w ->
  Forall (fun r' => stops r' = false) rs ->
  stops r = true ->
  let w' := run w (script t (rs ++ [r])) in
  pollingIntervalRef w' = None /\ timers w' = [] /\ pending w' = 0%nat
  /\ requests w' = (requests w + List.length rs)%nat
  /\ updates w' = (updates w + S (List.length rs))%nat.
Proof.
  intros Hstate Hrs Hr. revert w Hstate.
  induction Hrs as [|r' rs Hr' _ IH]; intros w Hstate.
  - destruct (script_last t id r w Hstate Hr) as (H1 & H2 & H3 & H4 & H5).
    cbn [app script flat_map List.length] in *.
    repeat split; try assumption; lia.
  - destruct (script_round t id r' w Hstate Hr') as (Hstate' & Hreq & Hup).
    specialize (IH _ Hstate').
    change (script t ((r' :: rs) ++ [r]))
      with ([Settle (Fulfilled r'); Tick t] ++ script t (rs ++ [r])).
    rewrite run_app.
    destruct IH as (H1 & H2 & H3 & H4 & H5).
    cbn [List.length]. repeat split; try assumption; lia.
Qed.

(** [startPolling] on the initial state: one request sent, interval 1 set. *)
Lemma startPolling_initial (id : string) :
  polling_state 1 id (startPolling id initial)
  /\ requests (startPolling id initial) = 1%nat
  /\ updates (startPolling id initial) = 0%nat.
Proof. repeat split. Qed.

(** C5, as stated, fails when a response takes longer than the interval:
    the interval does not wait for it.  With the responses processing,
    processing, succeeded, the third arriving after the next tick, that tick
    has sent a fourth request before the snapshot that stops the session is
    handled; the answer to this fourth request is handled as well, a fourth
    update.  Once the stopping snapshot is handled, nothing more is sent. *)
Lemma polling_stops_counterexample :
  let w := run (startPolling "pred-1" initial)
             [Settle (Fulfilled (Samples.snapshot "processing")); Tick 1;
              Settle (Fulfilled (Samples.snapshot "processing")); Tick 1;
              Tick 1;
              Settle (Fulfilled (Samples.finished "succeeded"))] in
  requests w = 4%nat /\ updates w = 3%nat /\ pending w = 1%nat
  /\ pollingIntervalRef w = None
  /\ updates (run w [Settle (Fulfilled (Samples.finished "succeeded"))]) = 4%nat
  /\ requests (run w [Tick 1; Tick 1]) = 4%nat.
Proof. repeat split. Qed.

(** C5, amended.  A polling session sends no status request once a snapshot
    with a terminal status (succeeded, failed, canceled) or a non-empty
    error has been handled: whatever happened before, the interval is
    cleared and no request follows unless [startPolling] is called again.
    When each response arrives before the next tick, the responses
    processing, processing, succeeded give three updates and three
    requests, never a fourth; and a response with a non-empty error ends
    the session whatever its status. *)
Theorem polling_stops (id : string) :
  (forall es r es',
     (0 < pending (run initial es))%nat ->
     stops r = true ->
     existsb is_start es' = false ->
     let w := step (run initial es) (Settle (Fulfilled r)) in
     pollingIntervalRef w = None /\ timers w = []
     /\ requests (run w es') = requests w)
  /\ (forall r1 r2 r3 es',
        data_status r1 = "processing" -> truthy_error (data_error r1) = false ->
        data_status r2 = "processing" -> truthy_error (data_error r2) = false ->
        data_status r3 = "succeeded" ->
        existsb is_start es' = false ->
        let w := run (startPolling id initial) (script 1 [r1; r2; r3] ++ es') in
        updates w = 3%nat /\ requests w = 3%nat
        /\ pollingIntervalRef w = None)
  /\ (forall rs r es',
        Forall (fun r' => stops r' = false) rs ->
        truthy_error (data_error r) = true ->
        existsb is_start es' = false ->
        let w := run (startPolling id initial) (script 1 (rs ++ [r]) ++ es') in
        updates w = S (List.length rs) /\ requests w = S (List.length rs)
        /\ pollingIntervalRef w = None).
Proof.
  assert (Hscript : forall rs r es',
        Forall (fun r' => stops r' = false) rs ->
        stops r = true ->
        existsb is_start es' = false ->
        let w := run (startPolling id initial) (script 1 (rs ++ [r]) ++ es') in
        updates w = S (List.length rs) /\ requests w = S (List.length rs)
        /\ pollingIntervalRef w = None).
  { intros rs r es' Hrs Hr Hes'. cbv zeta. rewrite run_app.
    destruct (startPolling_initial id) as (Hstate & Hreq & Hup).
    destruct (scripted_session 1 id rs r _ Hstate Hrs Hr)
      as (H1 & H2 & H3 & H4 & H5).
    rewrite (quiescent es' _ H2 H3 Hes'). rewrite H4, H5, Hreq, Hup.
    repeat split; try assumption; lia. }
  split; [|split].
  - intros es r es' Hp Hr Hes'. cbv zeta. cbn [step].
    pose proof (held_run es initial held_initial) as Hheld.
    destruct (pending (run initial es)) as [|n] eqn:Hpending; [lia|].
    pose proof (poll_resume_fulfilled r (set_pending n (run initial es)))
      as [_ Hstop].
    rewrite Hr in Hstop. destruct Hstop as [Href Hts].
    specialize (Hts (held_set_pending n _ Hheld)).
    split; [exact Href|]. split; [exact Hts|].
    apply no_timer_no_request; try assumption.
    intros t id'. rewrite Hts. intros [].
  - intros r1 r2 r3 es' Hs1 He1 Hs2 He2 Hs3 Hes'.
    apply (Hscript [r1; r2] r3 es'); try assumption.
    + repeat constructor; unfold stops.
      * rewrite He1, Hs1. reflexivity.
      * rewrite He2, Hs2. reflexivity.
    + unfold stops. rewrite Hs3. apply orb_true_r.
  - intros rs r es' Hrs Hr Hes'.
    apply Hscript; try assumption.
    unfold stops. now rewrite Hr.
Qed.

Lemma polling_stops_witness :
  let w0 := step (run initial [StartPolling "pred-1"])
              (Settle (Fulfilled (Samples.finished "failed"))) in
  let w3 := run (startPolling "pred-1" initial)
              (script 1 [Samples.snapshot "processing";
                         Samples.snapshot "processing";
                         Samples.finished "succeeded"]
               ++ [Tick 1; Tick 1; Tick 1]) in
  let we := run (startPolling "pred-1" initial)
              (script 1 ([Samples.snapshot "starting"]
                         ++ [Samples.errored (OutString "https://cdn.example/partial.png")])
               ++ [Tick 1; Tick 1]) in
  (pollingIntervalRef w0 = None /\ timers w0 = []
   /\ requests (run w0 [Tick 1; Tick 1]) = requests w0)
  /\ (updates w3 = 3%nat /\ requests w3 = 3%nat /\ pollingIntervalRef w3 = None)
  /\ (updates we = 2%nat /\ requests we = 2%nat /\ pollingIntervalRef we = None).
Proof.
  destruct (polling_stops "pred-1") as (Hany & Hscripted & Herror).
  split; [|split].
  - apply (Hany [StartPolling "pred-1"] (Samples.finished "failed")
             [Tick 1; Tick 1]).
    + cbn. lia.
    + reflexivity.
    + reflexivity.
  - apply Hscripted; reflexivity.
  - apply (Herror [Samples.snapshot "starting"]).
    + repeat constructor.
    + reflexivity.
    + reflexivity.
Defined.

(** C6, on the code.  The status is compared as it arrives: after the
    snapshot 'Succeeded' (or 'SUCCEEDED') the interval is still set and the
    next tick sends a second request, although the status badge, which
    lowers the case first, shows the job as succeeded; the same run with
    'succeeded' stops after one request.  A status that is none of the
    three terminal tags, such as 'completed', keeps the session going. *)
Theorem status_match_is_case_sensitive :
  let session tag :=
    run (startPolling "pred-1" initial)
        [Settle (Fulfilled (Samples.finished tag)); Tick 1] in
  (StatusDisplay.getStatusColor "Succeeded" = StatusDisplay.getStatusColor "succeeded"
   /\ StatusDisplay.getStatusColor "SUCCEEDED" = StatusDisplay.getStatusColor "succeeded")
  /\ (pollingIntervalRef (session "succeeded") = None
      /\ requests (session "succeeded") = 1%nat)
  /\ (pollingIntervalRef (session "Succeeded") = Some 1%positive
      /\ requests (session "Succeeded") = 2%nat)
  /\ (pollingIntervalRef (session "SUCCEEDED") = Some 1%positive
      /\ requests (session "SUCCEEDED") = 2%nat)
  /\ (pollingIntervalRef (session "completed") = Some 1%positive
      /\ requests (session "completed") = 2%nat).
Proof. repeat split. Qed.

(** C10, as stated, fails on an output that is not null but empty: the
    empty string is falsy, so it is not handed to [setGeneratedImages], and
    the session ends with the error all the same. *)
Lemma output_before_error_counterexample :
  let r := Samples.errored (OutString "") in
  let w := step (startPolling "pred-1" initial) (Settle (Fulfilled r)) in
  data_output r <> None
  /\ truthy_error (data_error r) = true
  /\ ~ In (SetGeneratedImages (data_output r)) (log w)
  /\ generatedImages w = None
  /\ error w = Some "CUDA out of memory"
  /\ pollingIntervalRef w = None.
Proof.
  cbv zeta. split; [discriminate|]. split; [reflexivity|].
  split; [|repeat split].
  intro Hin. cbn in Hin.
  repeat (destruct Hin as [Hin|Hin]; [discriminate Hin|]). exact Hin.
Qed.

(** What [poll] does with a snapshot, call by call: the status and the
    message, then the output if it is truthy, then what the checks of the
    error and of the status add. *)
Lemma poll_resume_log (r : StatusResponse) (w : World) :
  let cleared :=
    match pollingIntervalRef w with
    | Some t => [ClearInterval t]
    | None => []
    end in
  log (poll_resume (Fulfilled r) w)
  = log w
    ++ [SetStatus (data_status r); SetStatusMessage (or_default (message r) "")]
    ++ (if truthy_output (data_output r)
        then [SetGeneratedImages (data_output r)] else [])
    ++ (if truthy_error (data_error r)
        then [SetError (data_error r); SetIsGenerating false] ++ cleared
        else if StatusDisplay.includes ["succeeded"; "failed"; "canceled"]
                  (data_status r)
             then [SetIsGenerating false] ++ cleared
             else [])
  /\ generatedImages (poll_resume (Fulfilled r) w)
     = (if truthy_output (data_output r) then data_output r
        else generatedImages w)
  /\ (truthy_error (data_error r) = true ->
      error (poll_resume (Fulfilled r) w) = data_error r
      /\ isGenerating (poll_resume (Fulfilled r) w) = false
      /\ pollingIntervalRef (poll_resume (Fulfilled r) w) = None).
Proof.
  cbv zeta. unfold poll_resume.
  destruct (truthy_output (data_output r));
    destruct (truthy_error (data_error r));
    destruct (StatusDisplay.includes ["succeeded"; "failed"; "canceled"]
                (data_status r));
    unfold clear_polling; unfold_setters;
    destruct (pollingIntervalRef w) as [t|] eqn:Href; unfold_setters;
    rewrite ?Href; repeat rewrite <- app_assoc; cbn [app];
    (split; [reflexivity|]); (split; [reflexivity|]);
    intro H; try discriminate H; repeat split.
Qed.

(** C10, amended.  [poll] hands a truthy output (an array of URLs, or a URL
    that is not the empty string) to [setGeneratedImages] right after the
    status and the message, before it looks at the error and at the status;
    what these two checks do comes after, in the same order whatever the
    output.  An output that is [null] or the empty string is not handed
    over, and the images shown stay as they were.  A non-empty error then
    ends the session: the error is set, the page is no longer generating and
    the interval is cleared, also when an output was delivered just
    before. *)
Theorem output_before_error (w : World) (r : StatusResponse) :
  (0 < pending w)%nat ->
  let w' := step w (Settle (Fulfilled r)) in
  let cleared :=
    match pollingIntervalRef w with
    | Some t => [ClearInterval t]
    | None => []
    end in
  let checks :=
    if truthy_error (data_error r)
    then [SetError (data_error r); SetIsGenerating false] ++ cleared
    else if StatusDisplay.includes ["succeeded"; "failed"; "canceled"]
              (data_status r)
         then [SetIsGenerating false] ++ cleared
         else [] in
  ((exists urls, data_output r = Some (OutArray urls))
   \/ (exists url, data_output r = Some (OutString url) /\ url <> "") ->
   log w'
   = log w
     ++ [SetStatus (data_status r);
         SetStatusMessage (or_default (message r) "");
         SetGeneratedImages (data_output r)]
     ++ checks
   /\ generatedImages w' = data_output r)
  /\ (data_output r = None \/ data_output r = Some (OutString "") ->
      log w'
      = log w
        ++ [SetStatus (data_status r);
            SetStatusMessage (or_default (message r) "")]
        ++ checks
      /\ generatedImages w' = generatedImages w)
  /\ (forall e, data_error r = Some e -> e <> "" ->
      checks = [SetError (Some e); SetIsGenerating false] ++ cleared
      /\ error w' = Some e
      /\ isGenerating w' = false
      /\ pollingIntervalRef w' = None).
Proof.
  intros Hp w' cleared checks. subst w'. cbn [step].
  destruct (pending w) as [|n]; [lia|].
  destruct (poll_resume_log r (set_pending n w)) as (Hlog & Himg & Herr).
  change (log (set_pending n w)) with (log w) in Hlog.
  change (pollingIntervalRef (set_pending n w))
    with (pollingIntervalRef w) in Hlog.
  change (generatedImages (set_pending n w)) with (generatedImages w) in Himg.
  fold cleared in Hlog. fold checks in Hlog.
  split; [|split].
  - intro Hout.
    assert (Htruthy : truthy_output (data_output r) = true).
    { destruct Hout as [[urls ->] | (url & -> & Hurl)]; [reflexivity|].
      cbn. apply String.eqb_neq in Hurl. now rewrite Hurl. }
    rewrite Htruthy in Hlog, Himg. split; [exact Hlog | exact Himg].
  - intro Hout.
    assert (Hfalsy : truthy_output (data_output r) = false).
    { destruct Hout as [-> | ->]; reflexivity. }
    rewrite Hfalsy in Hlog, Himg. split; [exact Hlog | exact Himg].
  - intros e He Hne.
    assert (Htruthy : truthy_error (data_error r) = true).
    { rewrite He. cbn. apply String.eqb_neq in Hne. now rewrite Hne. }
    destruct (Herr Htruthy) as (H1 & H2 & H3).
    subst checks. rewrite Htruthy. rewrite <- He.
    repeat split; assumption.
Qed.

Lemma output_before_error_witness :
  let r := Samples.errored (OutArray ["https://cdn.example/out-0.png"]) in
  let w := startPolling "pred-1" initial in
  let w' := step w (Settle (Fulfilled r)) in
  (log w'
   = log w
     ++ [SetStatus "processing"; SetStatusMessage "Status retrieved";
         SetGeneratedImages (data_output r)]
     ++ [SetError (Some "CUDA out of memory"); SetIsGenerating false]
     ++ [ClearInterval 1]
   /\ generatedImages w' = data_output r)
  /\ error w' = Some "CUDA out of memory"
  /\ pollingIntervalRef w' = None.
Proof.
  intros r w w'.
  destruct (output_before_error w r (Nat.lt_0_succ 0))
    as (Htruthy & _ & Herror).
  split.
  - apply Htruthy. left. eexists. reflexivity.
  - destruct (Herror "CUDA out of memory" eq_refl) as (_ & He & _ & Href).
    + discriminate.
    + split; [exact He | exact Href].
Defined.

End PollingProps.

(** * Further properties *)

(** ** Image compression *)
(** X3. [compressImage] rejects with one of four messages, and each tells
    how far the run got: a failed read is followed by no decode, a failed
    decode or a missing canvas context by no draw and no encode, and the
    only encode that can make the run fail is the first. *)
Theorem rejection_stage (B : Browser) (file : File)
    (maxWidth maxHeight quality : float) (maxSizeMB : Q) (msg : string) :
  let r := run (compressImage B file maxWidth maxHeight quality maxSizeMB) in
  fst r = Rejected msg ->
  budget maxSizeMB < inject_Z (size file)
  /\ ((msg = "Failed to read file" /\ readAsDataURL B file = None
       /\ snd r = [EvRead file])
      \/ exists src,
           readAsDataURL B file = Some src
           /\ ((msg = "Failed to load image" /\ loadImage B src = None
                /\ snd r = [EvRead file; EvDecode src])
               \/ exists img,
                    loadImage B src = Some img
                    /\ ((msg = "Failed to get canvas context"
                         /\ getContext2d B (canvas_of maxWidth maxHeight img)
                            = false
                         /\ snd r = [EvRead file; EvDecode src])
                        \/ (msg = "Failed to compress image"
                            /\ toBlob B (canvas_of maxWidth maxHeight img)
                                 (mime file) quality = None
                            /\ snd r
                               = first_pass file maxWidth maxHeight quality
                                   src img)))).
Proof.
  cbv zeta.
  unfold compressImage, canvas_of, mime, first_pass.
  destruct (Qle_bool (inject_Z (size file)) (budget maxSizeMB)) eqn:Hfast.
  - cbn. discriminate.
  - intro H. split; [now apply Qle_bool_false|]. revert H.
    cbv beta delta [run bind emit ret reject or_reject] iota; cbn [app].
    destruct (readAsDataURL B file) as [src|] eqn:Hread.
    2:{ cbn. intro H. injection H as <-. left. auto. }
    cbv beta delta [run bind emit ret reject or_reject] iota; cbn [app].
    intro H. right. exists src. split; [reflexivity|]. revert H.
    destruct (loadImage B src) as [img|] eqn:Hload.
    2:{ cbn. intro H. injection H as <-. left. auto. }
    intro H. right. exists img. split; [reflexivity|]. revert H.
    destruct (resize img maxWidth maxHeight) as [width height] eqn:Hdim.
    cbn [fst snd].
    destruct (getContext2d B _) eqn:Hctx; cbn [negb].
    2:{ cbn. intro H. injection H as <-. left. auto. }
    cbv beta delta [run bind emit ret reject or_reject] iota; cbn [app].
    destruct (toBlob B _ _ quality) as [blob|] eqn:Hblob.
    2:{ cbn. intro H. injection H as <-. right. auto. }
    destruct (_ && _).
    + cbv beta delta [run bind emit ret reject or_reject] iota; cbn [app].
      intro H. exfalso. revert H.
      destruct (toBlob B _ _ (Math_max 0.3 (quality - 0.2))); cbn [fst];
        intro H; discriminate H.
    + cbn [fst]; intro H; discriminate H.
Qed.

Lemma rejection_stage_witness :
  fst (run (compressImage Samples.picky_browser Samples.broken_file
              1920 1920 0.8 Samples.five_bytes))
  = Rejected "Failed to load image"
  /\ budget Samples.five_bytes < inject_Z (size Samples.broken_file).
Proof.
  split; [reflexivity|].
  exact (proj1 (rejection_stage Samples.picky_browser Samples.broken_file
                  1920 1920 0.8 Samples.five_bytes "Failed to load image"
                  eq_refl)).
Defined.

(** X4. [compressImage] resolves exactly when the file fits the budget, or
    the read, the decode, the canvas context and the first encode all
    succeed: a failure of the second encode never makes the call fail. *)
Theorem resolves_iff (B : Browser) (file : File)
    (maxWidth maxHeight quality : float) (maxSizeMB : Q) :
  (exists f,
     fst (run (compressImage B file maxWidth maxHeight quality maxSizeMB))
     = Resolved f)
  <->
  (inject_Z (size file) <= budget maxSizeMB
   \/ exists src img blob,
        readAsDataURL B file = Some src
        /\ loadImage B src = Some img
        /\ getContext2d B (canvas_of maxWidth maxHeight img) = true
        /\ toBlob B (canvas_of maxWidth maxHeight img) (mime file) quality
           = Some blob).
Proof.
  split.
  - intros [f Hf].
    destruct (compressImage_resolved B file maxWidth maxHeight quality
                maxSizeMB f Hf) as [[Hsmall _] | [_ Hslow]]; auto.
  - intros [Hsmall | (src & img & blob & Hread & Hload & Hctx & Hblob)].
    + exists file. apply Qle_bool_iff in Hsmall.
      unfold compressImage. now rewrite Hsmall.
    + destruct (Qlt_le_dec (budget maxSizeMB) (inject_Z (size file)))
        as [Hbig | Hsmall].
      * rewrite (compressImage_slow_path B file maxWidth maxHeight quality
                   maxSizeMB src img blob Hbig Hread Hload Hctx Hblob).
        destruct (_ && _); eexists; reflexivity.
      * exists file. apply Qle_bool_iff in Hsmall.
        unfold compressImage. now rewrite Hsmall.
Qed.

(** X5. A file that [compressImage] has re-encoded keeps the name of the
    input, carries the MIME type of the input ([image/jpeg] when the input
    has none) and the current time, and holds the bytes of a blob the
    encoder produced at one of the two qualities. *)
Theorem compressed_file_metadata (B : Browser) (file : File)
    (maxWidth maxHeight quality : float) (maxSizeMB : Q) (f : File) :
  budget maxSizeMB < inject_Z (size file) ->
  fst (run (compressImage B file maxWidth maxHeight quality maxSizeMB))
    = Resolved f ->
  name f = name file
  /\ type f = or_default (type file) "image/jpeg"
  /\ lastModified f = Date_now B
  /\ exists src img blob q,
       readAsDataURL B file = Some src /\ loadImage B src = Some img
       /\ (q = quality \/ q = Math_max 0.3 (quality - 0.2))
       /\ toBlob B (canvas_of maxWidth maxHeight img) (mime file) q = Some blob
       /\ file_data f = blob_data blob.
Proof.
  intros Hbig Hr.
  destruct (compressImage_resolved B file maxWidth maxHeight quality
              maxSizeMB f Hr)
    as [[Hsmall _] | [_ (src & img & blob & Hread & Hload & Hctx & Hblob)]].
  - exfalso. exact (Qlt_not_le _ _ Hbig Hsmall).
  - revert Hr.
    rewrite (compressImage_slow_path B file maxWidth maxHeight quality
               maxSizeMB src img blob Hbig Hread Hload Hctx Hblob).
    destruct (_ && _); cbn [fst].
    + destruct (toBlob B _ _ (Math_max 0.3 (quality - 0.2))) as [blob2|] eqn:Hblob2;
        intro H; injection H as <-; repeat split.
      * exists src, img, blob2, (Math_max 0.3 (quality - 0.2)). auto 6.
      * exists src, img, blob, quality. auto 6.
    + intro H; injection H as <-; repeat split.
      exists src, img, blob, quality. auto 6.
Qed.

Lemma compressed_file_metadata_witness :
  let f := wrap Samples.sample_browser Fixtures.untyped_file
             {| blob_data := repeat Byte.x00 6; blob_type := "image/jpeg" |} in
  name f = "scan" /\ type f = "image/jpeg".
Proof.
  destruct (compressed_file_metadata Samples.sample_browser
              Fixtures.untyped_file 1920 1920 0.8 Samples.five_bytes
              (wrap Samples.sample_browser Fixtures.untyped_file
                 {| blob_data := repeat Byte.x00 6; blob_type := "image/jpeg" |}))
    as (Hname & Htype & _).
  - reflexivity.
  - reflexivity.
  - split; [exact Hname | exact Htype].
Defined.

Lemma resolves_iff_witness :
  exists f,
    fst (run (compressImage Samples.flaky_browser Samples.big_file
                1920 1920 0.8 Samples.five_bytes))
    = Resolved f.
Proof.
  apply (proj2 (resolves_iff Samples.flaky_browser Samples.big_file
                  1920 1920 0.8 Samples.five_bytes)).
  right.
  exists "data:image/png;base64,iVBORw0KGgo=",
    (Samples.sample_image "data:image/png;base64,iVBORw0KGgo="),
    {| blob_data := repeat Byte.x00 8; blob_type := "image/png" |}.
  repeat split.
Defined.

(** ** The batch *)
Section BatchMore.

Variable B : Browser.
Variables (maxWidth maxHeight quality : float) (maxSizeMB : Q).

Local Abbreviation one := (fun file =>
  fst (run (compressImage B file maxWidth maxHeight quality maxSizeMB))).

(** The values of the fulfilled promises do not depend on the instants. *)
Lemma fulfilled_values_dispatch (settle settle' : nat -> nat)
    (files : list File) (i j : nat) :
  fulfilled_values
    (dispatch B settle i files maxWidth maxHeight quality maxSizeMB)
  = fulfilled_values
      (dispatch B settle' j files maxWidth maxHeight quality maxSizeMB).
Proof.
  revert i j. induction files as [|file files IH]; intros i j; cbn.
  - reflexivity.
  - destruct (fst (run (compressImage B file maxWidth maxHeight quality
                          maxSizeMB))); [f_equal|]; apply IH.
Qed.

(** Files within the budget are dispatched to promises that hold them. *)
Lemma dispatch_small (settle : nat -> nat) (files : list File) (i : nat) :
  Forall (fun file => inject_Z (size file) <= budget maxSizeMB) files ->
  first_rejection
    (dispatch B settle i files maxWidth maxHeight quality maxSizeMB) = None
  /\ fulfilled_values
       (dispatch B settle i files maxWidth maxHeight quality maxSizeMB)
     = files.
Proof.
  intro Hall. revert i.
  induction Hall as [|file files Hsmall _ IH]; intro i; cbn.
  - auto.
  - assert (Hfile : fst (run (compressImage B file maxWidth maxHeight
                                quality maxSizeMB)) = Resolved file).
    { apply Qle_bool_iff in Hsmall. unfold compressImage.
      now rewrite Hsmall. }
    rewrite Hfile. destruct (IH (S i)) as [-> ->]. auto.
Qed.

End BatchMore.

(** X6. A batch whose files are all within the size budget is returned as
    it is: the same files in the same order, whatever the browser and the
    order in which the promises settle. *)
Theorem batch_of_small_files (B : Browser) (settle : nat -> nat)
    (files : list File) (options : option Options) :
  let o := match options with Some o => o | None => empty_options end in
  Forall (fun file =>
            inject_Z (size file) <= budget (with_default 1 (opt_maxSizeMB o)))
         files ->
  compressImages B settle files options = Resolved files.
Proof.
  intros o Hall. unfold compressImages, Promise_all. fold o.
  destruct (dispatch_small B (with_default 1920%float (opt_maxWidth o))
              (with_default 1920%float (opt_maxHeight o))
              (with_default 0.8%float (opt_quality o))
              (with_default 1 (opt_maxSizeMB o)) settle files 0 Hall)
    as [-> ->].
  reflexivity.
Qed.

Lemma batch_of_small_files_witness :
  compressImages Samples.picky_browser (fun i => (7 - i)%nat)
    [Samples.small_file; Samples.broken_file; Fixtures.shirt] None
  = Resolved [Samples.small_file; Samples.broken_file; Fixtures.shirt].
Proof.
  apply (batch_of_small_files Samples.picky_browser (fun i => (7 - i)%nat)
           [Samples.small_file; Samples.broken_file; Fixtures.shirt] None).
  repeat constructor; vm_compute; discriminate.
Defined.

(** X7. The order in which the promises of a batch settle matters only to
    choose between different errors: when all the items that reject do so
    with the same message (in particular when at most one rejects), two
    runs of [compressImages] on the same files give the same result. *)
Theorem batch_schedule_independent (B : Browser) (settle settle' : nat -> nat)
    (files : list File) (options : option Options) :
  (forall i j file file' msg msg',
     nth_error files i = Some file -> nth_error files j = Some file' ->
     item_promise B file options = Rejected msg ->
     item_promise B file' options = Rejected msg' ->
     msg = msg') ->
  compressImages B settle files options
  = compressImages B settle' files options.
Proof.
  unfold compressImages, item_promise, Promise_all.
  set (o := match options with Some o => o | None => empty_options end).
  set (maxWidth := with_default 1920%float (opt_maxWidth o)).
  set (maxHeight := with_default 1920%float (opt_maxHeight o)).
  set (quality := with_default 0.8%float (opt_quality o)).
  set (maxSizeMB := with_default 1 (opt_maxSizeMB o)).
  intro Hsame.
  set (ps := dispatch B settle 0 files maxWidth maxHeight quality maxSizeMB).
  set (ps' := dispatch B settle' 0 files maxWidth maxHeight quality maxSizeMB).
  assert (Hres : Forall (fun p => exists v, snd p = Resolved v) ps ->
                 Forall (fun p => exists v, snd p = Resolved v) ps').
  { rewrite !Forall_forall. intros Hall [t r] Hin.
    apply In_dispatch in Hin. destruct Hin as (j & file & Hj & _ & ->).
    apply (Hall (settle (0 + j)%nat, _)).
    apply In_dispatch. exists j, file. auto. }
  destruct (first_rejection ps) as [[t m]|] eqn:Hfirst;
    destruct (first_rejection ps') as [[t' m']|] eqn:Hfirst'.
  - destruct (first_rejection_some _ _ _ Hfirst) as [Hin _].
    destruct (first_rejection_some _ _ _ Hfirst') as [Hin' _].
    apply In_dispatch in Hin. destruct Hin as (i & file & Hi & _ & Hm).
    apply In_dispatch in Hin'. destruct Hin' as (j & file' & Hj & _ & Hm').
    f_equal. symmetry in Hm, Hm'. exact (Hsame i j file file' m m' Hi Hj Hm Hm').
  - exfalso. apply first_rejection_none in Hfirst'.
    destruct (first_rejection_some _ _ _ Hfirst) as [Hin _].
    apply In_dispatch in Hin. destruct Hin as (i & file & Hi & _ & Hm).
    rewrite Forall_forall in Hfirst'.
    destruct (Hfirst' (settle' (0 + i)%nat, Rejected m)) as [v Hv].
    + apply In_dispatch. exists i, file. auto.
    + discriminate Hv.
  - exfalso. apply first_rejection_none in Hfirst. apply Hres in Hfirst.
    apply first_rejection_none in Hfirst. congruence.
  - f_equal. apply fulfilled_values_dispatch.
Qed.

Lemma batch_schedule_independent_witness :
  let options :=
    Some {| opt_maxWidth := None; opt_maxHeight := None;
            opt_quality := None; opt_maxSizeMB := Some Samples.five_bytes |} in
  compressImages Samples.picky_browser (fun i => i)
    [Samples.big_file; Samples.broken_file] options
  = compressImages Samples.picky_browser (fun i => (9 - i)%nat)
      [Samples.big_file; Samples.broken_file] options.
Proof.
  intro options.
  apply (batch_schedule_independent Samples.picky_browser (fun i => i)
           (fun i => (9 - i)%nat)).
  intros [|[|i]] [|[|j]] file file' msg msg' Hi Hj Hm Hm';
    cbn in Hi, Hj; try discriminate;
    try (destruct i; discriminate); try (destruct j; discriminate);
    injection Hi as <-; injection Hj as <-;
    vm_compute in Hm, Hm'; congruence.
Defined.

(** ** The remote service *)

(** X8. Both endpoints return data only from a 2xx response with a JSON
    body, and then they return that body: nothing parsed from an error
    response, and nothing at all without a configured URL, is ever
    returned as a result. *)
Theorem returns_only_from_ok (url : string)
    (fetch : Request -> exn + Response)
    (modelImage : ImageCompression.File) (clothingImages : ClothingImages)
    (numOutputs : Z) (predictionId : string) (v : json) :
  (generateMatchingSet url fetch modelImage clothingImages numOutputs = inr v ->
   url <> ""
   /\ exists response,
        fetch (remix_request url modelImage clothingImages numOutputs)
          = inr response
        /\ (200 <= status response <= 299)%N
        /\ json_body response = Some v)
  /\ (checkJobStatus url fetch predictionId = inr v ->
      url <> ""
      /\ exists response,
           fetch (status_request url predictionId) = inr response
           /\ (200 <= status response <= 299)%N
           /\ json_body response = Some v).
Proof.
  assert (Hfinish : forall response,
            finish response = inr v ->
            (200 <= status response <= 299)%N /\ json_body response = Some v).
  { intros response. unfold finish, ok.
    destruct ((200 <=? status response)%N && (status response <=? 299)%N)
      eqn:Hok; cbn [negb]; [|discriminate].
    apply andb_true_iff in Hok. destruct Hok as [H1 H2].
    apply N.leb_le in H1. apply N.leb_le in H2.
    destruct (json_body response) as [body|]; [|discriminate].
    intro H. injection H as ->. auto. }
  split.
  - unfold generateMatchingSet.
    destruct (String.eqb url "") eqn:Hurl; [discriminate|].
    apply String.eqb_neq in Hurl.
    destruct (fetch _) as [e|response] eqn:Hfetch; [discriminate|].
    intro H. split; [exact Hurl|]. exists response.
    split; [reflexivity|]. now apply Hfinish.
  - unfold checkJobStatus.
    destruct (String.eqb url "") eqn:Hurl; [discriminate|].
    apply String.eqb_neq in Hurl.
    destruct (fetch _) as [e|response] eqn:Hfetch; [discriminate|].
    intro H. split; [exact Hurl|]. exists response.
    split; [reflexivity|]. now apply Hfinish.
Qed.

Lemma returns_only_from_ok_witness :
  let accepted :=
    {| status := 200;
       json_body := Some (JObj [("status", JStr "success")]) |} in
  exists response,
    Samples.always accepted (status_request Samples.sample_url "pred-1")
      = inr response
    /\ (200 <= status response <= 299)%N.
Proof.
  intro accepted.
  destruct (proj2 (returns_only_from_ok Samples.sample_url
                     (Samples.always accepted) Samples.small_file
                     Samples.only_top 1 "pred-1"
                     (JObj [("status", JStr "success")])) eq_refl)
    as (_ & response & Hfetch & Hok & _).
  exists response. split; assumption.
Defined.

(** X9. The form sent to [/remix-images] has the model image under
    [model_image] and, under each of the four clothing fields, exactly the
    image of that slot: a slot that is empty adds no field, not even an
    empty one, and no field occurs twice. *)
Theorem remix_form_fields (modelImage : ImageCompression.File)
    (clothingImages : ClothingImages) (numOutputs : Z) :
  let form := remix_form modelImage clothingImages numOutputs in
  Views.form_get "model_image" form = Some (FormFile modelImage)
  /\ Views.form_get "top_image" form
     = option_map FormFile (top_image clothingImages)
  /\ Views.form_get "bottom_image" form
     = option_map FormFile (bottom_image clothingImages)
  /\ Views.form_get "outer_image" form
     = option_map FormFile (outer_image clothingImages)
  /\ Views.form_get "dress_image" form
     = option_map FormFile (dress_image clothingImages)
  /\ NoDup (map fst form).
Proof.
  destruct clothingImages as [[t|] [b|] [o|] [d|]];
    unfold remix_form, append_if;
    cbn [top_image bottom_image outer_image dress_image app];
    destruct ((1 <=? numOutputs)%Z && (numOutputs <=? 4)%Z);
    cbn [app Views.form_get String.eqb Ascii.eqb Bool.eqb option_map map fst];
    (repeat split; try reflexivity);
    repeat constructor; cbn [In]; intuition discriminate.
Qed.

(** ** The status badge *)

(** X11. The two switches of the status badge agree on every status: the
    spinner comes with blue, the check mark with green, the cross with red,
    and no icon at all with gray. *)
Theorem icon_matches_color (status : string) :
  (StatusBadge.getStatusIcon status = Some StatusBadge.Spinner
   <-> StatusDisplay.getStatusColor status = "bg-blue-500 text-blue-50")
  /\ (StatusBadge.getStatusIcon status = Some StatusBadge.CheckMark
      <-> StatusDisplay.getStatusColor status = "bg-green-500 text-green-50")
  /\ (StatusBadge.getStatusIcon status = Some StatusBadge.Cross
      <-> StatusDisplay.getStatusColor status = "bg-red-500 text-red-50")
  /\ (StatusBadge.getStatusIcon status = None
      <-> StatusDisplay.getStatusColor status = "bg-gray-500 text-gray-50").
Proof.
  unfold StatusBadge.getStatusIcon, StatusDisplay.getStatusColor.
  cbv zeta.
  destruct (StatusDisplay.includes ["starting"; "processing"] _);
    [|destruct (StatusDisplay.includes ["succeeded"; "completed"] _);
      [|destruct (StatusDisplay.includes ["failed"; "canceled"] _)]];
    repeat split; intro H; try reflexivity; discriminate H.
Qed.

(** X12. A status on which [poll] stops the session (one of the tags
    succeeded, failed, canceled, as they are written) is never shown with
    the spinner: the badge shows the check mark for succeeded and the
    cross for the other two. *)
Theorem terminal_status_badge (status : string) :
  StatusDisplay.includes ["succeeded"; "failed"; "canceled"] status = true ->
  (status = "succeeded"
   /\ StatusBadge.getStatusIcon status = Some StatusBadge.CheckMark)
  \/ ((status = "failed" \/ status = "canceled")
      /\ StatusBadge.getStatusIcon status = Some StatusBadge.Cross).
Proof.
  unfold StatusDisplay.includes. cbn [existsb].
  rewrite !orb_true_iff.
  intros [H | [H | [H | H]]]; try discriminate H;
    apply String.eqb_eq in H; subst status.
  - left. split; reflexivity.
  - right. split; [now left | reflexivity].
  - right. split; [now right | reflexivity].
Qed.

Lemma terminal_status_badge_witness :
  StatusBadge.getStatusIcon "canceled" = Some StatusBadge.Cross.
Proof.
  destruct (terminal_status_badge "canceled" eq_refl)
    as [[H _] | [_ H]]; [discriminate H | exact H].
Defined.

(** ** The polling loop *)
Section PollingMore.

Import Polling.

Ltac unfold_setters :=
  cbn [status statusMessage generatedImages error isGenerating
       pollingIntervalRef timers next_timer pending log
       setStatus setStatusMessage setGeneratedImages setError
       setIsGenerating set_ref set_pending clearInterval record].

Lemma clear_polling_pending (w : World) : pending (clear_polling w) = pending w.
Proof. unfold clear_polling. now destruct (pollingIntervalRef w). Qed.

Lemma clear_polling_requests (w : World) : requests (clear_polling w) = requests w.
Proof.
  unfold clear_polling. destruct (pollingIntervalRef w); [|reflexivity].
  unfold requests. unfold_setters.
  rewrite filter_app. cbn. now rewrite app_nil_r.
Qed.

Lemma clear_polling_updates (w : World) : updates (clear_polling w) = updates w.
Proof.
  unfold clear_polling. destruct (pollingIntervalRef w); [|reflexivity].
  unfold updates. unfold_setters.
  rewrite filter_app. cbn. now rewrite app_nil_r.
Qed.

Lemma clear_polling_ref (w : World) : pollingIntervalRef (clear_polling w) = None.
Proof.
  unfold clear_polling.
  destruct (pollingIntervalRef w) eqn:Href; [reflexivity | exact Href].
Qed.

Lemma one_timer_held (w : World) : Views.one_timer w -> held w.
Proof.
  intros [[_ Hts] | (t & id & Href & Hts)] t' id' Hin; rewrite Hts in Hin.
  - destruct Hin.
  - destruct Hin as [Heq|[]]. injection Heq as <- _. exact Href.
Qed.

Lemma one_timer_step (w : World) (e : event) :
  Views.one_timer w -> Views.one_timer (step w e).
Proof.
  intro Hone. pose proof (one_timer_held w Hone) as Hheld.
  destruct e as [id|t|o]; cbn [step].
  - right. exists (next_timer (clear_polling w)), id.
    unfold startPolling, setInterval, poll_request. unfold_setters.
    split; [reflexivity|].
    now rewrite (clear_polling_timers w Hheld).
  - destruct (timer_callback t (timers w)); exact Hone.
  - destruct (pending w) as [|n]; [exact Hone|].
    destruct (poll_resume_frame o (set_pending n w))
      as (_ & _ & [[Href Hts] | [Href Hts]]).
    + unfold Views.one_timer. rewrite Href, Hts. exact Hone.
    + left. split; [exact Href | exact (Hts Hheld)].
Qed.

Lemma requested_ids_app (l l' : list effect) :
  Views.requested_ids (l ++ l')
  = Views.requested_ids l ++ Views.requested_ids l'.
Proof.
  induction l as [|e l IH]; [reflexivity|].
  destruct e; cbn; rewrite IH; reflexivity.
Qed.

(** [poll] sends nothing once its request is answered. *)
Lemma poll_resume_requested (o : outcome) (w : World) :
  Views.requested_ids (log (poll_resume o w)) = Views.requested_ids (log w).
Proof.
  unfold poll_resume.
  destruct o as [r| |];
    [destruct (truthy_output (data_output r));
     destruct (truthy_error (data_error r));
     [| destruct (StatusDisplay.includes _ (data_status r)) | |
      destruct (StatusDisplay.includes _ (data_status r))] | |];
    unfold clear_polling; unfold_setters;
    destruct (pollingIntervalRef w) as [t|]; unfold_setters;
    repeat rewrite requested_ids_app; cbn [Views.requested_ids];
    repeat rewrite app_nil_r; reflexivity.
Qed.

Lemma timer_callback_In (t : positive) (id : string)
    (ts : list (positive * string)) :
  timer_callback t ts = Some id -> In (t, id) ts.
Proof.
  induction ts as [|[t' id'] ts IH]; cbn; [discriminate|].
  destruct (Pos.eqb_spec t' t) as [->|_].
  - intro H. injection H as ->. now left.
  - intro H. right. now apply IH.
Qed.

(** While [startPolling] is not called again, every request that is sent
    is for the job of the interval that is set. *)
Lemma requests_of_session (id : string) (es : list event) (w : World) :
  held w ->
  (forall t i, In (t, i) (timers w) -> i = id) ->
  existsb is_start es = false ->
  exists k,
    Views.requested_ids (log (run w es))
    = Views.requested_ids (log w) ++ repeat id k.
Proof.
  revert w. induction es as [|e es IH]; intros w Hheld Hid Hes.
  - exists 0%nat. cbn. now rewrite app_nil_r.
  - change (run w (e :: es)) with (run (step w e) es).
    cbn in Hes. apply orb_false_iff in Hes. destruct Hes as [He Hes].
    assert (Hstep : held (step w e)
                    /\ (forall t i, In (t, i) (timers (step w e)) -> i = id)
                    /\ exists k,
                         Views.requested_ids (log (step w e))
                         = Views.requested_ids (log w) ++ repeat id k).
    { split; [now apply held_step|].
      destruct e as [id'|t|o]; cbn [step]; [discriminate He| |].
      - destruct (timer_callback t (timers w)) as [i|] eqn:Hcb.
        + apply timer_callback_In in Hcb. rewrite (Hid _ _ Hcb).
          split; [exact Hid|]. exists 1%nat.
          unfold poll_request. unfold_setters.
          now rewrite requested_ids_app.
        + split; [exact Hid|]. exists 0%nat. cbn. now rewrite app_nil_r.
      - destruct (pending w) as [|n].
        + split; [exact Hid|]. exists 0%nat. cbn. now rewrite app_nil_r.
        + split.
          * destruct (poll_resume_frame o (set_pending n w))
              as (_ & _ & [[_ Hts] | [_ Hts]]).
            -- rewrite Hts. exact Hid.
            -- rewrite (Hts Hheld). intros t i [].
          * exists 0%nat. rewrite poll_resume_requested. cbn.
            now rewrite app_nil_r. }
    destruct Hstep as (Hheld' & Hid' & k1 & Hk1).
    destruct (IH _ Hheld' Hid' Hes) as [k2 Hk2].
    exists (k1 + k2)%nat. rewrite Hk2, Hk1, repeat_app. now rewrite app_assoc.
Qed.

(** Each handled response answers a request that was sent. *)
Lemma counts_step (w : World) (e : event) :
  (updates w + pending w <= requests w)%nat ->
  (updates (step w e) + pending (step w e) <= requests (step w e))%nat.
Proof.
  intro Hle. destruct e as [id|t|o]; cbn [step].
  - unfold startPolling, setInterval, poll_request.
    unfold requests, updates. unfold_setters.
    rewrite clear_polling_pending.
    pose proof (clear_polling_requests w) as Hr.
    pose proof (clear_polling_updates w) as Hu.
    unfold requests, updates in Hr, Hu, Hle.
    repeat rewrite filter_app. repeat rewrite length_app. cbn.
    rewrite Hr, Hu. lia.
  - destruct (timer_callback t (timers w)); [|exact Hle].
    unfold poll_request. rewrite requests_set_pending, updates_set_pending,
      requests_record, updates_record. cbn. lia.
  - destruct (pending w) as [|n] eqn:Hp; [rewrite Hp; exact Hle|].
    destruct (poll_resume_frame o (set_pending n w)) as (Hp' & Hreq & _).
    rewrite Hp', Hreq. cbn [set_pending pending].
    rewrite requests_set_pending.
    assert (Hup : (updates (poll_resume o (set_pending n w)) <= S (updates w))%nat).
    { destruct o as [r| |].
      - destruct (poll_resume_fulfilled r (set_pending n w)) as [-> _].
        rewrite updates_set_pending. lia.
      - unfold poll_resume. rewrite clear_polling_updates.
        unfold updates. unfold_setters.
        repeat rewrite filter_app. repeat rewrite length_app. cbn. lia.
      - unfold poll_resume. rewrite clear_polling_updates.
        unfold updates. unfold_setters.
        repeat rewrite filter_app. repeat rewrite length_app. cbn. lia. }
    lia.
Qed.

End PollingMore.

Section PollingExtras.

Import Polling.

(** X13. Whatever the calls of [startPolling], the ticks and the responses,
    at most one interval is set at any time, and it is the one
    [pollingIntervalRef] holds: two polling loops never run side by
    side. *)
Theorem single_interval (es : list event) :
  Views.one_timer (run initial es).
Proof.
  assert (H : forall w, Views.one_timer w -> Views.one_timer (run w es)).
  { induction es as [|e es IH]; intros w Hw; [exact Hw|].
    apply (IH (step w e)). now apply one_timer_step. }
  apply H. left. split; reflexivity.
Qed.

(** X14. After [startPolling(id)], and until it is called again, every
    status request that is sent asks for job [id], the first of them at
    once: the interval of an earlier session sends nothing any more. *)
Theorem session_polls_its_job (es es' : list event) (id : string) :
  existsb is_start es' = false ->
  exists k,
    Views.requested_ids
      (log (run (step (run initial es) (StartPolling id)) es'))
    = Views.requested_ids (log (run initial es)) ++ repeat id (S k).
Proof.
  intro Hes'.
  set (w0 := run initial es).
  pose proof (held_run es initial held_initial) as Hheld0. fold w0 in Hheld0.
  set (w1 := step w0 (StartPolling id)).
  assert (Hheld1 : held w1) by now apply held_step.
  assert (Hts : timers w1 = [(next_timer (clear_polling w0), id)]).
  { subst w1. cbn [step]. unfold startPolling, setInterval, poll_request.
    cbn [timers set_ref set_pending record].
    now rewrite (clear_polling_timers w0 Hheld0). }
  assert (Hlog : Views.requested_ids (log w1)
                 = Views.requested_ids (log w0) ++ [id]).
  { subst w1. cbn [step]. unfold startPolling, setInterval, poll_request.
    cbn [log set_ref set_pending record].
    rewrite !requested_ids_app. cbn [Views.requested_ids].
    rewrite app_nil_r. f_equal.
    unfold clear_polling. destruct (pollingIntervalRef w0); [|reflexivity].
    cbn [log set_ref clearInterval record].
    rewrite requested_ids_app. cbn. now rewrite app_nil_r. }
  destruct (requests_of_session id es' w1 Hheld1) as [k Hk].
  - intros t i Hin. rewrite Hts in Hin. destruct Hin as [Heq|[]].
    now injection Heq as _ <-.
  - exact Hes'.
  - exists k. rewrite Hk, Hlog, <- app_assoc. f_equal.
Qed.

Lemma session_polls_its_job_witness :
  exists k,
    Views.requested_ids
      (log (run (step (run initial [StartPolling "pred-1"; Tick 1])
                   (StartPolling "pred-2"))
              [Tick 1; Tick 2; Tick 2]))
    = ["pred-1"; "pred-1"] ++ repeat "pred-2" (S k).
Proof.
  exact (session_polls_its_job [StartPolling "pred-1"; Tick 1]
           [Tick 1; Tick 2; Tick 2] "pred-2" eq_refl).
Defined.

(** X15. A status request that throws ends the session: the message of the
    error (or 'Failed to check job status' when what was thrown is no
    [Error]) becomes the error shown, the page stops generating, the
    interval is cleared and no request follows; the status shown is not
    touched. *)
Theorem thrown_poll_ends_session (es es' : list event) (o : outcome)
    (msg : string) :
  (0 < pending (run initial es))%nat ->
  (o = ThrownError msg \/ (o = ThrownOther /\ msg = "Failed to check job status")) ->
  existsb is_start es' = false ->
  let w := step (run initial es) (Settle o) in
  error w = Some msg /\ isGenerating w = false
  /\ status w = status (run initial es)
  /\ pollingIntervalRef w = None /\ timers w = []
  /\ requests (run w es') = requests (run initial es).
Proof.
  intros Hp Ho Hes'. cbv zeta. cbn [step].
  pose proof (held_run es initial held_initial) as Hheld.
  set (w0 := run initial es) in *.
  destruct (pending w0) as [|n] eqn:Hpending; [lia|].
  assert (Hfields : error (poll_resume o (set_pending n w0)) = Some msg
                    /\ isGenerating (poll_resume o (set_pending n w0)) = false
                    /\ status (poll_resume o (set_pending n w0)) = status w0
                    /\ pollingIntervalRef (poll_resume o (set_pending n w0)) = None
                    /\ timers (poll_resume o (set_pending n w0)) = []).
  { destruct Ho as [-> | [-> ->]]; unfold poll_resume;
      rewrite clear_polling_ref;
      rewrite clear_polling_timers by exact Hheld;
      unfold clear_polling;
      cbn [pollingIntervalRef setIsGenerating setError record];
      destruct (pollingIntervalRef (set_pending n w0)); repeat split. }
  destruct Hfields as (H1 & H2 & H3 & H4 & H5).
  repeat split; try assumption.
  destruct (poll_resume_frame o (set_pending n w0)) as (_ & Hreq & _).
  rewrite requests_set_pending in Hreq. rewrite <- Hreq.
  apply no_timer_no_request; try assumption.
  intros t id. rewrite H5. intros [].
Qed.

Lemma thrown_poll_ends_session_witness :
  let w := step (run initial [StartPolling "pred-1"])
             (Settle (ThrownError "Failed to fetch")) in
  error w = Some "Failed to fetch" /\ isGenerating w = false
  /\ status w = "" /\ pollingIntervalRef w = None /\ timers w = []
  /\ requests (run w [Tick 1; Tick 1]) = 1%nat.
Proof.
  apply (thrown_poll_ends_session [StartPolling "pred-1"] [Tick 1; Tick 1]
           (ThrownError "Failed to fetch") "Failed to fetch").
  - cbn. lia.
  - now left.
  - reflexivity.
Defined.

(** X16. The polling loop never takes generated images away: once a
    snapshot has delivered an output, no later snapshot, error, tick or
    new session empties [generatedImages] again. *)
Theorem images_never_cleared (w : World) (es : list event) :
  generatedImages w <> None -> generatedImages (run w es) <> None.
Proof.
  revert w. induction es as [|e es IH]; intros w Hw; [exact Hw|].
  apply (IH (step w e)).
  destruct e as [id|t|o]; cbn [step].
  - unfold startPolling, setInterval, poll_request, clear_polling.
    destruct (pollingIntervalRef w); exact Hw.
  - destruct (timer_callback t (timers w)); exact Hw.
  - destruct (pending w) as [|n]; [exact Hw|].
    unfold poll_resume.
    destruct o as [r| |].
    + destruct (truthy_output (data_output r)) eqn:Hout;
        destruct (truthy_error (data_error r));
        try destruct (StatusDisplay.includes _ (data_status r));
        unfold clear_polling;
        cbn [pollingIntervalRef generatedImages setStatus setStatusMessage
             setGeneratedImages setError setIsGenerating set_ref set_pending
             clearInterval record];
        destruct (pollingIntervalRef w);
        cbn [pollingIntervalRef generatedImages setStatus setStatusMessage
             setGeneratedImages setError setIsGenerating set_ref set_pending
             clearInterval record];
        try exact Hw;
        intro Hnone; rewrite Hnone in Hout; discriminate Hout.
    + unfold clear_polling.
      cbn [pollingIntervalRef generatedImages setError setIsGenerating
           set_ref set_pending clearInterval record].
      destruct (pollingIntervalRef w); exact Hw.
    + unfold clear_polling.
      cbn [pollingIntervalRef generatedImages setError setIsGenerating
           set_ref set_pending clearInterval record].
      destruct (pollingIntervalRef w); exact Hw.
Qed.

Lemma images_never_cleared_witness :
  generatedImages
    (run (run initial [StartPolling "pred-1";
                       Settle (Fulfilled (Samples.finished "succeeded"))])
         [StartPolling "pred-2"; Settle (ThrownError "Failed to fetch")])
  <> None.
Proof.
  apply (images_never_cleared
           (run initial [StartPolling "pred-1";
                         Settle (Fulfilled (Samples.finished "succeeded"))])
           [StartPolling "pred-2"; Settle (ThrownError "Failed to fetch")]).
  discriminate.
Defined.

(** X17. The update callback never fires more often than requests were
    sent: at any time, the snapshots handled and the requests still
    awaiting a response together are no more than the requests sent. *)
Theorem updates_bounded_by_requests (es : list event) :
  (updates (run initial es) + pending (run initial es)
   <= requests (run initial es))%nat.
Proof.
  assert (H : forall w,
            (updates w + pending w <= requests w)%nat ->
            (updates (run w es) + pending (run w es) <= requests (run w es))%nat).
  { induction es as [|e es IH]; intros w Hw; [exact Hw|].
    apply (IH (step w e)). now apply counts_step. }
  apply H. cbn. lia.
Qed.

End PollingExtras.

(** ** The page: submitting and resetting *)
Section PageProps.

Import Polling.

Variable B : Browser.
Variable settle : nat -> nat.
Variable generate : File -> ClothingImages -> Z -> Page.submission.

Local Abbreviation handleSubmit := (Page.handleSubmit B settle generate).

Lemma same_loop_refl (w : World) : Views.same_loop w w.
Proof. repeat split. Qed.

Lemma same_loop_record (e : effect) (w w' : World) :
  is_request e = false ->
  Views.same_loop w w' -> Views.same_loop w (record e w').
Proof.
  intros He (H1 & H2 & H3 & H4 & H5). repeat split; try assumption.
  cbn [log record]. rewrite requested_ids_app, H5.
  destruct e; try discriminate He; cbn; now rewrite app_nil_r.
Qed.

Lemma same_loop_setStatus (s : string) (w w' : World) :
  Views.same_loop w w' -> Views.same_loop w (setStatus s w').
Proof. intro H. now apply (same_loop_record (SetStatus s)) in H. Qed.

Lemma same_loop_setStatusMessage (s : string) (w w' : World) :
  Views.same_loop w w' -> Views.same_loop w (setStatusMessage s w').
Proof. intro H. now apply (same_loop_record (SetStatusMessage s)) in H. Qed.

Lemma same_loop_setGeneratedImages (o : option Output) (w w' : World) :
  Views.same_loop w w' -> Views.same_loop w (setGeneratedImages o w').
Proof. intro H. now apply (same_loop_record (SetGeneratedImages o)) in H. Qed.

Lemma same_loop_setError (e : option string) (w w' : World) :
  Views.same_loop w w' -> Views.same_loop w (setError e w').
Proof. intro H. now apply (same_loop_record (SetError e)) in H. Qed.

Lemma same_loop_setIsGenerating (b : bool) (w w' : World) :
  Views.same_loop w w' -> Views.same_loop w (setIsGenerating b w').
Proof. intro H. now apply (same_loop_record (SetIsGenerating b)) in H. Qed.

Ltac same_loop :=
  repeat lazymatch goal with
  | |- Views.same_loop _ (setStatus _ _) => apply same_loop_setStatus
  | |- Views.same_loop _ (setStatusMessage _ _) =>
      apply same_loop_setStatusMessage
  | |- Views.same_loop _ (setGeneratedImages _ _) =>
      apply same_loop_setGeneratedImages
  | |- Views.same_loop _ (setError _ _) => apply same_loop_setError
  | |- Views.same_loop _ (setIsGenerating _ _) =>
      apply same_loop_setIsGenerating
  | |- Views.same_loop _ (record _ _) =>
      apply same_loop_record; [reflexivity|]
  end;
  exact (same_loop_refl _).

Ltac unfold_page :=
  cbn [Page.world Page.modelImage Page.topImage Page.bottomImage
       Page.outerImage Page.dressImage Page.numOutputs Page.isCompressing
       Page.predictionId Page.calls Page.on_world Page.setIsCompressing
       Page.setPredictionId Page.called Page.submit_failed].

(** [handleSubmit] without a model image, or without any clothing image. *)
Lemma handleSubmit_unready (h : Page.Home) :
  Page.modelImage h = []
  \/ (Page.topImage h = [] /\ Page.bottomImage h = []
      /\ Page.outerImage h = [] /\ Page.dressImage h = []) ->
  Page.calls (handleSubmit h) = Page.calls h
  /\ Page.isCompressing (handleSubmit h) = Page.isCompressing h
  /\ Page.predictionId (handleSubmit h) = Page.predictionId h
  /\ Page.world (handleSubmit h)
     = setError
         (Some match Page.modelImage h with
               | [] => "Please select a model image"
               | _ :: _ =>
                   "Please select at least one clothing image (top, bottom, outer, or dress)"
               end)
         (Views.wiped (Page.world h)).
Proof.
  intro Hun. unfold Page.handleSubmit. cbv zeta. unfold_page.
  destruct (Page.modelImage h) as [|model rest]; [repeat split|].
  destruct Hun as [Hun | (-> & -> & -> & ->)]; [discriminate Hun|].
  cbn [Page.selected orb negb]. repeat split.
Qed.

(** [handleSubmit] with a model image and a clothing image, when every
    compression resolves: what is submitted, and where each outcome of the
    submission leads. *)
#[warnings="-unused-intro-pattern"] Lemma handleSubmit_compressed (h : Page.Home) (model : File) (rest : list File) :
  Page.modelImage h = model :: rest ->
  Page.selected (Page.topImage h) || Page.selected (Page.bottomImage h)
  || Page.selected (Page.outerImage h) || Page.selected (Page.dressImage h)
  = true ->
  (forall file, In file (Views.submitted_files h) ->
     exists out, Views.compressed B file = Resolved out) ->
  exists m c,
    Views.compressed B model = Resolved m
    /\ Views.slot_sent B (Page.topImage h) (top_image c)
    /\ Views.slot_sent B (Page.bottomImage h) (bottom_image c)
    /\ Views.slot_sent B (Page.outerImage h) (outer_image c)
    /\ Views.slot_sent B (Page.dressImage h) (dress_image c)
    /\ Page.calls (handleSubmit h)
       = Page.calls h ++ map Page.CompressImage (Views.submitted_files h)
         ++ [Page.GenerateMatchingSet m c (Page.numOutputs h)]
    /\ Page.isCompressing (handleSubmit h) = false
    /\ match generate m c (Page.numOutputs h) with
       | Page.Returned response =>
           if Views.accepted response then
             Page.predictionId (handleSubmit h)
               = Some (Page.data_prediction_id response)
             /\ Page.world (handleSubmit h)
                = startPolling (Page.data_prediction_id response)
                    (setStatus (Page.data_status response)
                       (Views.generating (Page.world h)))
           else
             Page.predictionId (handleSubmit h) = Page.predictionId h
             /\ Page.world (handleSubmit h)
                = Views.failed
                    (or_default (Page.response_message response)
                                "Failed to start generation")
                    (Page.world h)
       | Page.ThrownError msg =>
           Page.predictionId (handleSubmit h) = Page.predictionId h
           /\ Page.world (handleSubmit h) = Views.failed msg (Page.world h)
       | Page.ThrownOther =>
           Page.predictionId (handleSubmit h) = Page.predictionId h
           /\ Page.world (handleSubmit h)
              = Views.failed "Failed to start generation" (Page.world h)
       end.
Proof.
  intros Hmodel Hsel Hall.
  unfold Views.submitted_files in *. rewrite Hmodel in Hall.
  unfold Page.handleSubmit. cbv zeta. unfold_page.
  rewrite Hmodel. cbn [Page.first_of app]. rewrite Hsel. cbn [negb].
  unfold Views.slot_sent.
  destruct (Hall model) as [m Hm]; [now left|].
  destruct (Page.topImage h) as [|t ?];
    destruct (Page.bottomImage h) as [|b ?];
    destruct (Page.outerImage h) as [|o ?];
    destruct (Page.dressImage h) as [|d ?];
    try discriminate Hsel;
    cbn [Page.first_of app In] in Hall;
    try (assert (exists g, Views.compressed B t = Resolved g) as [gt Hgt]
           by (apply Hall; auto 10));
    try (assert (exists g, Views.compressed B b = Resolved g) as [gb Hgb]
           by (apply Hall; auto 10));
    try (assert (exists g, Views.compressed B o = Resolved g) as [go Hgo]
           by (apply Hall; auto 10));
    try (assert (exists g, Views.compressed B d = Resolved g) as [gd Hgd]
           by (apply Hall; auto 10));
    clear Hall Hsel;
    unfold Views.compressed in *;
    cbn [Page.first_of app dispatch]; rewrite ?Hm, ?Hgt, ?Hgb, ?Hgo, ?Hgd;
    cbn [Promise_all first_rejection fulfilled_values Page.take_slot
         Page.selected nth_error hd map app];
    exists m;
    match goal with
    | |- context [generate _ (mkClothingImages ?x1 ?x2 ?x3 ?x4) _] =>
        exists (mkClothingImages x1 x2 x3 x4)
    end;
    (split; [reflexivity|]);
    cbn [top_image bottom_image outer_image dress_image];
    (split; [first [reflexivity | eexists; split; reflexivity]|]);
    (split; [first [reflexivity | eexists; split; reflexivity]|]);
    (split; [first [reflexivity | eexists; split; reflexivity]|]);
    (split; [first [reflexivity | eexists; split; reflexivity]|]);
    destruct (generate _ _ _) as [response| |];
    unfold Views.accepted, Views.failed, Views.generating, Views.wiped;
    try destruct (_ && _);
    unfold_page; rewrite <- ?app_assoc;
    (split; [reflexivity|]); (split; [reflexivity|]); (split; reflexivity).
Qed.

(** [handleSubmit] when [Promise.all] rejects. *)
Lemma handleSubmit_compress_failed (h : Page.Home) (model : File)
    (rest : list File) (msg : string) :
  Page.modelImage h = model :: rest ->
  Page.selected (Page.topImage h) || Page.selected (Page.bottomImage h)
  || Page.selected (Page.outerImage h) || Page.selected (Page.dressImage h)
  = true ->
  Promise_all (dispatch B settle 0 (Views.submitted_files h) 1920 1920 0.8 1)
  = Rejected msg ->
  Page.calls (handleSubmit h)
  = Page.calls h ++ map Page.CompressImage (Views.submitted_files h)
  /\ Page.isCompressing (handleSubmit h) = false
  /\ Page.predictionId (handleSubmit h) = Page.predictionId h
  /\ Page.world (handleSubmit h) = Views.failed msg (Page.world h).
Proof.
  intros Hmodel Hsel Hall.
  unfold Views.submitted_files in *. rewrite Hmodel in *.
  cbn [Page.first_of app] in *.
  unfold Page.handleSubmit. cbv zeta. unfold_page.
  rewrite Hmodel. rewrite Hsel. cbn [negb Page.first_of app].
  rewrite Hall. unfold Views.failed, Views.generating, Views.wiped.
  unfold_page. repeat split.
Qed.

Lemma on_world_id (h : Page.Home) : Page.on_world (fun w => w) h = h.
Proof. destruct h; reflexivity. Qed.

(** [handleSubmit] is [handleSubmit_awaiting] when the event loop has
    nothing to handle during the two [await]s. *)
Lemma handleSubmit_awaiting_nil (h : Page.Home) :
  Page.handleSubmit_awaiting B settle generate [] [] h = handleSubmit h.
Proof.
  unfold Page.handleSubmit_awaiting, Page.handleSubmit. cbv zeta.
  unfold_page. cbn [run fold_left].
  destruct (Page.modelImage h) as [|model rest]; [reflexivity|].
  destruct (negb _); [reflexivity|].
  rewrite on_world_id.
  destruct (Promise_all _) as [compressedImages|msg]; [|reflexivity].
  destruct (Page.take_slot (Page.topImage h) _ _) as [top i1].
  destruct (Page.take_slot (Page.bottomImage h) _ _) as [bottom i2].
  destruct (Page.take_slot (Page.outerImage h) _ _) as [outer i3].
  destruct (Page.take_slot (Page.dressImage h) _ _) as [dress i4].
  rewrite on_world_id. reflexivity.
Qed.

(** [handleSubmit_awaiting] when every compression resolves and the
    service accepts the submission: the state [startPolling] is called
    on. *)
Lemma handleSubmit_awaiting_accepted (h : Page.Home) (model : File)
    (rest : list File) (response : Page.GenerateMatchingSetResponse)
    (es1 es2 : list event) :
  Page.modelImage h = model :: rest ->
  Page.selected (Page.topImage h) || Page.selected (Page.bottomImage h)
  || Page.selected (Page.outerImage h) || Page.selected (Page.dressImage h)
  = true ->
  (forall file, In file (Views.submitted_files h) ->
     exists out, Views.compressed B file = Resolved out) ->
  (forall m c n, generate m c n = Page.Returned response) ->
  Views.accepted response = true ->
  let h' := Page.handleSubmit_awaiting B settle generate es1 es2 h in
  Page.predictionId h' = Some (Page.data_prediction_id response)
  /\ Page.isCompressing h' = false
  /\ Page.world h'
     = startPolling (Page.data_prediction_id response)
         (setStatus (Page.data_status response)
            (run (run (Views.generating (Page.world h)) es1) es2)).
Proof.
  intros Hmodel Hsel Hall Hgen Hacc.
  unfold Views.submitted_files in Hall. rewrite Hmodel in Hall.
  cbn [Page.first_of app] in Hall.
  unfold Page.handleSubmit_awaiting. cbv zeta. unfold_page.
  rewrite Hmodel, Hsel. cbn [negb].
  destruct (Promise_all _) as [compressedImages|msg] eqn:Hps.
  2:{ exfalso. unfold Promise_all in Hps.
      destruct (first_rejection _) as [[t m]|] eqn:Hfirst; [|discriminate Hps].
      apply first_rejection_some in Hfirst. destruct Hfirst as [Hin _].
      apply In_dispatch in Hin. destruct Hin as (j & file & Hj & _ & Hm).
      apply nth_error_In in Hj.
      destruct (Hall file Hj) as [out Hout].
      unfold Views.compressed in Hout. rewrite Hout in Hm. discriminate Hm. }
  destruct (Page.take_slot (Page.topImage h) _ _) as [top i1].
  destruct (Page.take_slot (Page.bottomImage h) _ _) as [bottom i2].
  destruct (Page.take_slot (Page.outerImage h) _ _) as [outer i3].
  destruct (Page.take_slot (Page.dressImage h) _ _) as [dress i4].
  unfold_page. rewrite Hgen.
  unfold Views.accepted in Hacc. rewrite Hacc.
  unfold Views.generating, Views.wiped. unfold_page.
  split; [reflexivity|]. split; reflexivity.
Qed.

(** Whatever the path, [handleSubmit] touches the event loop only by a
    call of [startPolling]. *)
Lemma handleSubmit_loop (h : Page.Home) :
  exists w,
    Views.same_loop (Page.world h) w
    /\ (Page.world (handleSubmit h) = w
        \/ exists id, Page.world (handleSubmit h) = startPolling id w).
Proof.
  unfold Page.handleSubmit. cbv zeta. unfold_page.
  destruct (Page.modelImage h) as [|model rest].
  { unfold_page. eexists. split; [|left; reflexivity]. same_loop. }
  destruct (negb _).
  { unfold_page. eexists. split; [|left; reflexivity]. same_loop. }
  destruct (Promise_all _) as [compressedImages|msg].
  2:{ unfold_page. eexists. split; [|left; reflexivity]. same_loop. }
  destruct (Page.take_slot (Page.topImage h) _ _) as [top i1].
  destruct (Page.take_slot (Page.bottomImage h) _ _) as [bottom i2].
  destruct (Page.take_slot (Page.outerImage h) _ _) as [outer i3].
  destruct (Page.take_slot (Page.dressImage h) _ _) as [dress i4].
  destruct (generate _ _ _) as [response| |]; [destruct (_ && _)| |];
    unfold_page.
  - eexists. split; [|right; eexists; reflexivity]. same_loop.
  - eexists. split; [|left; reflexivity]. same_loop.
  - eexists. split; [|left; reflexivity]. same_loop.
  - eexists. split; [|left; reflexivity]. same_loop.
Qed.

End PageProps.

Section PageExtras.

Import Polling.

Lemma startPolling_fields (id : string) (w : World) :
  status (startPolling id w) = status w
  /\ error (startPolling id w) = error w
  /\ isGenerating (startPolling id w) = isGenerating w
  /\ generatedImages (startPolling id w) = generatedImages w
  /\ pollingIntervalRef (startPolling id w) = Some (next_timer w)
  /\ In (next_timer w, id) (timers (startPolling id w))
  /\ Views.requested_ids (log (startPolling id w))
     = Views.requested_ids (log w) ++ [id].
Proof.
  unfold startPolling, setInterval, poll_request, clear_polling.
  destruct (pollingIntervalRef w) as [t|];
    cbn [status error isGenerating generatedImages pollingIntervalRef timers
         next_timer log set_ref set_pending clearInterval record];
    repeat split;
    try (apply in_or_app; right; now left);
    rewrite !requested_ids_app; cbn [Views.requested_ids];
    now rewrite ?app_nil_r.
Qed.

Lemma no_generate_in_compressions (files : list File) :
  existsb Views.is_generate (map Page.CompressImage files) = false.
Proof. induction files as [|file files IH]; [reflexivity | exact IH]. Qed.

(** X18. Without a model image, or without any clothing image,
    [handleSubmit] compresses nothing, submits nothing and starts no
    polling; it shows the message that says what is missing, after having
    wiped the previous status and the previous images all the same. *)
Theorem submit_needs_images (B : Browser) (settle : nat -> nat)
    (generate : File -> ClothingImages -> Z -> Page.submission)
    (h : Page.Home) :
  Page.modelImage h = []
  \/ (Page.topImage h = [] /\ Page.bottomImage h = []
      /\ Page.outerImage h = [] /\ Page.dressImage h = []) ->
  let h' := Page.handleSubmit B settle generate h in
  Page.calls h' = Page.calls h
  /\ Views.same_loop (Page.world h) (Page.world h')
  /\ isGenerating (Page.world h') = isGenerating (Page.world h)
  /\ error (Page.world h')
     = Some match Page.modelImage h with
            | [] => "Please select a model image"
            | _ :: _ =>
                "Please select at least one clothing image (top, bottom, outer, or dress)"
            end
  /\ generatedImages (Page.world h') = None
  /\ status (Page.world h') = "".
Proof.
  intros Hun h'.
  destruct (handleSubmit_unready B settle generate h Hun)
    as (Hcalls & _ & _ & Hworld).
  subst h'. rewrite Hworld. split; [exact Hcalls|].
  unfold Views.wiped. repeat split.
  cbn [log setError setStatusMessage setStatus setGeneratedImages record].
  rewrite !requested_ids_app. cbn. now rewrite !app_nil_r.
Qed.

Lemma submit_needs_images_witness :
  let h := Page.setImages [] [Fixtures.shirt] [] [] [] Page.mounted in
  let h' := Page.handleSubmit Samples.sample_browser (fun i => i)
              Fixtures.accepting h in
  Page.calls h' = []
  /\ error (Page.world h') = Some "Please select a model image".
Proof.
  intros h h'.
  destruct (submit_needs_images Samples.sample_browser (fun i => i)
              Fixtures.accepting h (or_introl eq_refl))
    as (Hcalls & _ & _ & Herror & _).
  split; [exact Hcalls | exact Herror].
Defined.

(** X19. When every compression resolves, [handleSubmit] submits the
    compressed model image and, for each clothing selection, the compressed
    first file of that selection under the field of that selection: an empty
    selection sends nothing, and no image ends up under the field of
    another. *)
Theorem submitted_images_match_selection (B : Browser) (settle : nat -> nat)
    (generate : File -> ClothingImages -> Z -> Page.submission)
    (h : Page.Home) (model : File) (rest : list File) :
  Page.modelImage h = model :: rest ->
  Page.selected (Page.topImage h) || Page.selected (Page.bottomImage h)
  || Page.selected (Page.outerImage h) || Page.selected (Page.dressImage h)
  = true ->
  (forall file, In file (Views.submitted_files h) ->
     exists out, Views.compressed B file = Resolved out) ->
  exists m c,
    Views.compressed B model = Resolved m
    /\ Views.slot_sent B (Page.topImage h) (top_image c)
    /\ Views.slot_sent B (Page.bottomImage h) (bottom_image c)
    /\ Views.slot_sent B (Page.outerImage h) (outer_image c)
    /\ Views.slot_sent B (Page.dressImage h) (dress_image c)
    /\ Page.calls (Page.handleSubmit B settle generate h)
       = Page.calls h ++ map Page.CompressImage (Views.submitted_files h)
         ++ [Page.GenerateMatchingSet m c (Page.numOutputs h)].
Proof.
  intros Hmodel Hsel Hall.
  destruct (handleSubmit_compressed B settle generate h model rest
              Hmodel Hsel Hall)
    as (m & c & Hm & Ht & Hb & Ho & Hd & Hcalls & _).
  exists m, c. repeat split; assumption.
Qed.

Lemma submitted_images_match_selection_witness :
  exists m c,
    Views.compressed Samples.sample_browser Samples.small_file = Resolved m
    /\ Views.slot_sent Samples.sample_browser [Fixtures.shirt] (top_image c)
    /\ Views.slot_sent Samples.sample_browser [] (bottom_image c)
    /\ Views.slot_sent Samples.sample_browser [Fixtures.coat] (outer_image c)
    /\ Views.slot_sent Samples.sample_browser [] (dress_image c)
    /\ Page.calls (Page.handleSubmit Samples.sample_browser (fun i => i)
                     Fixtures.accepting Fixtures.ready)
       = [] ++ map Page.CompressImage
                 [Samples.small_file; Fixtures.shirt; Fixtures.coat]
         ++ [Page.GenerateMatchingSet m c 1].
Proof.
  apply (submitted_images_match_selection Samples.sample_browser
           (fun i => i) Fixtures.accepting Fixtures.ready
           Samples.small_file [] eq_refl eq_refl).
  intros file [<-|[<-|[<-|[]]]]; eexists; reflexivity.
Defined.

(** X20. When the compression of a selected image fails, [handleSubmit]
    submits nothing and starts no polling: it shows the message of a failed
    compression and is no longer generating or compressing. *)
Theorem compression_failure_aborts (B : Browser) (settle : nat -> nat)
    (generate : File -> ClothingImages -> Z -> Page.submission)
    (h : Page.Home) (model file : File) (rest : list File) (msg : string) :
  Page.modelImage h = model :: rest ->
  Page.selected (Page.topImage h) || Page.selected (Page.bottomImage h)
  || Page.selected (Page.outerImage h) || Page.selected (Page.dressImage h)
  = true ->
  In file (Views.submitted_files h) ->
  Views.compressed B file = Rejected msg ->
  let h' := Page.handleSubmit B settle generate h in
  exists file' msg',
    In file' (Views.submitted_files h)
    /\ Views.compressed B file' = Rejected msg'
    /\ error (Page.world h') = Some msg'
    /\ isGenerating (Page.world h') = false
    /\ Page.isCompressing h' = false
    /\ existsb Views.is_generate (Page.calls h')
       = existsb Views.is_generate (Page.calls h)
    /\ Views.same_loop (Page.world h) (Page.world h').
Proof.
  intros Hmodel Hsel Hin Hrej h'.
  set (ps := dispatch B settle 0 (Views.submitted_files h) 1920 1920 0.8 1).
  destruct (In_nth_error _ _ Hin) as [i Hi].
  assert (Hps : In (settle i, Rejected msg) ps).
  { apply In_dispatch. exists i, file. unfold Views.compressed in Hrej.
    rewrite Hrej. auto. }
  destruct (first_rejection ps) as [[t m]|] eqn:Hfirst.
  2:{ exfalso. apply first_rejection_none in Hfirst.
      rewrite Forall_forall in Hfirst.
      destruct (Hfirst _ Hps) as [v Hv]. discriminate Hv. }
  destruct (first_rejection_some _ _ _ Hfirst) as [Hpicked _].
  apply In_dispatch in Hpicked.
  destruct Hpicked as (j & file' & Hj & _ & Hm).
  assert (Hall : Promise_all ps = Rejected m).
  { unfold Promise_all. now rewrite Hfirst. }
  destruct (handleSubmit_compress_failed B settle generate h model rest m
              Hmodel Hsel Hall) as (Hcalls & Hcomp & _ & Hworld).
  exists file', m. subst h'. rewrite Hworld, Hcalls, Hcomp.
  split; [eapply nth_error_In; exact Hj|].
  split; [now symmetry|].
  unfold Views.failed, Views.generating, Views.wiped.
  repeat split.
  - rewrite existsb_app, no_generate_in_compressions. apply orb_false_r.
  - cbn [log setError setStatusMessage setStatus setGeneratedImages
         setIsGenerating record].
    rewrite !requested_ids_app. cbn. now rewrite !app_nil_r.
Qed.

Lemma compression_failure_aborts_witness :
  let h := Page.setImages [Samples.small_file] [Fixtures.huge_file] [] [] []
             Page.mounted in
  let h' := Page.handleSubmit Fixtures.unreadable (fun i => i)
              Fixtures.accepting h in
  exists file' msg',
    In file' (Views.submitted_files h)
    /\ Views.compressed Fixtures.unreadable file' = Rejected msg'
    /\ error (Page.world h') = Some msg'
    /\ isGenerating (Page.world h') = false.
Proof.
  intros h h'.
  destruct (compression_failure_aborts Fixtures.unreadable (fun i => i)
              Fixtures.accepting h Samples.small_file Fixtures.huge_file []
              "Failed to read file")
    as (file' & msg' & H1 & H2 & H3 & H4 & _).
  - reflexivity.
  - reflexivity.
  - right; left. reflexivity.
  - vm_compute. reflexivity.
  - exists file', msg'. exact (conj H1 (conj H2 (conj H3 H4))).
Defined.

(** Ticks and calls of [startPolling] leave the error and the generating
    flag as they are: only the handling of a response writes them. *)
Lemma run_without_settle (es : list event) (w : World) :
  existsb Views.is_settle es = false ->
  isGenerating (run w es) = isGenerating w /\ error (run w es) = error w.
Proof.
  revert w. induction es as [|e es IH]; intros w Hes; [split; reflexivity|].
  change (run w (e :: es)) with (run (step w e) es).
  cbn [existsb] in Hes. apply orb_false_iff in Hes. destruct Hes as [He Hes].
  destruct (IH (step w e) Hes) as [H1 H2]. rewrite H1, H2.
  destruct e as [id|t|o]; cbn [step].
  - destruct (startPolling_fields id w) as (_ & Herr & Hgen & _).
    split; [exact Hgen | exact Herr].
  - destruct (timer_callback t (timers w)); split; reflexivity.
  - discriminate He.
Qed.

(** X21. When the images compress and the service accepts the submission
    (status 'success' and a job id), [handleSubmit] starts polling that
    job, whatever the polling loop handled while the compression and the
    submission were awaited: it keeps the id, is no longer compressing,
    shows the status of the response, sends a status request for this id
    at once, the last one sent, and sets the interval for it.  When no
    response of an earlier session was handled in between, the page is
    still generating and shows no error. *)
Theorem accepted_submission_starts_polling (B : Browser)
    (settle : nat -> nat)
    (generate : File -> ClothingImages -> Z -> Page.submission)
    (h : Page.Home) (model : File) (rest : list File)
    (response : Page.GenerateMatchingSetResponse) (es1 es2 : list event) :
  Page.modelImage h = model :: rest ->
  Page.selected (Page.topImage h) || Page.selected (Page.bottomImage h)
  || Page.selected (Page.outerImage h) || Page.selected (Page.dressImage h)
  = true ->
  (forall file, In file (Views.submitted_files h) ->
     exists out, Views.compressed B file = Resolved out) ->
  (forall m c n, generate m c n = Page.Returned response) ->
  Page.response_status response = "success" ->
  Page.data_prediction_id response <> "" ->
  let h' := Page.handleSubmit_awaiting B settle generate es1 es2 h in
  Page.predictionId h' = Some (Page.data_prediction_id response)
  /\ Page.isCompressing h' = false
  /\ status (Page.world h') = Page.data_status response
  /\ (exists sent,
        Views.requested_ids (log (Page.world h'))
        = sent ++ [Page.data_prediction_id response])
  /\ (exists t,
        pollingIntervalRef (Page.world h') = Some t
        /\ In (t, Page.data_prediction_id response) (timers (Page.world h')))
  /\ (existsb Views.is_settle (es1 ++ es2) = false ->
      isGenerating (Page.world h') = true /\ error (Page.world h') = None).
Proof.
  intros Hmodel Hsel Hall Hgen Hstatus Hid h'.
  assert (Hacc : Views.accepted response = true).
  { unfold Views.accepted. rewrite Hstatus.
    apply String.eqb_neq in Hid. now rewrite Hid. }
  destruct (handleSubmit_awaiting_accepted B settle generate h model rest
              response es1 es2 Hmodel Hsel Hall Hgen Hacc)
    as (Hpid & Hcomp & Hworld).
  subst h'. rewrite Hworld.
  set (w := run (run (Views.generating (Page.world h)) es1) es2).
  destruct (startPolling_fields (Page.data_prediction_id response)
              (setStatus (Page.data_status response) w))
    as (H1 & H2 & H3 & _ & H5 & H6 & H7).
  rewrite H1, H2, H3, H7.
  split; [exact Hpid|]. split; [exact Hcomp|]. split; [reflexivity|].
  split; [eexists; reflexivity|].
  split; [eexists; split; [exact H5 | exact H6]|].
  intro Hquiet. rewrite existsb_app in Hquiet.
  apply orb_false_iff in Hquiet. destruct Hquiet as [Hq1 Hq2].
  change (isGenerating (setStatus (Page.data_status response) w))
    with (isGenerating w).
  change (error (setStatus (Page.data_status response) w)) with (error w).
  subst w.
  destruct (run_without_settle es2
              (run (Views.generating (Page.world h)) es1) Hq2) as [G2 E2].
  destruct (run_without_settle es1 (Views.generating (Page.world h)) Hq1)
    as [G1 E1].
  rewrite G2, E2, G1, E1. split; reflexivity.
Qed.

Lemma accepted_submission_starts_polling_witness :
  let h' := Page.handleSubmit_awaiting Samples.sample_browser (fun i => i)
              Fixtures.accepting [Tick 1] [] Fixtures.ready in
  Page.predictionId h' = Some "pred-7"
  /\ status (Page.world h') = "starting"
  /\ isGenerating (Page.world h') = true.
Proof.
  intro h'.
  destruct (accepted_submission_starts_polling Samples.sample_browser
              (fun i => i) Fixtures.accepting Fixtures.ready
              Samples.small_file []
              {| Page.response_status := "success";
                 Page.response_message := "Generation started";
                 Page.data_prediction_id := "pred-7";
                 Page.data_status := "starting" |}
              [Tick 1] [])
    as (H1 & _ & H3 & _ & _ & H6).
  - reflexivity.
  - reflexivity.
  - intros file [<-|[<-|[<-|[]]]]; eexists; reflexivity.
  - reflexivity.
  - reflexivity.
  - discriminate.
  - split; [exact H1|]. split; [exact H3|]. exact (proj1 (H6 eq_refl)).
Defined.

(** Between the two [await]s the interval of an earlier job is still set.
    When a response of that job is handled while the submission is awaited,
    the new job is polled all the same, but the page shows the images of
    the earlier job and no longer counts as generating. *)
Lemma stale_response_during_submission :
  let h := Page.on_world (startPolling "pred-1") Fixtures.ready in
  let h' := Page.handleSubmit_awaiting Samples.sample_browser (fun i => i)
              Fixtures.accepting []
              [Settle (Fulfilled (Samples.finished "succeeded"))] h in
  Page.predictionId h' = Some "pred-7"
  /\ Views.requested_ids (log (Page.world h')) = ["pred-1"; "pred-7"]
  /\ isGenerating (Page.world h') = false
  /\ generatedImages (Page.world h')
     = Some (OutArray ["https://cdn.example/out-0.png"]).
Proof. vm_compute. repeat split. Qed.

(** X22. When the submission throws, or returns without the status
    'success' or without a job id, [handleSubmit] starts no polling and
    keeps the previous job id; it shows the message of the error or of the
    response ('Failed to start generation' when there is none) and is no
    longer generating or compressing. *)
Theorem refused_submission_shows_error (B : Browser) (settle : nat -> nat)
    (generate : File -> ClothingImages -> Z -> Page.submission)
    (h : Page.Home) (model : File) (rest : list File) (o : Page.submission) :
  Page.modelImage h = model :: rest ->
  Page.selected (Page.topImage h) || Page.selected (Page.bottomImage h)
  || Page.selected (Page.outerImage h) || Page.selected (Page.dressImage h)
  = true ->
  (forall file, In file (Views.submitted_files h) ->
     exists out, Views.compressed B file = Resolved out) ->
  (forall m c n, generate m c n = o) ->
  match o with
  | Page.Returned response => Views.accepted response = false
  | _ => True
  end ->
  let h' := Page.handleSubmit B settle generate h in
  error (Page.world h') = Some (Views.refusal_message o)
  /\ isGenerating (Page.world h') = false
  /\ Page.isCompressing h' = false
  /\ Page.predictionId h' = Page.predictionId h
  /\ Views.same_loop (Page.world h) (Page.world h').
Proof.
  intros Hmodel Hsel Hall Hgen Hno h'.
  destruct (handleSubmit_compressed B settle generate h model rest
              Hmodel Hsel Hall)
    as (m & c & _ & _ & _ & _ & _ & _ & Hcomp & Hout).
  rewrite Hgen in Hout.
  assert (Hloop : forall msg,
            Views.same_loop (Page.world h) (Views.failed msg (Page.world h))).
  { intro msg. unfold Views.failed, Views.generating, Views.wiped.
    repeat split.
    cbn [log setError setStatusMessage setStatus setGeneratedImages
         setIsGenerating record].
    rewrite !requested_ids_app. cbn. now rewrite !app_nil_r. }
  subst h'.
  destruct o as [response|msg|]; [rewrite Hno in Hout| |];
    destruct Hout as [Hpid Hworld]; rewrite Hworld;
    (split; [reflexivity|]); (split; [reflexivity|]);
    (split; [exact Hcomp|]); (split; [exact Hpid|]); apply Hloop.
Qed.

Lemma refused_submission_shows_error_witness :
  let h' := Page.handleSubmit Samples.sample_browser (fun i => i)
              Fixtures.refusing Fixtures.ready in
  error (Page.world h') = Some "Quota exceeded"
  /\ isGenerating (Page.world h') = false.
Proof.
  intro h'.
  destruct (refused_submission_shows_error Samples.sample_browser
              (fun i => i) Fixtures.refusing Fixtures.ready
              Samples.small_file []
              (Page.Returned
                 {| Page.response_status := "error";
                    Page.response_message := "Quota exceeded";
                    Page.data_prediction_id := "";
                    Page.data_status := "" |}))
    as (H1 & H2 & _).
  - reflexivity.
  - reflexivity.
  - intros file [<-|[<-|[<-|[]]]]; eexists; reflexivity.
  - reflexivity.
  - reflexivity.
  - split; assumption.
Defined.

(** After [handleReset] no interval is set. *)
Lemma reset_frame (h : Page.Home) :
  held (Page.world h) ->
  pollingIntervalRef (Page.world (Page.handleReset h)) = None
  /\ timers (Page.world (Page.handleReset h)) = [].
Proof.
  intro Hheld. unfold Page.handleReset. cbv zeta.
  cbn [Page.world Page.on_world].
  split; [apply clear_polling_ref|].
  apply clear_polling_timers. exact Hheld.
Qed.

(** X23. [handleReset] ends the polling session: it empties the five
    selections, puts the number of outputs back to 1, forgets the job id,
    the status, the images and the error, clears the interval, and from
    then on no status request is sent until [startPolling] is called
    again. *)
Theorem reset_stops_polling (h : Page.Home) (es : list event) :
  held (Page.world h) ->
  existsb is_start es = false ->
  let h' := Page.handleReset h in
  (Page.modelImage h' = [] /\ Page.topImage h' = []
   /\ Page.bottomImage h' = [] /\ Page.outerImage h' = []
   /\ Page.dressImage h' = [])
  /\ Page.numOutputs h' = 1%Z /\ Page.predictionId h' = None
  /\ (status (Page.world h') = "" /\ statusMessage (Page.world h') = ""
      /\ generatedImages (Page.world h') = None
      /\ error (Page.world h') = None
      /\ isGenerating (Page.world h') = false)
  /\ pollingIntervalRef (Page.world h') = None
  /\ timers (Page.world h') = []
  /\ requests (run (Page.world h') es) = requests (Page.world h).
Proof.
  intros Hheld Hes h'. subst h'. unfold Page.handleReset. cbv zeta.
  cbn [Page.world Page.modelImage Page.topImage Page.bottomImage
       Page.outerImage Page.dressImage Page.numOutputs Page.predictionId
       Page.on_world].
  set (w := setIsGenerating false
              (setError None
                 (setGeneratedImages None
                    (setStatusMessage "" (setStatus "" (Page.world h)))))).
  assert (Hw : held w) by exact Hheld.
  assert (Hts : timers (clear_polling w) = [])
    by now apply clear_polling_timers.
  assert (Hfields : status (clear_polling w) = ""
                    /\ statusMessage (clear_polling w) = ""
                    /\ generatedImages (clear_polling w) = None
                    /\ error (clear_polling w) = None
                    /\ isGenerating (clear_polling w) = false).
  { unfold clear_polling. destruct (pollingIntervalRef w); repeat split. }
  split; [repeat split|]. split; [reflexivity|]. split; [reflexivity|].
  split; [exact Hfields|]. split; [apply clear_polling_ref|].
  split; [exact Hts|].
  destruct (no_timer_no_request es (clear_polling w)) as [Hreq _].
  - intros t id. rewrite Hts. intros [].
  - exact Hts.
  - exact Hes.
  - rewrite Hreq, clear_polling_requests. subst w.
    unfold requests.
    cbn [log setError setStatusMessage setStatus setGeneratedImages
         setIsGenerating record].
    repeat rewrite filter_app. cbn. now rewrite !app_nil_r.
Qed.

Lemma reset_stops_polling_witness :
  let h := Page.on_world (startPolling "pred-7") Fixtures.ready in
  let h' := Page.handleReset h in
  pollingIntervalRef (Page.world h') = None
  /\ timers (Page.world h') = []
  /\ requests (run (Page.world h') [Tick 1; Tick 1]) = requests (Page.world h).
Proof.
  intros h h'.
  destruct (reset_stops_polling h [Tick 1; Tick 1]
              (held_startPolling "pred-7" initial held_initial) eq_refl)
    as (_ & _ & _ & _ & H).
  exact H.
Defined.

(** X24. [handleReset] does not recall a status request that is still
    awaited: when its response arrives after the reset, [poll] handles it
    like any other, so the status of the old job is shown again, and its
    images too when the response carries some, but no request follows. *)
Theorem late_response_after_reset (h : Page.Home) (r : StatusResponse) :
  (0 < pending (Page.world h))%nat ->
  held (Page.world h) ->
  let w := step (Page.world (Page.handleReset h)) (Settle (Fulfilled r)) in
  status w = data_status r
  /\ (truthy_output (data_output r) = true ->
      generatedImages w = data_output r)
  /\ pollingIntervalRef w = None
  /\ requests w = requests (Page.world h).
Proof.
  intros Hp Hheld w. subst w. unfold Page.handleReset. cbv zeta.
  cbn [Page.world Page.on_world].
  set (w0 := setIsGenerating false
               (setError None
                  (setGeneratedImages None
                     (setStatusMessage "" (setStatus "" (Page.world h)))))).
  assert (Hp0 : pending (clear_polling w0) = pending (Page.world h))
    by (rewrite clear_polling_pending; reflexivity).
  assert (Hreq0 : requests (clear_polling w0) = requests (Page.world h)).
  { rewrite clear_polling_requests. subst w0. unfold requests.
    cbn [log setError setStatusMessage setStatus setGeneratedImages
         setIsGenerating record].
    repeat rewrite filter_app. cbn. now rewrite !app_nil_r. }
  cbn [step]. rewrite Hp0.
  destruct (pending (Page.world h)) as [|n]; [lia|].
  set (w1 := set_pending n (clear_polling w0)).
  assert (Href1 : pollingIntervalRef w1 = None) by apply clear_polling_ref.
  destruct (poll_resume_frame (Fulfilled r) w1)
    as (_ & Hreq & [[Href _] | [Href _]]).
  - repeat split.
    + unfold poll_resume.
      destruct (truthy_output (data_output r));
        destruct (truthy_error (data_error r));
        try destruct (StatusDisplay.includes _ (data_status r));
        unfold clear_polling;
        cbn [pollingIntervalRef setStatus setStatusMessage
             setGeneratedImages setError setIsGenerating record];
        rewrite ?Href1; reflexivity.
    + intro Hout. unfold poll_resume. rewrite Hout.
      destruct (truthy_error (data_error r));
        try destruct (StatusDisplay.includes _ (data_status r));
        unfold clear_polling;
        cbn [pollingIntervalRef setStatus setStatusMessage
             setGeneratedImages setError setIsGenerating record];
        rewrite ?Href1; reflexivity.
    + now rewrite Href.
    + rewrite Hreq. exact Hreq0.
  - repeat split.
    + unfold poll_resume.
      destruct (truthy_output (data_output r));
        destruct (truthy_error (data_error r));
        try destruct (StatusDisplay.includes _ (data_status r));
        unfold clear_polling;
        cbn [pollingIntervalRef setStatus setStatusMessage
             setGeneratedImages setError setIsGenerating record];
        rewrite ?Href1; reflexivity.
    + intro Hout. unfold poll_resume. rewrite Hout.
      destruct (truthy_error (data_error r));
        try destruct (StatusDisplay.includes _ (data_status r));
        unfold clear_polling;
        cbn [pollingIntervalRef setStatus setStatusMessage
             setGeneratedImages setError setIsGenerating record];
        rewrite ?Href1; reflexivity.
    + exact Href.
    + rewrite Hreq. exact Hreq0.
Qed.

Lemma late_response_after_reset_witness :
  let h := Page.on_world (startPolling "pred-7") Fixtures.ready in
  let w := step (Page.world (Page.handleReset h))
             (Settle (Fulfilled (Samples.finished "succeeded"))) in
  status w = "succeeded"
  /\ generatedImages w
     = Some (OutArray ["https://cdn.example/out-0.png"]).
Proof.
  intros h w.
  destruct (late_response_after_reset h (Samples.finished "succeeded")
              (Nat.lt_0_succ 0)
              (held_startPolling "pred-7" initial held_initial))
    as (Hstatus & Himages & _).
  split; [exact Hstatus | exact (Himages eq_refl)].
Defined.

(** X25. [handleSubmit] and [handleReset] keep the discipline of the
    interval: from a state with at most one interval, held by the ref, both
    lead to such a state, so a new submission never leaves the loop of an
    earlier one running beside its own. *)
Theorem handlers_keep_one_interval (B : Browser) (settle : nat -> nat)
    (generate : File -> ClothingImages -> Z -> Page.submission)
    (h : Page.Home) :
  Views.one_timer (Page.world h) ->
  Views.one_timer (Page.world (Page.handleSubmit B settle generate h))
  /\ Views.one_timer (Page.world (Page.handleReset h)).
Proof.
  intro Hone. split.
  - destruct (handleSubmit_loop B settle generate h)
      as (w & (Hts & Href & _) & [-> | [id ->]]).
    + unfold Views.one_timer. rewrite Hts, Href. exact Hone.
    + apply (one_timer_step w (StartPolling id)).
      unfold Views.one_timer. rewrite Hts, Href. exact Hone.
  - left. destruct (reset_frame h (one_timer_held _ Hone)) as [H1 H2].
    split; assumption.
Qed.

Lemma handlers_keep_one_interval_witness :
  Views.one_timer
    (Page.world
       (Page.handleSubmit Samples.sample_browser (fun i => i)
          Fixtures.accepting
          (Page.handleSubmit Samples.sample_browser (fun i => i)
             Fixtures.accepting Fixtures.ready))).
Proof.
  apply (handlers_keep_one_interval Samples.sample_browser (fun i => i)
           Fixtures.accepting).
  apply (handlers_keep_one_interval Samples.sample_browser (fun i => i)
           Fixtures.accepting).
  left. split; reflexivity.
Defined.

End PageExtras.

(** ** The upload field *)
Section UploadProps.

Import ImageUpload.

Lemma collect_errors_filter (fileArray : list File) :
  collect_errors fileArray
  = map (fun file => (name file ++ " is not an image file")%string)
        (filter (fun file => negb (Views.is_image file)) fileArray).
Proof.
  induction fileArray as [|file rest IH]; [reflexivity|].
  cbn. unfold validateFile, Views.is_image.
  destruct (String.prefix "image/" (type file)); cbn; now rewrite IH.
Qed.

Lemma filter_index_spec (selectedFiles : list File) (i index : nat) :
  filter_index i index selectedFiles
  = if (index <? i)%nat then selectedFiles
    else firstn (index - i) selectedFiles
         ++ skipn (S (index - i)) selectedFiles.
Proof.
  revert i. induction selectedFiles as [|file rest IH]; intro i.
  - cbn -[Nat.ltb]. destruct (index <? i)%nat; [reflexivity|].
    now rewrite firstn_nil.
  - cbn [filter_index]. rewrite IH.
    destruct (Nat.eqb_spec i index) as [->|Hne].
    + cbn [negb]. rewrite Nat.ltb_irrefl, Nat.sub_diag.
      replace (index <? S index)%nat with true
        by (symmetry; apply Nat.ltb_lt; lia).
      reflexivity.
    + cbn [negb]. destruct (Nat.ltb_spec index i) as [Hlt|Hge].
      * replace (index <? S i)%nat with true
          by (symmetry; apply Nat.ltb_lt; lia).
        reflexivity.
      * replace (index <? S i)%nat with false
          by (symmetry; apply Nat.ltb_ge; lia).
        replace (index - i)%nat with (S (index - S i)) by lia.
        reflexivity.
Qed.

End UploadProps.

(** X26. [handleFiles] takes a selection as a whole: as soon as one of the
    chosen files has a type that does not start with [image/], nothing is
    handed to [onFilesChange], and the error names every such file, in the
    order of the selection, joined by a comma and a space. *)
Theorem upload_rejects_whole_selection (acceptMultiple : bool)
    (selectedFiles fileArray : list File) (error0 : option string)
    (file : File) :
  In file fileArray ->
  Views.is_image file = false ->
  ImageUpload.filesChange
    (ImageUpload.handleFiles acceptMultiple selectedFiles error0
       (Some fileArray)) = None
  /\ ImageUpload.error
       (ImageUpload.handleFiles acceptMultiple selectedFiles error0
          (Some fileArray))
     = Some (String.concat ", "
               (map (fun f => (name f ++ " is not an image file")%string)
                    (filter (fun f => negb (Views.is_image f)) fileArray))).
Proof.
  intros Hin Hbad.
  assert (Hlen : (0 <? List.length (ImageUpload.collect_errors fileArray))%nat
                 = true).
  { rewrite collect_errors_filter, length_map. apply Nat.ltb_lt.
    assert (Hf : In file (filter (fun f => negb (Views.is_image f)) fileArray)).
    { apply filter_In. split; [exact Hin|]. now rewrite Hbad. }
    destruct (filter _ fileArray); [destruct Hf | cbn; lia]. }
  unfold ImageUpload.handleFiles.
  destruct fileArray as [|f0 rest]; [destruct Hin|].
  rewrite Hlen. cbn [ImageUpload.filesChange ImageUpload.error].
  now rewrite collect_errors_filter.
Qed.

Lemma upload_rejects_whole_selection_witness :
  let handled :=
    ImageUpload.handleFiles false [] None
      (Some [Fixtures.shirt; Fixtures.text_file; Fixtures.untyped_file]) in
  ImageUpload.filesChange handled = None
  /\ ImageUpload.error handled
     = Some "notes.txt is not an image file, scan is not an image file".
Proof.
  intro handled.
  destruct (upload_rejects_whole_selection false []
              [Fixtures.shirt; Fixtures.text_file; Fixtures.untyped_file]
              None Fixtures.text_file (or_intror (or_introl eq_refl)) eq_refl)
    as [Hchange Herror].
  split; [exact Hchange | exact Herror].
Defined.

(** X27. What [handleFiles] hands to [onFilesChange] holds the chosen files
    only when each of them is an image: the files chosen, or, when several
    are accepted, the earlier selection followed by them; the error is
    cleared.  A selection of images thus stays a selection of images. *)
Theorem upload_delivers_only_images (acceptMultiple : bool)
    (selectedFiles : list File) (error0 : option string)
    (files : option (list File)) (delivered : list File) :
  ImageUpload.filesChange
    (ImageUpload.handleFiles acceptMultiple selectedFiles error0 files)
  = Some delivered ->
  exists fileArray,
    files = Some fileArray /\ fileArray <> []
    /\ Forall (fun f => Views.is_image f = true) fileArray
    /\ delivered
       = (if acceptMultiple then selectedFiles ++ fileArray else fileArray)
    /\ ImageUpload.error
         (ImageUpload.handleFiles acceptMultiple selectedFiles error0 files)
       = None
    /\ (Forall (fun f => Views.is_image f = true) selectedFiles ->
        Forall (fun f => Views.is_image f = true) delivered).
Proof.
  unfold ImageUpload.handleFiles.
  destruct files as [[|f0 rest]|]; try discriminate.
  set (fileArray := f0 :: rest).
  destruct (0 <? List.length (ImageUpload.collect_errors fileArray))%nat
    eqn:Hlen; [discriminate|].
  assert (Hall : Forall (fun f => Views.is_image f = true) fileArray).
  { apply Nat.ltb_ge in Hlen.
    rewrite collect_errors_filter, length_map in Hlen.
    apply Forall_forall. intros f Hf.
    destruct (Views.is_image f) eqn:Himg; [reflexivity|].
    assert (Hbad : In f (filter (fun f => negb (Views.is_image f)) fileArray)).
    { apply filter_In. split; [exact Hf|]. now rewrite Himg. }
    destruct (filter _ fileArray); [destruct Hbad | cbn in Hlen; lia]. }
  intro Hdel. exists fileArray.
  split; [reflexivity|]. split; [discriminate|]. split; [exact Hall|].
  destruct acceptMultiple; cbn in Hdel; injection Hdel as <-;
    (split; [reflexivity|]); (split; [reflexivity|]); intro Hsel.
  - apply Forall_app. split; assumption.
  - exact Hall.
Qed.

Lemma upload_delivers_only_images_witness :
  exists fileArray,
    Some [Fixtures.coat] = Some fileArray
    /\ Forall (fun f => Views.is_image f = true) fileArray
    /\ [Fixtures.shirt; Fixtures.coat] = [Fixtures.shirt] ++ fileArray.
Proof.
  destruct (upload_delivers_only_images true [Fixtures.shirt] None
              (Some [Fixtures.coat]) [Fixtures.shirt; Fixtures.coat] eq_refl)
    as (fileArray & H1 & _ & H3 & H4 & _).
  exists fileArray. split; [exact H1|]. split; [exact H3 | exact H4].
Defined.

(** X28. [removeFile] takes out exactly the file at the index and keeps the
    others in their order; an index past the end changes nothing. *)
Theorem removeFile_removes_one (index : nat) (selectedFiles : list File) :
  ImageUpload.removeFile index selectedFiles
  = firstn index selectedFiles ++ skipn (S index) selectedFiles
  /\ ((index < List.length selectedFiles)%nat ->
      S (List.length (ImageUpload.removeFile index selectedFiles))
      = List.length selectedFiles)
  /\ ((List.length selectedFiles <= index)%nat ->
      ImageUpload.removeFile index selectedFiles = selectedFiles).
Proof.
  assert (Heq : ImageUpload.removeFile index selectedFiles
                = firstn index selectedFiles ++ skipn (S index) selectedFiles).
  { unfold ImageUpload.removeFile. rewrite filter_index_spec.
    cbn [Nat.ltb Nat.leb]. now rewrite Nat.sub_0_r. }
  split; [exact Heq|]. rewrite Heq. split.
  - intro Hlt. rewrite length_app, length_firstn, length_skipn. lia.
  - intro Hge. rewrite firstn_all2 by exact Hge.
    rewrite skipn_all2 by lia. apply app_nil_r.
Qed.

Lemma removeFile_removes_one_witness :
  S (List.length
       (ImageUpload.removeFile 1 [Fixtures.shirt; Fixtures.coat; Samples.small_file]))
  = 3%nat
  /\ ImageUpload.removeFile 5 [Fixtures.shirt; Fixtures.coat]
     = [Fixtures.shirt; Fixtures.coat].
Proof.
  split.
  - apply (proj1 (proj2 (removeFile_removes_one 1
                           [Fixtures.shirt; Fixtures.coat; Samples.small_file]))).
    cbn. lia.
  - apply (proj2 (proj2 (removeFile_removes_one 5
                           [Fixtures.shirt; Fixtures.coat]))).
    cbn. lia.
Defined.

(** ** One clothing item at a time *)

(** X29. [handleClothingUpload] leaves at most one clothing selection: the
    three other slots are emptied whatever they held, the slot of the
    upload holds the new files, and the selection that [handleSubmit] then
    picks is the first file of this upload under its own type (none when
    the upload is empty). *)
Theorem upload_selects_one_item (type : Wizard.ClothingType)
    (files : list File) (s : Wizard.Slots) :
  let s' := Wizard.handleClothingUpload type files s in
  (Wizard.topImage s' = if Wizard.differs type Wizard.Top then [] else files)
  /\ (Wizard.bottomImage s'
      = if Wizard.differs type Wizard.Bottom then [] else files)
  /\ (Wizard.outerImage s'
      = if Wizard.differs type Wizard.Outer then [] else files)
  /\ (Wizard.dressImage s'
      = if Wizard.differs type Wizard.Dress then [] else files)
  /\ Wizard.hasClothingUploaded s' = Page.selected files
  /\ Wizard.selectedClothing s'
     = match files with
       | [] => None
       | file :: _ => Some (type, file)
       end.
Proof.
  destruct type, files as [|file rest]; repeat split.
Qed.

(** X30. The form built for the one selected item carries that image under
    the field of its own type and nothing under the three other clothing
    fields. *)
Theorem one_item_form (type field : Wizard.ClothingType)
    (modelFile compressedClothing : File) (numOutputs : Z) :
  Views.form_get (Wizard.field_of field)
    (remix_form modelFile (Wizard.clothingImages_of type compressedClothing)
       numOutputs)
  = if Wizard.differs field type then None
    else Some (FormFile compressedClothing).
Proof.
  destruct type, field;
    unfold remix_form, append_if, Wizard.clothingImages_of;
    cbn [top_image bottom_image outer_image dress_image app];
    destruct ((1 <=? numOutputs)%Z && (numOutputs <=? 4)%Z);
    reflexivity.
Qed.
